(** * vcluster: the cluster operation engine and its operation primitives

    A shallow embedding of the Go package [vclusterops]: the per-host HTTP
    result record, the error values built by [fmt.Errorf] and [errors.Join],
    the plan engine [VClusterOpEngine.run], the result processing of the NMA
    and HTTPS operations, the spread key generation and the coordination
    database.  Go maps that are only iterated are lists in iteration order
    (Go leaves that order unspecified, so every statement quantifies over
    all orders); maps that are looked up are [gmap]s. *)

From Stdlib Require Import ZArith NArith String Ascii List Lia DecimalString.
From Stdlib Require Strings.Byte.
From stdpp Require Import base gmap strings list fin_maps.

Open Scope Z_scope.
Set Warnings "-register-all".

(* ===================================================================== *)
(** * Part I: the embedding *)
(* ===================================================================== *)

(** ** Go error values *)

(** The three dynamic types of [error] the package builds:
    [errors.New] and [fmt.Errorf] without [%w] ([ErrorString]),
    [fmt.Errorf] with one [%w] verb ([WrapError], Go's [*fmt.wrapError]:
    the formatted message and the wrapped error), and [errors.Join]
    ([JoinError], Go's [*errors.joinError]).  A nil error is [None] in
    [option error]. *)
Inductive error : Type :=
| ErrorString (msg : string)
| WrapError (msg : string) (inner : error)
| JoinError (errs : list error).

(** [strings.Join]-like concatenation used by [joinError.Error]. *)
Fixpoint joinLines (l : list string) : string :=
  match l with
  | [] => EmptyString
  | x :: l' =>
      match l' with
      | [] => x
      | _ => x +:+ String "010"%char (joinLines l')
      end
  end.

(** The [Error()] method. *)
Fixpoint Error (e : error) : string :=
  match e with
  | ErrorString m => m
  | WrapError m _ => m
  | JoinError es => joinLines (List.map Error es)
  end.

(** [fmt.Errorf(pre + "%w" + post, err)] for a non-nil [err]. *)
Definition Errorf_w (pre : string) (e : error) (post : string) : error :=
  WrapError (pre +:+ Error e +:+ post) e.

(** [errors.Unwrap]. *)
Definition Unwrap (e : error) : option error :=
  match e with
  | WrapError _ inner => Some inner
  | _ => None
  end.

(** [errors.Join]: nil arguments are dropped; nil when none is left. *)
Definition errorsJoin (errs : list (option error)) : option error :=
  match omap id errs with
  | [] => None
  | es => Some (JoinError es)
  end.

(** The errors a value was joined from: [JoinError] nodes are opened,
    every other error is a leaf. *)
Fixpoint joinedErrors (e : error) : list error :=
  match e with
  | JoinError es => List.flat_map joinedErrors es
  | _ => [e]
  end.

Definition isJoin (e : error) : bool :=
  match e with JoinError _ => true | _ => false end.

(** Decimal rendering of an [int] ([%d], and [%v] of an integer). *)
Definition itoa (z : Z) : string := NilZero.string_of_int (Z.to_int z).

(** The double quote character, as a one-character string. *)
Definition dquote : string := String (ascii_of_nat 34) EmptyString.

(** ** Strings *)

(** [strings.Contains]. *)
Fixpoint stringsContains (s substr : string) : bool :=
  String.prefix substr s ||
  match s with
  | EmptyString => false
  | String _ s' => stringsContains s' substr
  end.

(** ** Per-host results ([HostHTTPResult]) *)

Inductive ResultStatus : Type := SUCCESS | FAILURE | EXCEPTION.

(** The underlying [int] of a [ResultStatus]. *)
Definition ResultStatus_int (s : ResultStatus) : Z :=
  match s with SUCCESS => 0 | FAILURE => 1 | EXCEPTION => 2 end.

Definition SuccessCode : Z := 200.
Definition MultipleChoiceCode : Z := 300.
Definition UnauthorizedCode : Z := 401.
Definition InternalErrorCode : Z := 500.

Definition wrongCredentialErrMsg : list string :=
  ["Wrong password"%string; "Wrong certificate"%string].

Record HostHTTPResult : Type := mkHostHTTPResult {
  status : ResultStatus;
  statusCode : Z;
  host : string;
  content : string;
  err : option error
}.

Definition IsUnauthorizedRequest (hostResult : HostHTTPResult) : bool :=
  statusCode hostResult =? UnauthorizedCode.

Definition IsInternalError (hostResult : HostHTTPResult) : bool :=
  statusCode hostResult =? InternalErrorCode.

Definition isPassing (hostResult : HostHTTPResult) : bool :=
  match err hostResult with None => true | Some _ => false end.

Definition isFailing (hostResult : HostHTTPResult) : bool :=
  match status hostResult with FAILURE => true | _ => false end.

Definition isException (hostResult : HostHTTPResult) : bool :=
  match status hostResult with EXCEPTION => true | _ => false end.

Definition IsHTTPRunning (hostResult : HostHTTPResult) : bool :=
  if isPassing hostResult || IsUnauthorizedRequest hostResult
     || IsInternalError hostResult
  then true else false.

Section Rendering.
(** What [%v] prints for a non-nil error held in the unexported field
    [err]: [fmt] cannot call [Error()] there and prints the dynamic
    value (for the pointer types of the standard library, an address).
    The rendering is left open. *)
Variable fmtErrField : error -> string.

(** [fmt.Sprintf("%v", hostResult)] for the pointer [hostResult]:
    the fields in declaration order between [&{] and [}]. *)
Definition sprintfV (hostResult : HostHTTPResult) : string :=
  "&{" +:+ itoa (ResultStatus_int (status hostResult)) +:+ " " +:+
  itoa (statusCode hostResult) +:+ " " +:+
  host hostResult +:+ " " +:+
  content hostResult +:+ " " +:+
  match err hostResult with
  | None => "<nil>"
  | Some e => fmtErrField e
  end +:+ "}".

(** The loop over [wrongCredentialErrMsg] of
    [IsPasswordandCertificateError]. *)
Fixpoint anyContained (resultString : string) (msgs : list string) : bool :=
  match msgs with
  | [] => false
  | msg :: rest =>
      if stringsContains resultString msg then true
      else anyContained resultString rest
  end.

Definition IsPasswordandCertificateError (hostResult : HostHTTPResult) : bool :=
  if negb (IsUnauthorizedRequest hostResult) then false
  else
    let resultString := sprintfV hostResult in
    anyContained resultString wrongCredentialErrMsg.
End Rendering.

(** ** Logging and fallible results *)

(** One call of a logging function with the values passed to it:
    [op.log.Info(msg, keysAndValues...)], [vlog.LogInfo] with its
    formatted message, and [op.logResponse(host, result)]. *)
Inductive logEntry : Type :=
| Info (msg : string) (keysAndValues : list string)
| LogInfo (msg : string)
| LogResponse (opName hostName : string) (result : HostHTTPResult).

(** The strings handed to one log call. *)
Definition loggedStrings (entry : logEntry) : list string :=
  match entry with
  | Info msg kvs => msg :: kvs
  | LogInfo msg => [msg]
  | LogResponse opName hostName r => [opName; hostName; content r]
  end.

(** A Go [(value, error)] return: the value when the error is nil. *)
Inductive result (A : Type) : Type :=
| Ok (a : A)
| Fail (e : error).
Arguments Ok {A} a.
Arguments Fail {A} e.

(** [OpResponseMap]. *)
Abbreviation OpResponseMap := (gmap string string).

(** ** Randomness *)

(** The state of [math/rand]: the raw draws still to come. *)
Definition rng : Type := nat -> nat.

(** [rand.Intn(n)]: a draw reduced to [[0, n)]. *)
Definition randIntn (n : nat) (g : rng) : nat * rng :=
  (Nat.modulo (g 0%nat) n, fun i => g (S i)).

(** [crypto/rand]: the reader fails, or it supplies a byte for every
    position of the buffer it is given. *)
Inductive cryptoSource : Type :=
| CryptoFails (e : error)
| CryptoStream (bytes : nat -> Byte.byte).

(** [crand.Read(b)]: on success every position of [b] is overwritten;
    the length of a Go slice cannot change. *)
Definition crandRead (src : cryptoSource) (b : list Byte.byte)
  : list Byte.byte * option error :=
  match src with
  | CryptoFails e => (b, Some e)
  | CryptoStream f => (imap (fun i _ => f i) b, None)
  end.

(** Indexing a byte slice; every use below indexes under the length (Go
    panics otherwise). *)
Definition byteAt (s : list Byte.byte) (i : nat) : Byte.byte :=
  nth i s Byte.x00.

(** [encoding/hex]: [hextable] and [EncodeToString]. *)
Definition hextable : list Byte.byte := list_byte_of_string "0123456789abcdef".

Definition hexEncodeToString (src : list Byte.byte) : string :=
  string_of_list_byte
    (List.flat_map
       (fun v =>
          [byteAt hextable (N.to_nat (N.shiftr (Byte.to_N v) 4));
           byteAt hextable (N.to_nat (N.land (Byte.to_N v) 15))])
       src).

(** ** Spread security ([nmaSpreadSecurityOp]) *)

Module NMASpreadSecurityOp.

Record nmaSpreadSecurityOp : Type := mkOp {
  name : string;
  hosts : list string;
  catalogPathMap : gmap string string;
  keyType : string;
  (* [clusterHTTPRequest.ResultCollection], in the iteration order of
     the [range] loop that reads it *)
  ResultCollection : list (string * HostHTTPResult)
}.

Record nmaSpreadSecurityPayload : Type := mkPayload {
  CatalogPath : string;
  SpreadSecurityDetails : string
}.

Definition spreadKeyTypeVertica : string := "vertica".

Definition spreadKeySize : nat := 32.
Definition keyLength : nat := 4.
Definition availChars : list Byte.byte :=
  list_byte_of_string "abcdefghijklmnopqrstuvwxyz0123456789".

Definition generateVerticaSpreadKey (src : cryptoSource) : result string :=
  let bytes := replicate spreadKeySize Byte.x00 in
  match crandRead src bytes with
  | (_, Some e) =>
      Fail (Errorf_w "failed to generate random bytes for spread: " e "")
  | (bytes', None) => Ok (hexEncodeToString bytes')
  end.

(** The loop [for i := range b] of [generateKeyID]. *)
Fixpoint fillKeyID (idxs : list nat) (b : list Byte.byte) (g : rng)
  : list Byte.byte * rng :=
  match idxs with
  | [] => (b, g)
  | i :: rest =>
      let '(r, g') := randIntn (length availChars) g in
      fillKeyID rest (<[i := byteAt availChars r]> b) g'
  end.

Definition generateKeyID (g : rng) : string * rng :=
  let b := replicate keyLength Byte.x00 in
  let '(b', g') := fillKeyID (seq 0 (length b)) b g in
  (string_of_list_byte b', g').

Definition generateSecurityDetails (op : nmaSpreadSecurityOp)
    (g : rng) (src : cryptoSource) : result string * rng :=
  let '(keyID, g') := generateKeyID g in
  if String.eqb (keyType op) spreadKeyTypeVertica then
    match generateVerticaSpreadKey src with
    | Fail e => (Fail e, g')
    | Ok spreadKey => (Ok ("{" +:+ keyID +:+ ": " +:+ spreadKey +:+ "}"), g')
    end
  else
    (Fail (ErrorString ("unsupported spread key type " +:+ keyType op)), g').

Section WithEnv.
(** [getCatalogPath], a helper of the package defined with the catalog
    editor operation. *)
Variable getCatalogPath : string -> string.
(** [json.Marshal] of the payload. *)
Variable jsonMarshal : nmaSpreadSecurityPayload -> result string.
(** [%v] of the catalog path map. *)
Variable fmtMap : gmap string string -> string.
(** [parseAndCheckMapResponse(host, content)] of [OpBase] with the
    JSON decoder [util.GetJSONLogErrors] it calls. *)
Variable parseAndCheckMapResponse :
  string -> string -> string -> result OpResponseMap.

(** The loop over [op.hosts] of [setupRequestBody]; [log] collects
    the log calls in order. *)
Fixpoint setupRequestBody_loop (op : nmaSpreadSecurityOp)
    (securityDetails : string) (todo : list string)
    (hostRequestBodyMap : gmap string string) (log : list logEntry)
  : list logEntry * result (gmap string string) :=
  match todo with
  | [] => (log, Ok hostRequestBodyMap)
  | h :: rest =>
      match catalogPathMap op !! h with
      | None =>
          (log, Fail (ErrorString
             ("could not find host " +:+ h +:+ " in catalogPathMap " +:+
              fmtMap (catalogPathMap op))))
      | Some fullCatalogPath =>
          let payload :=
            {| CatalogPath := getCatalogPath fullCatalogPath;
               SpreadSecurityDetails := securityDetails |} in
          let log1 := log ++
            [Info "payload setup"
               ["catalogPath"%string; CatalogPath payload;
                "securityDetails"%string; securityDetails]] in
          match jsonMarshal payload with
          | Fail e =>
              (log1, Fail (Errorf_w
                 ("[" +:+ name op +:+
                  "] fail to marshal payload data into JSON string, detail ")
                 e ""))
          | Ok dataBytes =>
              let log2 := log1 ++
                [Info "mashaled payload" ["payload"%string; dataBytes]] in
              setupRequestBody_loop op securityDetails rest
                (<[h := dataBytes]> hostRequestBodyMap) log2
          end
      end
  end.

Definition setupRequestBody (op : nmaSpreadSecurityOp)
    (g : rng) (src : cryptoSource)
  : list logEntry * result (gmap string string) * rng :=
  if (length (hosts op) =? 0)%nat then
    ([], Fail (ErrorString ("[" +:+ name op +:+ "] no hosts specified")), g)
  else
    match generateSecurityDetails op g src with
    | (Fail e, g') => ([], Fail e, g')
    | (Ok securityDetails, g') =>
        let '(log, r) :=
          setupRequestBody_loop op securityDetails (hosts op) ∅ [] in
        (log, r, g')
    end.

(** The loop of [processResult]: [allErrs] is the accumulated join;
    the function returns the log and the error returned. *)
Fixpoint processResult_loop (op : nmaSpreadSecurityOp)
    (todo : list (string * HostHTTPResult)) (allErrs : option error)
    (log : list logEntry) : list logEntry * option error :=
  match todo with
  | [] => (log, None)
  | (h, r) :: rest =>
      let log1 := log ++ [LogResponse (name op) h r] in
      if isPassing r then
        match parseAndCheckMapResponse (name op) h (content r) with
        | Fail e => (log1, errorsJoin [allErrs; Some e])
        | Ok _ => processResult_loop op rest allErrs log1
        end
      else
        processResult_loop op rest (errorsJoin [allErrs; err r]) log1
  end.

Definition processResult (op : nmaSpreadSecurityOp)
  : list logEntry * option error :=
  processResult_loop op (ResultCollection op) None [].
End WithEnv.

End NMASpreadSecurityOp.

(** ** Shared file content *)

(** The [*string] cells that operations share (the download operation
    writes the cell the upload operation reads): a store from addresses
    to strings.  Operations are built with the address of a live
    variable, so a dereference always finds a cell; a missing cell reads
    as the empty string. *)
Abbreviation heap := (gmap nat string).

Definition deref (hp : heap) (p : nat) : string := default EmptyString (hp !! p).

(** ** Download config ([NMADownloadConfigOp]) *)

Module NMADownloadConfigOp.

Record NMADownloadConfigOp : Type := mkOp {
  name : string;
  hosts : list string;
  catalogPathMap : gmap string string;
  endpoint : string;
  fileContent : nat;
  ResultCollection : list (string * HostHTTPResult)
}.

Definition noPassingHost : error :=
  ErrorString "could not find a host with a passing result".

(** The loop of [processResult]: returns the store, the log and the
    error returned. *)
Fixpoint processResult_loop (op : NMADownloadConfigOp)
    (todo : list (string * HostHTTPResult)) (allErrs : option error)
    (hp : heap) (log : list logEntry) : heap * list logEntry * option error :=
  match todo with
  | [] => (hp, log, errorsJoin [allErrs; Some noPassingHost])
  | (h, r) :: rest =>
      let log1 := log ++ [LogResponse (name op) h r] in
      if isPassing r then
        (<[fileContent op := content r]> hp, log1, None)
      else
        processResult_loop op rest (errorsJoin [allErrs; err r]) hp log1
  end.

Definition processResult (op : NMADownloadConfigOp) (hp : heap)
  : heap * list logEntry * option error :=
  processResult_loop op (ResultCollection op) None hp [].

End NMADownloadConfigOp.

(** ** Check subcluster ([httpsCheckSubclusterOp]) *)

Module HTTPSCheckSubclusterOp.

Record httpsCheckSubclusterOp : Type := mkOp {
  name : string;
  scName : string;
  isSecondary : bool;
  ctlSetSize : Z;
  ResultCollection : list (string * HostHTTPResult)
}.

Record scInfo : Type := mkScInfo {
  SCName : string;
  IsSecondary : bool;
  CtlSetSize : Z
}.

Section WithEnv.
(** [parseAndCheckResponse(host, content, &subclusterInfo)]: the JSON
    decoding into [scInfo]. *)
Variable parseAndCheckResponse : string -> string -> string -> result scInfo.

(** The checks made on a passing host's response. *)
Definition checkResponse (op : httpsCheckSubclusterOp)
    (h : string) (r : HostHTTPResult) : option error :=
  match parseAndCheckResponse (name op) h (content r) with
  | Fail e =>
      Some (Errorf_w ("[" +:+ name op +:+ "] fail to parse result on host " +:+
                      h +:+ ", details: ") e "")
  | Ok subclusterInfo =>
      if negb (String.eqb (SCName subclusterInfo) (scName op)) then
        Some (ErrorString ("[" +:+ name op +:+ "] new subcluster name should be '" +:+
                           scName op +:+ "' but got '" +:+
                           SCName subclusterInfo +:+ "'"))
      else if negb (Bool.eqb (IsSecondary subclusterInfo) (isSecondary op)) then
        if isSecondary op then
          Some (ErrorString ("[" +:+ name op +:+
            "] new subcluster should be a secondary subcluster but got a primary subcluster"))
        else
          Some (ErrorString ("[" +:+ name op +:+
            "] new subcluster should be a primary subcluster but got a secondary subcluster"))
      else if negb (CtlSetSize subclusterInfo =? ctlSetSize op) then
        Some (ErrorString ("[" +:+ name op +:+
          "] new subcluster should have control set size as " +:+
          itoa (ctlSetSize op) +:+ " but got " +:+
          itoa (CtlSetSize subclusterInfo)))
      else None
  end.

(** The loop of [processResult]; [e] is the local variable [err]. *)
Fixpoint processResult_loop (op : httpsCheckSubclusterOp)
    (todo : list (string * HostHTTPResult)) (e : option error)
    (log : list logEntry) : list logEntry * option error :=
  match todo with
  | [] => (log, e)
  | (h, r) :: rest =>
      let log1 := log ++ [LogResponse (name op) h r] in
      if IsUnauthorizedRequest r then (log1, err r)
      else if negb (isPassing r) then
        processResult_loop op rest (err r) log1
      else (log1, checkResponse op h r)
  end.

Definition processResult (op : httpsCheckSubclusterOp)
  : list logEntry * option error :=
  processResult_loop op (ResultCollection op) None [].
End WithEnv.

End HTTPSCheckSubclusterOp.

(** ** Sandbox a subcluster ([httpsSandboxingOp]) *)

Module HTTPSSandboxingOp.

Record httpsSandboxingOp : Type := mkOp {
  name : string;
  hostRequestBodyMap : gmap string string;
  scName : string;
  sandboxName : string;
  ResultCollection : list (string * HostHTTPResult)
}.

Section WithEnv.
Variable parseAndCheckMapResponse :
  string -> string -> string -> result OpResponseMap.

Fixpoint processResult_loop (op : httpsSandboxingOp)
    (todo : list (string * HostHTTPResult)) (allErrs : option error)
    (log : list logEntry) : list logEntry * option error :=
  match todo with
  | [] => (log, allErrs)
  | (h, r) :: rest =>
      let log1 := log ++ [LogResponse (name op) h r] in
      if IsUnauthorizedRequest r then (log1, err r)
      else if negb (isPassing r) then
        processResult_loop op rest (errorsJoin [allErrs; err r]) log1
      else
        match parseAndCheckMapResponse (name op) h (content r) with
        | Fail e =>
            (log1,
             Some (Errorf_w ("[" +:+ name op +:+ "] fail to parse result on host " +:+
                             h +:+ ", details: ") e ""))
        | Ok _ => (log1, None)
        end
  end.

Definition processResult (op : httpsSandboxingOp)
  : list logEntry * option error :=
  processResult_loop op (ResultCollection op) None [].
End WithEnv.

End HTTPSSandboxingOp.

(** ** Coordination database ([VCoordinationDatabase]) *)

(** A call that may panic instead of returning. *)
Inductive outcome (A : Type) : Type :=
| Returns (a : A)
| Panics (msg : string).
Arguments Returns {A} a.
Arguments Panics {A} msg.

Record VCoordinationNode : Type := mkVCoordinationNode {
  Name : string;
  Address : string;
  CatalogPath : string;
  StorageLocations : list string;
  UserStorageLocations : list string;
  DepotPath : string;
  Port : Z;
  ControlAddressFamily : string;
  IsPrimary : bool;
  State : string;
  Subcluster : string
}.

Definition makeVCoordinationNode : VCoordinationNode :=
  {| Name := ""; Address := ""; CatalogPath := ""; StorageLocations := [];
     UserStorageLocations := []; DepotPath := ""; Port := 0;
     ControlAddressFamily := ""; IsPrimary := false; State := "";
     Subcluster := "" |}.

(** [vHostNodeMap]: a Go map is nil ([None]) until it is made; a nil map
    reads as empty and panics on assignment. *)
Abbreviation vHostNodeMap := (option (gmap string VCoordinationNode)).

Definition makeVHostNodeMap : vHostNodeMap := Some ∅.

(** The entries of a possibly nil map. *)
Definition entries (m : vHostNodeMap) : gmap string VCoordinationNode :=
  match m with
  | Some g => g
  | None => ∅
  end.

Record VCoordinationDatabase : Type := mkVCoordinationDatabase {
  DBName : string;   (* the field [Name] *)
  CatalogPrefix : string;
  DataPrefix : string;
  HostNodeMap : vHostNodeMap;
  HostList : list string;
  IsEon : bool;
  CommunalStorageLocation : string;
  UseDepot : bool;
  DepotPrefix : string;
  DepotSize : string;
  AwsIDKey : string;
  AwsSecretKey : string;
  NumShards : Z;
  LicensePathOnNode : string;
  Ipv6 : bool;
  PrimaryUpNodes : list string
}.

Definition makeVCoordinationDatabase : VCoordinationDatabase :=
  {| DBName := ""; CatalogPrefix := ""; DataPrefix := ""; HostNodeMap := None;
     HostList := []; IsEon := false; CommunalStorageLocation := "";
     UseDepot := false; DepotPrefix := ""; DepotSize := ""; AwsIDKey := "";
     AwsSecretKey := ""; NumShards := 0; LicensePathOnNode := "";
     Ipv6 := false; PrimaryUpNodes := [] |}.

(** The two fields [addNode] assigns. *)
Definition setHosts (vdb : VCoordinationDatabase) (m : vHostNodeMap)
    (l : list string) : VCoordinationDatabase :=
  {| DBName := DBName vdb; CatalogPrefix := CatalogPrefix vdb;
     DataPrefix := DataPrefix vdb; HostNodeMap := m; HostList := l;
     IsEon := IsEon vdb; CommunalStorageLocation := CommunalStorageLocation vdb;
     UseDepot := UseDepot vdb; DepotPrefix := DepotPrefix vdb;
     DepotSize := DepotSize vdb; AwsIDKey := AwsIDKey vdb;
     AwsSecretKey := AwsSecretKey vdb; NumShards := NumShards vdb;
     LicensePathOnNode := LicensePathOnNode vdb; Ipv6 := Ipv6 vdb;
     PrimaryUpNodes := PrimaryUpNodes vdb |}.

(** The fields of [NodeConfig] that [setFromNodeConfig] reads. *)
Record NodeConfig : Type := mkNodeConfig {
  nc_Address : string;
  nc_Name : string;
  nc_Subcluster : string
}.

(** [addNode]: a host already in [HostNodeMap] is refused; otherwise the
    node enters the map and its address is appended to [HostList]. *)
Definition addNode (vdb : VCoordinationDatabase) (vnode : VCoordinationNode)
  : outcome (VCoordinationDatabase * option error) :=
  match entries (HostNodeMap vdb) !! Address vnode with
  | Some _ =>
      Returns (vdb, Some (ErrorString ("host " +:+ Address vnode +:+
                                       " has already been in the VDB's HostList")))
  | None =>
      match HostNodeMap vdb with
      | None => Panics "assignment to entry in nil map"
      | Some m =>
          Returns (setHosts vdb (Some (<[Address vnode := vnode]> m))
                     (HostList vdb ++ [Address vnode]),
                   None)
      end
  end.

(** [genNodeNameToHostMap]: node name to host, over the entries of
    [HostNodeMap]. *)
Definition genNodeNameToHostMap (vdb : VCoordinationDatabase) : gmap string string :=
  map_fold (fun h vnode vnodes => <[Name vnode := h]> vnodes) ∅
    (entries (HostNodeMap vdb)).

Section WithUtil.
(** [path/filepath.Join]. *)
Variable filepathJoin : list string -> string.
(** [util.IPv6ControlAddressFamily], [util.DefaultControlAddressFamily]. *)
Variable IPv6ControlAddressFamily DefaultControlAddressFamily : string.
(** [util.GenVNodeName(nodeNameToHost, dbName, hostCount)]: a fresh node
    name, or not ok. *)
Variable GenVNodeName : gmap string string -> string -> Z -> option string.

Definition genDataPath (vdb : VCoordinationDatabase) (nodeName : string) : string :=
  filepathJoin [DataPrefix vdb; DBName vdb; nodeName +:+ "_data"].

Definition genDepotPath (vdb : VCoordinationDatabase) (nodeName : string) : string :=
  filepathJoin [DepotPrefix vdb; DBName vdb; nodeName +:+ "_depot"].

Definition genCatalogPath (vdb : VCoordinationDatabase) (nodeName : string) : string :=
  filepathJoin [CatalogPrefix vdb; DBName vdb; nodeName +:+ "_catalog"].

Definition setFromNodeConfig (vnode : VCoordinationNode)
    (nodeConfig : NodeConfig) (vdb : VCoordinationDatabase) : VCoordinationNode :=
  {| Name := nc_Name nodeConfig;
     Address := nc_Address nodeConfig;
     CatalogPath := genCatalogPath vdb (nc_Name nodeConfig);
     StorageLocations :=
       StorageLocations vnode ++ [genDataPath vdb (nc_Name nodeConfig)];
     UserStorageLocations := UserStorageLocations vnode;
     DepotPath :=
       if negb (String.eqb (DepotPrefix vdb) "")
       then genDepotPath vdb (nc_Name nodeConfig) else DepotPath vnode;
     Port := Port vnode;
     ControlAddressFamily :=
       if Ipv6 vdb then IPv6ControlAddressFamily else DefaultControlAddressFamily;
     IsPrimary := IsPrimary vnode;
     State := State vnode;
     Subcluster := nc_Subcluster nodeConfig |}.

(** The loop of [addHosts]. *)
Fixpoint addHosts_loop (todo : list string) (scName : string)
    (totalHostCount : Z) (nodeNameToHost : gmap string string)
    (vdb : VCoordinationDatabase)
  : outcome (VCoordinationDatabase * option error) :=
  match todo with
  | [] => Returns (vdb, None)
  | h :: rest =>
      let vNode := makeVCoordinationNode in
      match GenVNodeName nodeNameToHost (DBName vdb) totalHostCount with
      | None =>
          Returns (vdb, Some (ErrorString
                     ("could not generate a vnode name for " +:+ h)))
      | Some nodeName =>
          let nodeNameToHost' := <[nodeName := h]> nodeNameToHost in
          let nodeConfig :=
            {| nc_Address := h; nc_Name := nodeName; nc_Subcluster := scName |} in
          let vNode' := setFromNodeConfig vNode nodeConfig vdb in
          match addNode vdb vNode' with
          | Panics msg => Panics msg
          | Returns (vdb', Some e) => Returns (vdb', Some e)
          | Returns (vdb', None) =>
              addHosts_loop rest scName totalHostCount nodeNameToHost' vdb'
          end
      end
  end.

Definition addHosts (vdb : VCoordinationDatabase) (hosts : list string)
    (scName : string) : outcome (VCoordinationDatabase * option error) :=
  let totalHostCount := Z.of_nat (length hosts) + Z.of_nat (length (HostList vdb)) in
  let nodeNameToHost := genNodeNameToHostMap vdb in
  addHosts_loop hosts scName totalHostCount nodeNameToHost vdb.
End WithUtil.

(** ** Execution context and requests *)

(** A per-host request ([HostHTTPRequest]): the fields the operations
    below assign. *)
Record HostHTTPRequest : Type := mkHostHTTPRequest {
  Method : string;
  Endpoint : string;
  RequestData : string
}.

Definition PostMethod : string := "POST".

(** [OpEngineExecContext]: the fields the operations below use.  The
    dispatcher is represented by the hosts its pool was last set up
    for; [NmaVDatabase] is the type of the parsed catalog. *)
Record OpEngineExecContext (NmaVDatabase : Type) : Type := mkExecContext {
  dispatcher : list string;
  hostsWithLatestCatalog : list string;
  nmaVDatabase : NmaVDatabase
}.
Arguments mkExecContext {NmaVDatabase}.
Arguments dispatcher {NmaVDatabase}.
Arguments hostsWithLatestCatalog {NmaVDatabase}.
Arguments nmaVDatabase {NmaVDatabase}.

(** [dispatcher.Setup(hosts)]. *)
Definition dispatcherSetup {N : Type} (ctx : OpEngineExecContext N)
    (hosts : list string) : OpEngineExecContext N :=
  {| dispatcher := hosts;
     hostsWithLatestCatalog := hostsWithLatestCatalog ctx;
     nmaVDatabase := nmaVDatabase ctx |}.

(** ** Upload config ([NMAUploadConfigOp]) *)

Module NMAUploadConfigOp.

(** The field [CatalogPath] of a node, before the request data below
    declares a field of the same name. *)
Definition vnodeCatalogPath (vnode : VCoordinationNode) : string :=
  CatalogPath vnode.

Record NMAUploadConfigOp : Type := mkOp {
  name : string;
  hosts : list string;
  skipExecute : bool;
  RequestCollection : gmap string HostHTTPRequest;
  catalogPathMap : gmap string string;
  endpoint : string;
  fileContent : nat;
  hostRequestBodyMap : gmap string string;
  sourceConfigHost : option (list string);   (* a nil slice is [None] *)
  destHosts : list string;
  vdb : option VCoordinationDatabase;        (* a nil pointer is [None] *)
  encryptSpread : bool
}.

Record uploadConfigRequestData : Type := mkData {
  CatalogPath : string;
  Content : string
}.

Definition makeNMAUploadConfigOp (opName : string)
    (sourceConfigHost : option (list string)) (targetHosts : list string)
    (endpoint : string) (fileContent : nat)
    (vdb : option VCoordinationDatabase) (encryptSpread : bool)
  : NMAUploadConfigOp :=
  {| name := opName; hosts := []; skipExecute := false;
     RequestCollection := ∅; catalogPathMap := ∅; endpoint := endpoint;
     fileContent := fileContent; hostRequestBodyMap := ∅;
     sourceConfigHost := sourceConfigHost; destHosts := targetHosts;
     vdb := vdb; encryptSpread := encryptSpread |}.

(** Field updates. *)
Definition setHosts (op : NMAUploadConfigOp) (hs : list string) :=
  {| name := name op; hosts := hs; skipExecute := skipExecute op;
     RequestCollection := RequestCollection op;
     catalogPathMap := catalogPathMap op; endpoint := endpoint op;
     fileContent := fileContent op; hostRequestBodyMap := hostRequestBodyMap op;
     sourceConfigHost := sourceConfigHost op; destHosts := destHosts op;
     vdb := vdb op; encryptSpread := encryptSpread op |}.

Definition setSkipExecute (op : NMAUploadConfigOp) (b : bool) :=
  {| name := name op; hosts := hosts op; skipExecute := b;
     RequestCollection := RequestCollection op;
     catalogPathMap := catalogPathMap op; endpoint := endpoint op;
     fileContent := fileContent op; hostRequestBodyMap := hostRequestBodyMap op;
     sourceConfigHost := sourceConfigHost op; destHosts := destHosts op;
     vdb := vdb op; encryptSpread := encryptSpread op |}.

Definition setCatalogPathMap (op : NMAUploadConfigOp) (m : gmap string string) :=
  {| name := name op; hosts := hosts op; skipExecute := skipExecute op;
     RequestCollection := RequestCollection op;
     catalogPathMap := m; endpoint := endpoint op;
     fileContent := fileContent op; hostRequestBodyMap := hostRequestBodyMap op;
     sourceConfigHost := sourceConfigHost op; destHosts := destHosts op;
     vdb := vdb op; encryptSpread := encryptSpread op |}.

Definition setHostRequestBodyMap (op : NMAUploadConfigOp) (m : gmap string string) :=
  {| name := name op; hosts := hosts op; skipExecute := skipExecute op;
     RequestCollection := RequestCollection op;
     catalogPathMap := catalogPathMap op; endpoint := endpoint op;
     fileContent := fileContent op; hostRequestBodyMap := m;
     sourceConfigHost := sourceConfigHost op; destHosts := destHosts op;
     vdb := vdb op; encryptSpread := encryptSpread op |}.

Definition setRequestCollection (op : NMAUploadConfigOp)
    (m : gmap string HostHTTPRequest) :=
  {| name := name op; hosts := hosts op; skipExecute := skipExecute op;
     RequestCollection := m;
     catalogPathMap := catalogPathMap op; endpoint := endpoint op;
     fileContent := fileContent op; hostRequestBodyMap := hostRequestBodyMap op;
     sourceConfigHost := sourceConfigHost op; destHosts := destHosts op;
     vdb := vdb op; encryptSpread := encryptSpread op |}.

(** The literal [spreadKeyPayload] of [setupRequestBody]. *)
Definition spreadKeyPayload : string :=
  "{" +:+ dquote +:+ "y17b" +:+ dquote +:+ ": " +:+ dquote +:+
  "26169b33c812e9d1db67ec1dd3046a23219aa1e32840a105322de2dd06752279" +:+
  dquote +:+ "}".

Definition newline : string := String "010"%char EmptyString.

Section WithEnv.
Variable NmaVDatabase : Type.
(** [util.SliceDiff(m, n)]: the elements of [m] that are not in [n]. *)
Variable SliceDiff : list string -> list string -> list string.
(** [updateCatalogPathMapFromCatalogEditor(hosts, &nmaVDB, catalogPathMap)]:
    the map after the call and the error. *)
Variable updateCatalogPathMapFromCatalogEditor :
  list string -> NmaVDatabase -> gmap string string ->
  gmap string string * option error.
Variable getCatalogPath : string -> string.
(** [json.Marshal] of the request data. *)
Variable jsonMarshal : uploadConfigRequestData -> result string.
(** [BuildNMAEndpoint]: the URL path of an NMA endpoint. *)
Variable BuildNMAEndpoint : string -> string.

(** The loop over [hosts] of [setupRequestBody]. *)
Fixpoint setupRequestBody_loop (op : NMAUploadConfigOp) (hp : heap)
    (todo : list string) : NMAUploadConfigOp * option error :=
  match todo with
  | [] => (op, None)
  | h :: rest =>
      let uploadConfigData :=
        {| CatalogPath := default EmptyString (catalogPathMap op !! h);
           Content := deref hp (fileContent op) |} in
      match jsonMarshal uploadConfigData with
      | Fail e =>
          (op, Some (Errorf_w ("[" +:+ name op +:+
               "] fail to marshal request data to JSON string, detail ") e ""))
      | Ok dataBytes =>
          setupRequestBody_loop
            (setHostRequestBodyMap op (<[h := dataBytes]> (hostRequestBodyMap op)))
            hp rest
      end
  end.

Definition setupRequestBody (op : NMAUploadConfigOp) (hp : heap)
    (hs : list string)
  : NMAUploadConfigOp * heap * list logEntry * option error :=
  let op1 := setHostRequestBodyMap op ∅ in
  let '(hp1, log) :=
    if encryptSpread op1 then
      let newContent :=
        deref hp (fileContent op1) +:+ newline +:+ "# SPILLY added by me" +:+
        newline +:+ "# VSpreadKey: " +:+ spreadKeyPayload in
      let hp' := <[fileContent op1 := newContent]> hp in
      (hp', [Info "modified spread conf"
               ["contents"%string; deref hp' (fileContent op1)]])
    else (hp, []) in
  let '(op2, e) := setupRequestBody_loop op1 hp1 hs in
  (op2, hp1, log, e).

(** The loop over [hosts] of [setupClusterHTTPRequest]. *)
Fixpoint setupClusterHTTPRequest_loop (op : NMAUploadConfigOp)
    (todo : list string) (reqs : gmap string HostHTTPRequest)
  : gmap string HostHTTPRequest :=
  match todo with
  | [] => reqs
  | h :: rest =>
      let httpRequest :=
        {| Method := PostMethod;
           Endpoint := BuildNMAEndpoint (endpoint op);
           RequestData := default EmptyString (hostRequestBodyMap op !! h) |} in
      setupClusterHTTPRequest_loop op rest (<[h := httpRequest]> reqs)
  end.

Definition setupClusterHTTPRequest (op : NMAUploadConfigOp) (hs : list string)
  : NMAUploadConfigOp * option error :=
  (setRequestCollection op (setupClusterHTTPRequest_loop op hs ∅), None).

(** The part of [prepare] after the target hosts and the catalog
    paths are set: request bodies, dispatcher, requests. *)
Definition prepare_requests (op : NMAUploadConfigOp) (hp : heap)
    (execContext : OpEngineExecContext NmaVDatabase) (log : list logEntry)
  : NMAUploadConfigOp * heap * OpEngineExecContext NmaVDatabase *
    list logEntry * option error :=
  let '(op1, hp1, log1, e) := setupRequestBody op hp (hosts op) in
  match e with
  | Some e' => (op1, hp1, execContext, log ++ log1, Some e')
  | None =>
      let execContext' := dispatcherSetup execContext (hosts op1) in
      let '(op2, e2) := setupClusterHTTPRequest op1 (hosts op1) in
      (op2, hp1, execContext', log ++ log1, e2)
  end.

(** The part of [prepare] that reads the catalog paths from the
    catalog editor. *)
Definition prepare_fromCatalogEditor (op : NMAUploadConfigOp) (hp : heap)
    (execContext : OpEngineExecContext NmaVDatabase) (log : list logEntry)
  : NMAUploadConfigOp * heap * OpEngineExecContext NmaVDatabase *
    list logEntry * option error :=
  let nmaVDB := nmaVDatabase execContext in
  let '(m, e) :=
    updateCatalogPathMapFromCatalogEditor (hosts op) nmaVDB (catalogPathMap op) in
  let op1 := setCatalogPathMap op m in
  match e with
  | Some e' =>
      (op1, hp, execContext, log,
       Some (Errorf_w "failed to get catalog paths from catalog editor: " e' ""))
  | None => prepare_requests op1 hp execContext log
  end.

Definition prepare (op : NMAUploadConfigOp) (hp : heap)
    (execContext : OpEngineExecContext NmaVDatabase)
  : NMAUploadConfigOp * heap * OpEngineExecContext NmaVDatabase *
    list logEntry * option error :=
  let op0 := setCatalogPathMap op ∅ in
  let noNodeInfo :=
    match vdb op0 with
    | None => true
    | Some v => (size (entries (HostNodeMap v)) =? 0)%nat
    end in
  if noNodeInfo then
    match sourceConfigHost op0 with
    | None =>
        let hostsWithLatestCatalog := hostsWithLatestCatalog execContext in
        if (length hostsWithLatestCatalog =? 0)%nat then
          (op0, hp, execContext, [],
           Some (ErrorString
                   "could not find at least one host with the latest catalog"))
        else
          let hostsNeedCatalogSync :=
            SliceDiff (destHosts op0) hostsWithLatestCatalog in
          let op1 := setHosts op0 hostsNeedCatalogSync in
          if (length (hosts op1) =? 0)%nat then
            (setSkipExecute op1 true, hp, execContext,
             [LogInfo "no hosts require an upload, skipping the operation"],
             None)
          else prepare_fromCatalogEditor op1 hp execContext []
    | Some src =>
        let op1 := setHosts op0 (SliceDiff (destHosts op0) src) in
        prepare_fromCatalogEditor op1 hp execContext []
    end
  else
    let op1 := setHosts op0 (destHosts op0) in
    let paths :=
      map_fold
        (fun h vnode acc => <[h := getCatalogPath (vnodeCatalogPath vnode)]> acc)
        (catalogPathMap op1)
        (entries (match vdb op1 with
                  | Some v => HostNodeMap v
                  | None => None
                  end)) in
    prepare_requests (setCatalogPathMap op1 paths) hp execContext [].
End WithEnv.

End NMAUploadConfigOp.

(** ** The plan engine ([VClusterOpEngine]) *)

Module VClusterOpEngine.

Record httpsCerts : Type := mkCerts {
  key : string;
  cert : string;
  caCert : string
}.

(** The methods of the [clusterOp] interface that [run] calls. *)
Inductive method : Type :=
| SetupBasicInfo | LogPrepare | Prepare | GetName | IsSkipExecute
| LoadCertsIfNeeded | LogExecute | Execute | LogFinalize | Finalize.

(** What a call returned. *)
Inductive retval : Type :=
| RNone
| RBool (b : bool)
| RString (s : string)
| RError (e : option error).

(** One method call on the operation at position [opIndex] of the plan. *)
Record call : Type := Call {
  opIndex : nat;
  meth : method;
  ret : retval
}.

Section WithWorld.
(** Everything the operations of a plan can read and write: their own
    fields, the cells they share, the execution context, the remote
    hosts.  The operations of a plan are handed the same execution
    context and may share pointers, so one state is threaded through
    all calls. *)
Variable World : Type.

(** The [clusterOp] interface. *)
Record clusterOp : Type := mkClusterOp {
  setupBasicInfo : World -> World;
  logPrepare : World -> World;
  prepare : World -> World * option error;
  getName : World -> string;
  isSkipExecute : World -> bool;
  loadCertsIfNeeded : httpsCerts -> bool -> World -> World * option error;
  logExecute : World -> World;
  execute : World -> World * option error;
  logFinalize : World -> World;
  finalize : World -> World * option error
}.

Record VClusterOpEngine : Type := mkEngine {
  instructions : list clusterOp;
  certs : httpsCerts
}.

(** [makeOpEngineExecContext(logger)] stored in [opEngine.execContext],
    and [logger.PrintWithIndent] with its formatted message. *)
Variable makeOpEngineExecContext : World -> World.
Variable PrintWithIndent : string -> World -> World.

Definition shouldGetCertsFromOptions (opEngine : VClusterOpEngine) : bool :=
  negb (String.eqb (key (certs opEngine)) "") &&
  negb (String.eqb (cert (certs opEngine)) "") &&
  negb (String.eqb (caCert (certs opEngine)) "").

(** The state of a run: the world and the calls made so far; a
    computation returns a value or the error [run] returns. *)
Definition St : Type := World * list call.
Definition M (A : Type) : Type := St -> result A * St.

#[local] Instance M_ret : MRet M := fun A a s => (Ok a, s).
#[local] Instance M_bind : MBind M := fun A B k m s =>
  match m s with
  | (Ok a, s') => k a s'
  | (Fail e, s') => (Fail e, s')
  end.
Definition throw {A : Type} (e : error) : M A := fun s => (Fail e, s).

(** Method calls, by return type; each is recorded. *)
Definition callUnit (i : nat) (m : method) (f : World -> World) : M unit :=
  fun '(w, tr) => (Ok tt, (f w, tr ++ [Call i m RNone])).
Definition callError (i : nat) (m : method)
    (f : World -> World * option error) : M (option error) :=
  fun '(w, tr) =>
    let '(w', e) := f w in (Ok e, (w', tr ++ [Call i m (RError e)])).
Definition callBool (i : nat) (m : method) (f : World -> bool) : M bool :=
  fun '(w, tr) => (Ok (f w), (w, tr ++ [Call i m (RBool (f w))])).
Definition callString (i : nat) (m : method) (f : World -> string) : M string :=
  fun '(w, tr) => (Ok (f w), (w, tr ++ [Call i m (RString (f w))])).
Definition logger (f : World -> World) : M unit :=
  fun '(w, tr) => (Ok tt, (f w, tr)).

(** The body of the loop of [run], for the operation at position [i]. *)
Definition runOp (opEngine : VClusterOpEngine) (findCertsInOptions : bool)
    (i : nat) (op : clusterOp) : M unit :=
  callUnit i SetupBasicInfo (setupBasicInfo op);;
  callUnit i LogPrepare (logPrepare op);;
  e ← callError i Prepare (prepare op);
  match e with
  | Some e' =>
      n ← callString i GetName (getName op);
      throw (Errorf_w ("prepare " +:+ n +:+ " failed, details: ") e' "")
  | None => mret tt
  end;;
  skip ← callBool i IsSkipExecute (isSkipExecute op);
  (if negb skip then
     e ← callError i LoadCertsIfNeeded
           (loadCertsIfNeeded op (certs opEngine) findCertsInOptions);
     match e with
     | Some e' =>
         n ← callString i GetName (getName op);
         throw (Errorf_w ("loadCertsIfNeeded for " +:+ n +:+ " failed, details: ")
                  e' "")
     | None => mret tt
     end;;
     callUnit i LogExecute (logExecute op);;
     e ← callError i Execute (execute op);
     match e with
     | Some e' =>
         n ← callString i GetName (getName op);
         throw (Errorf_w ("execute " +:+ n +:+ " failed, details: ") e' "")
     | None => mret tt
     end
   else mret tt);;
  callUnit i LogFinalize (logFinalize op);;
  e ← callError i Finalize (finalize op);
  match e with
  | Some e' => throw (Errorf_w "finalize failed " e' "")
  | None => mret tt
  end;;
  n ← callString i GetName (getName op);
  logger (PrintWithIndent ("[" +:+ n +:+ "] is successfully completed")).

(** The loop over [opEngine.instructions]. *)
Fixpoint runOps (opEngine : VClusterOpEngine) (findCertsInOptions : bool)
    (i : nat) (ops : list clusterOp) : M unit :=
  match ops with
  | [] => mret tt
  | op :: rest =>
      runOp opEngine findCertsInOptions i op;;
      runOps opEngine findCertsInOptions (S i) rest
  end.

(** [run]: the final world, the calls made, and the error returned. *)
Definition run (opEngine : VClusterOpEngine) (w : World)
  : World * list call * option error :=
  let w0 := makeOpEngineExecContext w in
  let findCertsInOptions := shouldGetCertsFromOptions opEngine in
  match runOps opEngine findCertsInOptions 0 (instructions opEngine) (w0, []) with
  | (Ok _, (w', tr)) => (w', tr, None)
  | (Fail e, (w', tr)) => (w', tr, Some e)
  end.
End WithWorld.

End VClusterOpEngine.

(** ** Helpers of the package [util] *)

(** Modelled from the spec: [util.SliceDiff], whose source file is
    missing; the spec describes the upload targets as the set difference
    of the destination hosts against [hostsWithLatestCatalog].  The
    elements of [m], in order, that do not occur in [n]. *)
Definition utilSliceDiff (m n : list string) : list string :=
  filter (fun x => x ∉ n) m.

(** ** Operation base ([OpBase]): loading certificates *)

Module OpBase.

(** A [HostHTTPRequest] with the certificate fields that
    [loadCertsIfNeeded] assigns. *)
Record request : Type := mkRequest {
  httpRequest : HostHTTPRequest;
  UseCertsInOptions : bool;
  Certs : VClusterOpEngine.httpsCerts
}.

(** The zero value of a request, which a Go map yields for a missing key. *)
Definition zeroRequest : request :=
  mkRequest (mkHostHTTPRequest "" "" "") false (VClusterOpEngine.mkCerts "" "" "").

Record OpBase : Type := mkOpBase {
  name : string;
  hosts : list string;
  RequestCollection : gmap string request;
  skipExecute : bool
}.

Definition setRequestCollection (op : OpBase) (rc : gmap string request) : OpBase :=
  {| name := name op; hosts := hosts op; RequestCollection := rc;
     skipExecute := skipExecute op |}.

(** The body of the loop of [loadCertsIfNeeded] for one host. *)
Definition withCerts (certs : VClusterOpEngine.httpsCerts) (r : request) : request :=
  {| httpRequest := httpRequest r;
     UseCertsInOptions := true;
     Certs := VClusterOpEngine.mkCerts (VClusterOpEngine.key certs)
                (VClusterOpEngine.cert certs) (VClusterOpEngine.caCert certs) |}.

Definition loadCerts_step (certs : VClusterOpEngine.httpsCerts)
    (rc : gmap string request) (h : string) : gmap string request :=
  <[h := withCerts certs (default zeroRequest (rc !! h))]> rc.

(** [loadCertsIfNeeded]; [order] is the order in which the [range] loop
    yields the hosts of [RequestCollection]. *)
Definition loadCertsIfNeeded (order : list string) (op : OpBase)
    (certs : VClusterOpEngine.httpsCerts) (findCertsInOptions : bool)
  : OpBase * option error :=
  if negb findCertsInOptions then (op, None)
  else if skipExecute op then (op, None)
  else if (size (RequestCollection op) =? 0)%nat then
    (op, Some (ErrorString ("[" +:+ name op +:+
                 "] has not set up a http request, skipping cert loading")))
  else
    (setRequestCollection op
       (foldl (loadCerts_step certs) (RequestCollection op) order),
     None).

End OpBase.

(** ** Upload config: processing the results *)

Module NMAUploadConfigResults.

Section WithEnv.
(** [parseAndCheckMapResponse(host, content)], as for the spread security
    operation. *)
Variable parseAndCheckMapResponse :
  string -> string -> string -> result OpResponseMap.

(** The loop of [processResult] over [ResultCollection] in iteration
    order. *)
Fixpoint processResult_loop (op : NMAUploadConfigOp.NMAUploadConfigOp)
    (todo : list (string * HostHTTPResult)) (allErrs : option error)
    (log : list logEntry) : list logEntry * option error :=
  match todo with
  | [] => (log, allErrs)
  | (h, r) :: rest =>
      let log1 := log ++ [LogResponse (NMAUploadConfigOp.name op) h r] in
      if isPassing r then
        match parseAndCheckMapResponse (NMAUploadConfigOp.name op) h (content r) with
        | Fail e =>
            let e' := Errorf_w ("[" +:+ NMAUploadConfigOp.name op +:+
                                "] fail to parse result on host " +:+ h +:+
                                ", details: ") e "" in
            processResult_loop op rest (errorsJoin [allErrs; Some e']) log1
        | Ok responseObj =>
            match responseObj !! "destination"%string with
            | None =>
                let e' := ErrorString ("[" +:+ NMAUploadConfigOp.name op +:+
                                       "] response does not contain field " +:+
                                       dquote +:+ "destination" +:+ dquote) in
                processResult_loop op rest (errorsJoin [allErrs; Some e']) log1
            | Some _ => processResult_loop op rest allErrs log1
            end
        end
      else
        processResult_loop op rest (errorsJoin [allErrs; err r]) log1
  end.

Definition processResult (op : NMAUploadConfigOp.NMAUploadConfigOp)
    (ResultCollection : list (string * HostHTTPResult))
  : list logEntry * option error :=
  processResult_loop op ResultCollection None [].
End WithEnv.

End NMAUploadConfigResults.


(** ** Spread security: runtime parameters, requests and [prepare] *)

Module NMASpreadSecurityRequests.

Definition setHosts (op : NMASpreadSecurityOp.nmaSpreadSecurityOp)
    (hs : list string) : NMASpreadSecurityOp.nmaSpreadSecurityOp :=
  NMASpreadSecurityOp.mkOp (NMASpreadSecurityOp.name op) hs
    (NMASpreadSecurityOp.catalogPathMap op) (NMASpreadSecurityOp.keyType op)
    (NMASpreadSecurityOp.ResultCollection op).

Definition setCatalogPathMap (op : NMASpreadSecurityOp.nmaSpreadSecurityOp)
    (m : gmap string string) : NMASpreadSecurityOp.nmaSpreadSecurityOp :=
  NMASpreadSecurityOp.mkOp (NMASpreadSecurityOp.name op)
    (NMASpreadSecurityOp.hosts op) m (NMASpreadSecurityOp.keyType op)
    (NMASpreadSecurityOp.ResultCollection op).

(** [makeNMASpreadSecurityOp]: hosts and catalog paths are set at run
    time. *)
Definition makeNMASpreadSecurityOp (keyType : string)
  : NMASpreadSecurityOp.nmaSpreadSecurityOp :=
  NMASpreadSecurityOp.mkOp "NMASpreadSecurityOp" [] ∅ keyType [].

Section WithEnv.
Variable NmaVDatabase : Type.
Variable updateCatalogPathMapFromCatalogEditor :
  list string -> NmaVDatabase -> gmap string string ->
  gmap string string * option error.
Variable getCatalogPath : string -> string.
Variable jsonMarshal :
  NMASpreadSecurityOp.nmaSpreadSecurityPayload -> result string.
Variable fmtMap : gmap string string -> string.
Variable BuildNMAEndpoint : string -> string.

Definition setRuntimeParms (op : NMASpreadSecurityOp.nmaSpreadSecurityOp)
    (execContext : OpEngineExecContext NmaVDatabase)
  : NMASpreadSecurityOp.nmaSpreadSecurityOp * option error :=
  let op1 := setHosts op (hostsWithLatestCatalog execContext) in
  let op2 := setCatalogPathMap op1 ∅ in
  let '(m, e) :=
    updateCatalogPathMapFromCatalogEditor (NMASpreadSecurityOp.hosts op2)
      (nmaVDatabase execContext) (NMASpreadSecurityOp.catalogPathMap op2) in
  let op3 := setCatalogPathMap op2 m in
  match e with
  | Some e' =>
      (op3, Some (Errorf_w "failed to get catalog paths from catalog editor: " e' ""))
  | None => (op3, None)
  end.

(** [setupClusterHTTPRequest]: the request collection is made anew, with
    one request per host of [hostRequestBodyMap]. *)
Definition setupClusterHTTPRequest (hostRequestBodyMap : gmap string string)
  : gmap string HostHTTPRequest * option error :=
  (map_fold
     (fun host requestBody acc =>
        <[host := {| Method := PostMethod;
                     Endpoint := BuildNMAEndpoint "catalog/spread-security";
                     RequestData := requestBody |}]> acc)
     ∅ hostRequestBodyMap,
   None).

(** [prepare]; [reqs] is the request collection of the operation before
    the call.  Returns the operation, its request collection, the
    execution context, the log, the state of [math/rand] and the error. *)
Definition prepare (op : NMASpreadSecurityOp.nmaSpreadSecurityOp)
    (reqs : gmap string HostHTTPRequest)
    (execContext : OpEngineExecContext NmaVDatabase)
    (g : rng) (src : cryptoSource)
  : NMASpreadSecurityOp.nmaSpreadSecurityOp * gmap string HostHTTPRequest *
    OpEngineExecContext NmaVDatabase * list logEntry * rng * option error :=
  match setRuntimeParms op execContext with
  | (op1, Some e) => (op1, reqs, execContext, [], g, Some e)
  | (op1, None) =>
      match NMASpreadSecurityOp.setupRequestBody getCatalogPath jsonMarshal
              fmtMap op1 g src with
      | (log, Fail e, g') => (op1, reqs, execContext, log, g', Some e)
      | (log, Ok hostRequestBodyMap, g') =>
          let execContext' :=
            dispatcherSetup execContext (NMASpreadSecurityOp.hosts op1) in
          let '(reqs', e) := setupClusterHTTPRequest hostRequestBodyMap in
          (op1, reqs', execContext', log, g', e)
      end
  end.
End WithEnv.

End NMASpreadSecurityRequests.

(** ** Download config: construction and [Prepare] *)

Module NMADownloadConfigRequests.

Definition GetMethod : string := "GET".

(** The fields of [HostHTTPRequest] a download request sets. *)
Record HostHTTPGetRequest : Type := mkGetRequest {
  Method : string;
  Endpoint : string;
  QueryParams : gmap string string
}.

(** The loop of [MakeNMADownloadConfigOp] over [bootstrapHosts]. *)
Fixpoint MakeNMADownloadConfigOp_loop (opName : string)
    (nodeMap : gmap string VCoordinationNode) (todo : list string)
    (catalogPathMap : gmap string string) : outcome (gmap string string) :=
  match todo with
  | [] => Returns catalogPathMap
  | host :: rest =>
      match nodeMap !! host with
      | None =>
          Panics ("[" +:+ opName +:+ "] fail to get catalog path from host " +:+ host)
      | Some vnode =>
          MakeNMADownloadConfigOp_loop opName nodeMap rest
            (<[host := CatalogPath vnode]> catalogPathMap)
      end
  end.

Definition MakeNMADownloadConfigOp (opName : string)
    (nodeMap : gmap string VCoordinationNode) (bootstrapHosts : list string)
    (endpoint : string) (fileContent : nat)
  : outcome NMADownloadConfigOp.NMADownloadConfigOp :=
  match MakeNMADownloadConfigOp_loop opName nodeMap bootstrapHosts ∅ with
  | Panics msg => Panics msg
  | Returns catalogPathMap =>
      Returns (NMADownloadConfigOp.mkOp opName bootstrapHosts catalogPathMap
                 endpoint fileContent [])
  end.

Section WithEnv.
Variable BuildNMAEndpoint : string -> string.

(** The loop of [setupClusterHTTPRequest] over [hosts]. *)
Fixpoint setupClusterHTTPRequest_loop (op : NMADownloadConfigOp.NMADownloadConfigOp)
    (todo : list string) (reqs : gmap string HostHTTPGetRequest)
  : outcome (gmap string HostHTTPGetRequest) :=
  match todo with
  | [] => Returns reqs
  | host :: rest =>
      match NMADownloadConfigOp.catalogPathMap op !! host with
      | None =>
          Panics ("[" +:+ NMADownloadConfigOp.name op +:+
                  "] fail to get catalog path from host " +:+ host)
      | Some catalogPath =>
          let httpRequest :=
            {| Method := GetMethod;
               Endpoint := BuildNMAEndpoint (NMADownloadConfigOp.endpoint op);
               QueryParams := {["catalog_path"%string := catalogPath]} |} in
          setupClusterHTTPRequest_loop op rest (<[host := httpRequest]> reqs)
      end
  end.

Definition setupClusterHTTPRequest (op : NMADownloadConfigOp.NMADownloadConfigOp)
    (hosts : list string) : outcome (gmap string HostHTTPGetRequest) :=
  setupClusterHTTPRequest_loop op hosts ∅.

(** [Prepare]: the request collection, the execution context and the
    error returned, unless the call panics. *)
Definition Prepare {N : Type} (op : NMADownloadConfigOp.NMADownloadConfigOp)
    (execContext : OpEngineExecContext N)
  : outcome (gmap string HostHTTPGetRequest * OpEngineExecContext N * option error) :=
  let execContext' := dispatcherSetup execContext (NMADownloadConfigOp.hosts op) in
  match setupClusterHTTPRequest op (NMADownloadConfigOp.hosts op) with
  | Panics msg => Panics msg
  | Returns reqs => Returns (reqs, execContext', None)
  end.
End WithEnv.

End NMADownloadConfigRequests.

(** ** Coordination database: queries over the nodes *)

(** In the functions below, [order] holds the entries of
    [vdb.HostNodeMap] in the order in which the [range] loop of the call
    yields them. *)

(** The loop body of [getSCNames]. *)
Definition getSCNames_step (st : gmap string bool * list string)
    (hv : string * VCoordinationNode) : gmap string bool * list string :=
  let '(allKeys, scNames) := st in
  let sc := Subcluster (snd hv) in
  match allKeys !! sc with
  | Some _ => (allKeys, scNames)
  | None => (<[sc := true]> allKeys, scNames ++ [sc])
  end.

Definition getSCNames (order : list (string * VCoordinationNode)) : list string :=
  snd (foldl getSCNames_step (∅, []) order).

(** [strings.Join]. *)
Definition stringsJoin (elems : list string) (sep : string) : string :=
  String.concat sep elems.

Section WithSliceDiff.
(** [util.SliceDiff(m, n)]: the elements of [m] that are not in [n]. *)
Variable SliceDiff : list string -> list string -> list string.

(** [containNodes]: [nodesNotInDB] is a nil slice ([None]) when the
    lengths agree. *)
Definition containNodes (order : list (string * VCoordinationNode))
    (nodes : list string) : list string * option (list string) :=
  let hostSet : gmap string unit :=
    foldl (fun acc n => <[n := tt]> acc) ∅ nodes in
  let nodesInDB :=
    foldl (fun acc hv =>
             let address := Address (snd hv) in
             match hostSet !! address with
             | Some _ => acc ++ [address]
             | None => acc
             end) [] order in
  if (length nodesInDB =? length nodes)%nat then (nodesInDB, None)
  else (nodesInDB, Some (SliceDiff nodes nodesInDB)).

(** [checkAddNodeRequirements]. *)
Definition checkAddNodeRequirements (order : list (string * VCoordinationNode))
    (hostsToAdd : list string) : option error :=
  let '(nodes, _) := containNodes order hostsToAdd in
  if negb (length nodes =? 0)%nat then
    Some (ErrorString (stringsJoin nodes "," +:+ " already exist in the database"))
  else None.
End WithSliceDiff.

Section WithMapsKeys.
(** [maps.Keys]: the keys of a map, in an indeterminate order. *)
Variable mapsKeys : gmap string VCoordinationNode -> list string.

(** [filterPrimaryNodes]. *)
Definition filterPrimaryNodes (vdb : VCoordinationDatabase)
    (order : list (string * VCoordinationNode)) : VCoordinationDatabase :=
  let primaryHostNodeMap :=
    foldl (fun acc hv =>
             if IsPrimary (snd hv) then <[fst hv := snd hv]> acc else acc)
          (entries makeVHostNodeMap) order in
  setHosts vdb (Some primaryHostNodeMap) (mapsKeys primaryHostNodeMap).
End WithMapsKeys.

(** ** Start database: trimming the host list *)

(** [removeHostsNotInCatalog]; [hostNodeMap] is the [HostNodeMap] of the
    [nmaVDatabase], of which only the keys are read.  Returns the log and
    the trimmed host list. *)
Section WithFormat.
Variable Node : Type.
(** [%+v] of a list of hosts, and of the map, as the logger renders them. *)
Variable fmtHosts : list string -> string.
Variable fmtNodeMap : gmap string Node -> string.

Definition removeHostsNotInCatalog_step (hostNodeMap : gmap string Node)
    (st : list string * list string) (h : string) : list string * list string :=
  let '(trimmedHostList, extraHosts) := st in
  match hostNodeMap !! h with
  | Some _ => (trimmedHostList ++ [h], extraHosts)
  | None => (trimmedHostList, extraHosts ++ [h])
  end.

Definition removeHostsNotInCatalog (hostNodeMap : gmap string Node)
    (hosts : list string) : list logEntry * list string :=
  let log0 :=
    [Info "checking if any input hosts can be removed"
       ["hosts"%string; fmtHosts hosts; "hostNodeMap"%string; fmtNodeMap hostNodeMap]] in
  let '(trimmedHostList, extraHosts) :=
    foldl (removeHostsNotInCatalog_step hostNodeMap) ([], []) hosts in
  let log1 :=
    if (0 <? length extraHosts)%nat then
      log0 ++ [LogInfo ("The following hosts will be trimmed as they are not found in catalog: "
                        +:+ fmtHosts extraHosts)]
    else log0 in
  (log1, trimmedHostList).
End WithFormat.

(** ** Logging calls of the operations below *)

(** [op.logResponse], [PrintError] / [LogPrintError], [PrintInfo],
    [LogError] and [LogInfo], each with its formatted message. *)
Inductive logCall : Type :=
| CallLogResponse (opName hostName : string) (result : HostHTTPResult)
| CallPrintError (msg : string)
| CallPrintInfo (msg : string)
| CallLogError (msg : string)
| CallLogInfo (msg : string).

(** ** Create depots on new nodes ([HTTPSCreateNodesDepotOp]) *)

Module HTTPSCreateNodesDepotOp.

Inductive ClusterOpResult : Type :=
| ClusterOpResultPass
| ClusterOpResultFail
| ClusterOpResultException.

Record HTTPSCreateNodesDepotOp : Type := mkOp {
  name : string;
  hosts : list string;
  HostNodeMap : gmap string VCoordinationNode;
  DepotSize : string;
  ResultCollection : list (string * HostHTTPResult)
}.

(** [op.HostNodeMap[host]]: the zero value for a missing host. *)
Definition nodeOf (op : HTTPSCreateNodesDepotOp) (h : string) : VCoordinationNode :=
  default makeVCoordinationNode (HostNodeMap op !! h).

Section WithEnv.
Variable parseAndCheckMapResponse :
  string -> string -> string -> result OpResponseMap.

(** The loop of [processResult]; [success] is the local variable. *)
Fixpoint processResult_loop (op : HTTPSCreateNodesDepotOp)
    (todo : list (string * HostHTTPResult)) (success : bool)
    (log : list logCall) : list logCall * bool :=
  match todo with
  | [] => (log, success)
  | (h, r) :: rest =>
      let log1 := log ++ [CallLogResponse (name op) h r] in
      if negb (isPassing r) then processResult_loop op rest false log1
      else
        match parseAndCheckMapResponse (name op) h (content r) with
        | Fail e =>
            processResult_loop op rest false
              (log1 ++ [CallPrintError
                          ("[" +:+ name op +:+ "] fail to parse result on host " +:+
                           h +:+ ", details: " +:+ Error e)])
        | Ok resp =>
            let node := default EmptyString (resp !! "node"%string) in
            let depot := default EmptyString (resp !! "depot_location"%string) in
            if negb (String.eqb node (Name (nodeOf op h))) ||
               negb (String.eqb depot (DepotPath (nodeOf op h))) then
              processResult_loop op rest false
                (log1 ++ [CallLogError
                            ("[" +:+ name op +:+ "] should create depot " +:+
                             DepotPath (nodeOf op h) +:+ " on node " +:+
                             Name (nodeOf op h) +:+ ", but created depot " +:+
                             depot +:+ " on node " +:+ node +:+ " from host " +:+ h)])
            else processResult_loop op rest success log1
        end
  end.

Definition processResult (op : HTTPSCreateNodesDepotOp)
  : list logCall * ClusterOpResult :=
  let '(log, success) := processResult_loop op (ResultCollection op) true [] in
  (log, if success then ClusterOpResultPass else ClusterOpResultFail).
End WithEnv.

End HTTPSCreateNodesDepotOp.

(** ** Poll the subscription state ([httpsPollSubscriptionStateOp]) *)

Module HTTPSPollSubscriptionStateOp.

Record subscriptionInfo : Type := mkSubscriptionInfo {
  Nodename : string;
  ShardName : string;
  SubscriptionState : string;
  IsPrimary : bool
}.

Record httpsPollSubscriptionStateOp : Type := mkOp {
  name : string;
  hosts : list string;
  ResultCollection : list (string * HostHTTPResult)
}.

(** The loop over [subscriptList.SubscriptionList]: false at the first
    subscription that is not ACTIVE. *)
Fixpoint allActive (l : list subscriptionInfo) : bool :=
  match l with
  | [] => true
  | s :: rest =>
      if negb (String.eqb (SubscriptionState s) "ACTIVE") then false
      else allActive rest
  end.

Section WithEnv.
(** [result.isPasswordAndCertificateError(op.logger)]. *)
Variable isPasswordAndCertificateError : HostHTTPResult -> bool.
(** [parseAndCheckResponse(host, content, &subscriptList)]: the decoded
    [SubscriptionList]. *)
Variable parseAndCheckResponse :
  string -> string -> string -> result (list subscriptionInfo).
(** [%v] of [op.hosts]. *)
Variable fmtHosts : list string -> string.

Fixpoint shouldStopPolling_loop (op : httpsPollSubscriptionStateOp)
    (todo : list (string * HostHTTPResult)) (log : list logCall)
  : list logCall * bool * option error :=
  match todo with
  | [] =>
      (log ++ [CallPrintError
                 ("[" +:+ name op +:+ "] empty result received from the provided hosts "
                  +:+ fmtHosts (hosts op))],
       false, None)
  | (h, r) :: rest =>
      let log1 := log ++ [CallLogResponse (name op) h r] in
      if isPasswordAndCertificateError r then
        (log1, true,
         Some (ErrorString ("[" +:+ name op +:+
                 "] wrong password/certificate for https service on host " +:+ h)))
      else if isPassing r then
        match parseAndCheckResponse (name op) h (content r) with
        | Fail e =>
            (log1 ++ [CallPrintError
                        ("[" +:+ name op +:+ "] fail to parse result on host " +:+
                         h +:+ ", details: " +:+ Error e)],
             true, Some e)
        | Ok subscriptList =>
            if allActive subscriptList then
              (log1 ++ [CallPrintInfo "All subscriptions are ACTIVE"], true, None)
            else (log1, false, None)
        end
      else shouldStopPolling_loop op rest log1
  end.

Definition shouldStopPolling (op : httpsPollSubscriptionStateOp)
  : list logCall * bool * option error :=
  shouldStopPolling_loop op (ResultCollection op) [].
End WithEnv.

End HTTPSPollSubscriptionStateOp.

(** ** Restart nodes ([VRestartNodes]) *)

Module RestartNodes.

Record VRestartNodesInfo : Type := mkInfo {
  ReIPList : list string;
  NodeNamesToRestart : list string;
  HostsToRestart : list string
}.

(** What a run of [VRestartNodes] does besides returning: the logging
    calls, the call that produces the instructions, and the run of the
    engine. *)
Inductive event : Type :=
| EvLog (c : logCall)
| EvProduce (info : VRestartNodesInfo)
| EvRun.

(** The first loop: node name to catalog address, over the entries of
    [vdb.HostNodeMap] in the order of the [range] loop. *)
Definition hostNodeNameMap (order : list (string * VCoordinationNode))
  : gmap string string :=
  foldl (fun acc hv => <[Name (snd hv) := Address (snd hv)]> acc) ∅ order.

(** The second loop, over [options.Nodes] in the order of the [range]
    loop: the node name that does not exist, or the lists built. *)
Fixpoint classify (names : gmap string string) (todo : list (string * string))
    (restartNodeInfo : VRestartNodesInfo) (hostsNoNeedToReIP : list string)
  : string + VRestartNodesInfo * list string :=
  match todo with
  | [] => inr (restartNodeInfo, hostsNoNeedToReIP)
  | (nodename, newIP) :: rest =>
      match names !! nodename with
      | None => inl nodename
      | Some oldIP =>
          if negb (String.eqb oldIP newIP) then
            classify names rest
              {| ReIPList := ReIPList restartNodeInfo ++ [newIP];
                 NodeNamesToRestart := NodeNamesToRestart restartNodeInfo ++ [nodename];
                 HostsToRestart := HostsToRestart restartNodeInfo |}
              hostsNoNeedToReIP
          else
            classify names rest restartNodeInfo (hostsNoNeedToReIP ++ [newIP])
      end
  end.

Section WithEnv.
Variable Config Instructions : Type.
(** [%s] of a slice of hosts. *)
Variable fmtHosts : list string -> string.
(** [options.GetDBConfig()], [options.ValidateAnalyzeOptions()] and
    [getVDBFromRunningDB(&vdb, ...)] with the entries of the map it
    filled, as the calls return in the run at hand. *)
Variable GetDBConfig : result Config.
Variable ValidateAnalyzeOptions : option error.
Variable getVDBFromRunningDB : list (string * VCoordinationNode) * option error.
(** [produceRestartNodesInstructions] and [clusterOpEngine.Run]. *)
Variable produceRestartNodesInstructions : VRestartNodesInfo -> result Instructions.
Variable Run : Instructions -> option error.

(** [VRestartNodes]; [Nodes] is [options.Nodes] in the order of the
    [range] loop. *)
Definition VRestartNodes (Nodes : list (string * string))
  : list event * option error :=
  match GetDBConfig with
  | Fail e => ([], Some e)
  | Ok config =>
      let err := ValidateAnalyzeOptions in
      match err with
      | Some e => ([], Some e)
      | None =>
          let '(order, err) := getVDBFromRunningDB in
          match err with
          | Some e => ([], Some e)
          | None =>
              let names := hostNodeNameMap order in
              match classify names Nodes (mkInfo [] [] []) [] with
              | inl nodename =>
                  ([EvLog (CallPrintError
                             ("node name " +:+ nodename +:+ " does not exist"))],
                   err)
              | inr (restartNodeInfo, hostsNoNeedToReIP) =>
                  let '(log, restartNodeInfo') :=
                    if negb (length (ReIPList restartNodeInfo) =? 0)%nat then
                      (if negb (length hostsNoNeedToReIP =? 0)%nat then
                         [EvLog (CallLogInfo
                            ("The following requested hosts will not be restarted since their catalog IP is not changing: "
                             +:+ fmtHosts hostsNoNeedToReIP))]
                       else [],
                       {| ReIPList := ReIPList restartNodeInfo;
                          NodeNamesToRestart := NodeNamesToRestart restartNodeInfo;
                          HostsToRestart := ReIPList restartNodeInfo |})
                    else
                      ([],
                       {| ReIPList := ReIPList restartNodeInfo;
                          NodeNamesToRestart := NodeNamesToRestart restartNodeInfo;
                          HostsToRestart := hostsNoNeedToReIP |}) in
                  match produceRestartNodesInstructions restartNodeInfo' with
                  | Fail e =>
                      (log ++ [EvProduce restartNodeInfo';
                               EvLog (CallPrintError
                                        ("fail to production instructions, " +:+ Error e))],
                       Some e)
                  | Ok instructions =>
                      match Run instructions with
                      | Some e =>
                          (log ++ [EvProduce restartNodeInfo'; EvRun;
                                   EvLog (CallPrintError
                                            ("fail to restart node, " +:+ Error e))],
                           Some e)
                      | None => (log ++ [EvProduce restartNodeInfo'; EvRun], None)
                      end
                  end
              end
          end
      end
  end.
End WithEnv.

End RestartNodes.
(* ===================================================================== *)
(** * Part II: the vocabulary of the properties *)
(* ===================================================================== *)

(** A lower-case hexadecimal digit. *)
Definition isHexDigit (c : Byte.byte) : bool :=
  let n := Byte.to_N c in
  ((48 <=? n) && (n <=? 57) || (97 <=? n) && (n <=? 102))%N.

(** A character of [[a-z0-9]]. *)
Definition isLowerAlnum (c : Byte.byte) : bool :=
  let n := Byte.to_N c in
  ((97 <=? n) && (n <=? 122) || (48 <=? n) && (n <=? 57))%N.

(** The vdb invariant on hosts: [HostList] has no duplicates and holds
    exactly the keys of [HostNodeMap]. *)
Definition vdb_hosts_inv (vdb : VCoordinationDatabase) : Prop :=
  NoDup (HostList vdb) /\
  forall a : string, a ∈ HostList vdb <-> is_Some (entries (HostNodeMap vdb) !! a).

(** The [logResponse] calls made for the results [rs], in order. *)
Definition responseLog (opName : string) (rs : list (string * HostHTTPResult))
  : list logEntry :=
  List.map (fun hr => LogResponse opName (fst hr) (snd hr)) rs.

(** A result that failed with the error [e]. *)
Definition failingResult (h : string) (e : error) : HostHTTPResult :=
  mkHostHTTPResult FAILURE InternalErrorCode h EmptyString (Some e).

(** The errors of the results [rs], in order. *)
Definition hostErrors (rs : list (string * HostHTTPResult)) : list error :=
  omap (fun hr => err (snd hr)) rs.

(** The errors joined into an optional error. *)
Definition joinedOf (acc : option error) : list error :=
  match acc with
  | Some a => joinedErrors a
  | None => []
  end.

(** A result the loops pass over: failing, and not unauthorized. *)
Definition passedOver (hr : string * HostHTTPResult) : Prop :=
  IsUnauthorizedRequest (snd hr) = false /\ isPassing (snd hr) = false.

(** Everything handed to the log calls of a run. *)
Definition allLoggedStrings (log : list logEntry) : list string :=
  List.flat_map loggedStrings log.

(** The operation and the error in what [prepare] returns. *)
Definition preparedOp {C : Type}
    (x : NMAUploadConfigOp.NMAUploadConfigOp * heap * C * list logEntry * option error)
  : NMAUploadConfigOp.NMAUploadConfigOp :=
  fst (fst (fst (fst x))).

Definition preparedErr {C : Type}
    (x : NMAUploadConfigOp.NMAUploadConfigOp * heap * C * list logEntry * option error)
  : option error :=
  snd x.

(** No node information is at hand: [vdb] is nil or its [HostNodeMap] is
    empty. *)
Definition noNodeInfo (op : NMAUploadConfigOp.NMAUploadConfigOp) : Prop :=
  match NMAUploadConfigOp.vdb op with
  | None => True
  | Some v => size (entries (HostNodeMap v)) = 0%nat
  end.

(** The calls that make up the lifecycle of an operation: [prepare], the
    test of [skipExecute], the loading of certificates, [execute] and
    [finalize]. *)
Definition isLifecycle (c : VClusterOpEngine.call) : bool :=
  match VClusterOpEngine.meth c with
  | VClusterOpEngine.Prepare | VClusterOpEngine.IsSkipExecute
  | VClusterOpEngine.LoadCertsIfNeeded | VClusterOpEngine.Execute
  | VClusterOpEngine.Finalize => true
  | _ => false
  end.

Definition lifecycle (tr : list VClusterOpEngine.call) : list VClusterOpEngine.call :=
  List.filter isLifecycle tr.

(** The lifecycle calls the engine may make on the operation at position
    [i], with the error of the call that failed, if one did. *)
Inductive opCycle (i : nat) : list VClusterOpEngine.call -> option error -> Prop :=
| cycle_executed :
    opCycle i
      [VClusterOpEngine.Call i VClusterOpEngine.Prepare (VClusterOpEngine.RError None);
       VClusterOpEngine.Call i VClusterOpEngine.IsSkipExecute (VClusterOpEngine.RBool false);
       VClusterOpEngine.Call i VClusterOpEngine.LoadCertsIfNeeded (VClusterOpEngine.RError None);
       VClusterOpEngine.Call i VClusterOpEngine.Execute (VClusterOpEngine.RError None);
       VClusterOpEngine.Call i VClusterOpEngine.Finalize (VClusterOpEngine.RError None)]
      None
| cycle_skipped :
    opCycle i
      [VClusterOpEngine.Call i VClusterOpEngine.Prepare (VClusterOpEngine.RError None);
       VClusterOpEngine.Call i VClusterOpEngine.IsSkipExecute (VClusterOpEngine.RBool true);
       VClusterOpEngine.Call i VClusterOpEngine.Finalize (VClusterOpEngine.RError None)]
      None
| cycle_prepare_failed e :
    opCycle i
      [VClusterOpEngine.Call i VClusterOpEngine.Prepare (VClusterOpEngine.RError (Some e))]
      (Some e)
| cycle_certs_failed e :
    opCycle i
      [VClusterOpEngine.Call i VClusterOpEngine.Prepare (VClusterOpEngine.RError None);
       VClusterOpEngine.Call i VClusterOpEngine.IsSkipExecute (VClusterOpEngine.RBool false);
       VClusterOpEngine.Call i VClusterOpEngine.LoadCertsIfNeeded (VClusterOpEngine.RError (Some e))]
      (Some e)
| cycle_execute_failed e :
    opCycle i
      [VClusterOpEngine.Call i VClusterOpEngine.Prepare (VClusterOpEngine.RError None);
       VClusterOpEngine.Call i VClusterOpEngine.IsSkipExecute (VClusterOpEngine.RBool false);
       VClusterOpEngine.Call i VClusterOpEngine.LoadCertsIfNeeded (VClusterOpEngine.RError None);
       VClusterOpEngine.Call i VClusterOpEngine.Execute (VClusterOpEngine.RError (Some e))]
      (Some e)
| cycle_finalize_failed e :
    opCycle i
      [VClusterOpEngine.Call i VClusterOpEngine.Prepare (VClusterOpEngine.RError None);
       VClusterOpEngine.Call i VClusterOpEngine.IsSkipExecute (VClusterOpEngine.RBool false);
       VClusterOpEngine.Call i VClusterOpEngine.LoadCertsIfNeeded (VClusterOpEngine.RError None);
       VClusterOpEngine.Call i VClusterOpEngine.Execute (VClusterOpEngine.RError None);
       VClusterOpEngine.Call i VClusterOpEngine.Finalize (VClusterOpEngine.RError (Some e))]
      (Some e)
| cycle_skipped_finalize_failed e :
    opCycle i
      [VClusterOpEngine.Call i VClusterOpEngine.Prepare (VClusterOpEngine.RError None);
       VClusterOpEngine.Call i VClusterOpEngine.IsSkipExecute (VClusterOpEngine.RBool true);
       VClusterOpEngine.Call i VClusterOpEngine.Finalize (VClusterOpEngine.RError (Some e))]
      (Some e).

(** The lifecycle calls of a plan of [n] operations at positions [i],
    [i+1], ...: complete cycles in order, until the plan ends or a cycle
    fails at position [k] with error [e] ([Some (k, e)]). *)
Inductive planCycles : nat -> nat -> list VClusterOpEngine.call ->
                       option (nat * error) -> Prop :=
| plan_done i : planCycles i 0 [] None
| plan_next i n t t' r :
    opCycle i t None -> planCycles (S i) n t' r ->
    planCycles i (S n) (t ++ t') r
| plan_failed i n t e :
    opCycle i t (Some e) -> planCycles i (S n) t (Some (i, e)).

(** How often the method [m] was called on the operation at position [j]. *)
Definition callKey (c : VClusterOpEngine.call) : nat * VClusterOpEngine.method :=
  (VClusterOpEngine.opIndex c, VClusterOpEngine.meth c).

Definition callKey_eq_dec (x y : nat * VClusterOpEngine.method) : {x = y} + {x <> y}.
Proof. repeat decide equality. Defined.

Definition callsOf (j : nat) (m : VClusterOpEngine.method)
    (tr : list VClusterOpEngine.call) : nat :=
  count_occ callKey_eq_dec (List.map callKey tr) (j, m).

(** A database of one node. *)
Definition vdbOneNode : VCoordinationDatabase :=
  setHosts makeVCoordinationDatabase
    (Some {["10.0.0.1"%string :=
             mkVCoordinationNode "v_db_node0001" "10.0.0.1" "/cat/db/v_db_node0001_catalog"
               ["/data/db/v_db_node0001_data"%string] [] "" 5433 "ipv4" true "UP" ""]})
    ["10.0.0.1"%string].

(** Three hosts, two of them with the latest catalog. *)
Definition uploadOpStartDB : NMAUploadConfigOp.NMAUploadConfigOp :=
  NMAUploadConfigOp.makeNMAUploadConfigOp "NMAUploadConfigOp" None
    ["10.0.0.1"%string; "10.0.0.2"%string; "10.0.0.3"%string]
    "config/upload" 0%nat None false.

Definition ctxStartDB : OpEngineExecContext unit :=
  mkExecContext [] ["10.0.0.1"%string; "10.0.0.2"%string] tt.

(** Results of three hosts: an internal error, then a passing host, then
    another error. *)
Definition downloadResults : list (string * HostHTTPResult) :=
  [("10.0.0.1"%string, failingResult "10.0.0.1" (ErrorString "500 Internal Server Error"));
   ("10.0.0.2"%string,
    mkHostHTTPResult SUCCESS SuccessCode "10.0.0.2" "spread.conf body" None);
   ("10.0.0.3"%string, failingResult "10.0.0.3" (ErrorString "connection refused"))].

Definition downloadOp : NMADownloadConfigOp.NMADownloadConfigOp :=
  NMADownloadConfigOp.mkOp "NMADownloadConfigOp" ["10.0.0.1"%string] ∅
    "config/download" 0%nat downloadResults.

(** Results of three hosts: an internal error, then an unauthorized
    host, then a passing host. *)
Definition unauthorizedResult : HostHTTPResult :=
  mkHostHTTPResult FAILURE UnauthorizedCode "10.0.0.2" "Wrong password"
    (Some (ErrorString "401 Unauthorized")).

Definition resultsWithUnauthorized : list (string * HostHTTPResult) :=
  [("10.0.0.1"%string, failingResult "10.0.0.1" (ErrorString "500 Internal Server Error"));
   ("10.0.0.2"%string, unauthorizedResult);
   ("10.0.0.3"%string, mkHostHTTPResult SUCCESS SuccessCode "10.0.0.3" "{}" None)].

(** A plan of four operations over a world that counts the calls that
    changed it: the second sets [skipExecute], the third fails in
    [execute], the fourth is never started. *)
Definition plainOp (n : string) (skip : bool) (executeErr : option error)
  : VClusterOpEngine.clusterOp nat :=
  VClusterOpEngine.mkClusterOp nat
    (fun w => w) (fun w => w) (fun w => (S w, None)) (fun _ => n) (fun _ => skip)
    (fun _ _ w => (w, None)) (fun w => w) (fun w => (S w, executeErr))
    (fun w => w) (fun w => (S w, None)).

Definition fourOpPlan : VClusterOpEngine.VClusterOpEngine nat :=
  VClusterOpEngine.mkEngine nat
    [plainOp "A" false None; plainOp "B" true None;
     plainOp "C" false (Some (ErrorString "boom")); plainOp "D" false None]
    (VClusterOpEngine.mkCerts "" "" "").

(** ** Further vocabulary and instances *)

(** Three operations, the last of which fails in [execute], and two that
    succeed. *)
Definition failingPlan : list (VClusterOpEngine.clusterOp nat) :=
  [plainOp "A" false None; plainOp "B" true None;
   plainOp "C" false (Some (ErrorString "boom"))].

Definition passingPlan : list (VClusterOpEngine.clusterOp nat) :=
  [plainOp "A" false None; plainOp "B" true None].

(** [order] is an order in which a [range] loop may yield the keys of
    the map [m]: every key once. *)
Definition iterationOrder {V : Type} (m : gmap string V) (order : list string) : Prop :=
  NoDup order /\ forall h, h ∈ order <-> is_Some (m !! h).

(** A result the upload accepts: passing, parsed, with a destination. *)
Definition uploadAccepted
    (parse : string -> string -> string -> result OpResponseMap)
    (opName : string) (hr : string * HostHTTPResult) : Prop :=
  isPassing (snd hr) = true /\
  exists obj, parse opName (fst hr) (content (snd hr)) = Ok obj /\
              is_Some (obj !! "destination"%string).

(** The error one host adds to the joined error of the upload, if any:
    its own error, a parse error, or the missing destination. *)
Definition uploadHostError
    (parse : string -> string -> string -> result OpResponseMap)
    (opName : string) (h : string) (r : HostHTTPResult) : option error :=
  if isPassing r then
    match parse opName h (content r) with
    | Fail e =>
        Some (Errorf_w ("[" +:+ opName +:+ "] fail to parse result on host " +:+
                        h +:+ ", details: ") e "")
    | Ok responseObj =>
        match responseObj !! "destination"%string with
        | Some _ => None
        | None =>
            Some (ErrorString ("[" +:+ opName +:+ "] response does not contain field " +:+
                               dquote +:+ "destination" +:+ dquote))
        end
    end
  else err r.

(** The store and the execution context in what [prepare] returns. *)
Definition preparedHeap {C : Type}
    (x : NMAUploadConfigOp.NMAUploadConfigOp * heap * C * list logEntry * option error)
  : heap :=
  snd (fst (fst (fst x))).

Definition preparedCtx {C : Type}
    (x : NMAUploadConfigOp.NMAUploadConfigOp * heap * C * list logEntry * option error)
  : C :=
  snd (fst (fst x)).

(** The requests of a prepared upload are in place: the dispatcher is set
    up for the target hosts, the target hosts are the hosts with a
    request, and each request posts, to the endpoint of the operation,
    the JSON of the host's catalog path and of the shared file content. *)
Definition uploadRequestsReady {N : Type}
    (jsonMarshal : NMAUploadConfigOp.uploadConfigRequestData -> result string)
    (BuildNMAEndpoint : string -> string)
    (op : NMAUploadConfigOp.NMAUploadConfigOp) (hp : heap)
    (ctx : OpEngineExecContext N) : Prop :=
  dispatcher ctx = NMAUploadConfigOp.hosts op /\
  (forall h, h ∈ NMAUploadConfigOp.hosts op <->
             is_Some (NMAUploadConfigOp.RequestCollection op !! h)) /\
  forall h req,
    NMAUploadConfigOp.RequestCollection op !! h = Some req ->
    Method req = PostMethod /\
    Endpoint req = BuildNMAEndpoint (NMAUploadConfigOp.endpoint op) /\
    jsonMarshal
      {| NMAUploadConfigOp.CatalogPath :=
           default EmptyString (NMAUploadConfigOp.catalogPathMap op !! h);
         NMAUploadConfigOp.Content := deref hp (NMAUploadConfigOp.fileContent op) |}
      = Ok (RequestData req).


(** An operation with one request, and certificates to load. *)
Definition oneRequestOp : OpBase.OpBase :=
  OpBase.mkOpBase "HTTPSGetUpNodesOp" ["10.0.0.1"%string]
    {["10.0.0.1"%string := OpBase.zeroRequest]} false.

Definition optionCerts : VClusterOpEngine.httpsCerts :=
  VClusterOpEngine.mkCerts "key" "cert" "caCert".

(** An upload to the one node of [vdbOneNode]. *)
Definition uploadOpWithVdb : NMAUploadConfigOp.NMAUploadConfigOp :=
  NMAUploadConfigOp.makeNMAUploadConfigOp "NMAUploadConfigOp" None
    ["10.0.0.1"%string] "config/upload" 0%nat (Some vdbOneNode) false.

(** What [nmaSpreadSecurityOp.prepare] returns. *)
Definition spreadOp {C : Type}
    (x : NMASpreadSecurityOp.nmaSpreadSecurityOp * gmap string HostHTTPRequest *
         C * list logEntry * rng * option error)
  : NMASpreadSecurityOp.nmaSpreadSecurityOp :=
  fst (fst (fst (fst (fst x)))).

Definition spreadRequests {C : Type}
    (x : NMASpreadSecurityOp.nmaSpreadSecurityOp * gmap string HostHTTPRequest *
         C * list logEntry * rng * option error)
  : gmap string HostHTTPRequest :=
  snd (fst (fst (fst (fst x)))).

Definition spreadCtx {C : Type}
    (x : NMASpreadSecurityOp.nmaSpreadSecurityOp * gmap string HostHTTPRequest *
         C * list logEntry * rng * option error)
  : C :=
  snd (fst (fst (fst x))).

Definition spreadErr {C : Type}
    (x : NMASpreadSecurityOp.nmaSpreadSecurityOp * gmap string HostHTTPRequest *
         C * list logEntry * rng * option error)
  : option error :=
  snd x.

(** The security details of a key id and a key. *)
Definition securityDetailsOf (keyID key : string) : string :=
  "{" +:+ keyID +:+ ": " +:+ key +:+ "}".

(** A context whose two hosts have the latest catalog, and an entropy
    source. *)
Definition ctxTwoHosts : OpEngineExecContext unit :=
  mkExecContext [] ["10.0.0.1"%string; "10.0.0.2"%string] tt.

Definition catalogOfHosts (hs : list string) (m : gmap string string)
  : gmap string string :=
  foldr (fun h acc => <[h := "/cat/db/v_db_node_catalog/" +:+ h]> acc) m hs.

Definition zeroEntropy : cryptoSource := CryptoStream (fun _ => Byte.x00).

(** The spread security operation prepared for [ctxTwoHosts]. *)
Definition spreadPrepared :
    NMASpreadSecurityOp.nmaSpreadSecurityOp * gmap string HostHTTPRequest *
    OpEngineExecContext unit * list logEntry * rng * option error :=
  NMASpreadSecurityRequests.prepare unit
    (fun hs _ m => (catalogOfHosts hs m, None)) (fun p => p)
    (fun p => Ok (NMASpreadSecurityOp.CatalogPath p +:+ " " +:+
                  NMASpreadSecurityOp.SpreadSecurityDetails p))
    (fun _ => EmptyString) (fun ep => ep)
    (NMASpreadSecurityRequests.makeNMASpreadSecurityOp "vertica")
    ∅ ctxTwoHosts (fun _ => 0%nat) zeroEntropy.

(** A result the spread security operation does not stop at: failing, or
    passing with a response that parses. *)
Definition spreadParses
    (parse : string -> string -> string -> result OpResponseMap)
    (opName : string) (hr : string * HostHTTPResult) : Prop :=
  isPassing (snd hr) = true ->
  exists obj, parse opName (fst hr) (content (snd hr)) = Ok obj.

(** Results of two hosts: an internal error, then a passing host. *)
Definition failedThenPassed : list (string * HostHTTPResult) :=
  [("10.0.0.1"%string, failingResult "10.0.0.1" (ErrorString "500 Internal Server Error"));
   ("10.0.0.2"%string, mkHostHTTPResult SUCCESS SuccessCode "10.0.0.2" "sc1" None)].

Definition checkSubclusterOp : HTTPSCheckSubclusterOp.httpsCheckSubclusterOp :=
  HTTPSCheckSubclusterOp.mkOp "HTTPSCheckSubclusterOp" "sc1" false 3 failedThenPassed.

Definition sandboxingOp : HTTPSSandboxingOp.httpsSandboxingOp :=
  HTTPSSandboxingOp.mkOp "HTTPSSandboxingOp" ∅ "sc1" "sandbox1" failedThenPassed.

(** [order] is an order in which a [range] loop may yield the entries of
    the map [m]: every entry once. *)
Definition rangeOrder {V : Type} (m : gmap string V) (order : list (string * V)) : Prop :=
  NoDup (order.*1) /\ forall h v, (h, v) ∈ order <-> m !! h = Some v.

(** Every node of the database is filed under its own address. *)
Definition addressCoherent (vdb : VCoordinationDatabase) : Prop :=
  forall h vnode, entries (HostNodeMap vdb) !! h = Some vnode -> Address vnode = h.

(** Instances for adding hosts to [vdbOneNode]. *)
Definition joinSlash (elems : list string) : string := String.concat "/" elems.

Definition nextNodeName (names : gmap string string) (dbName : string) (n : Z)
  : option string :=
  Some ("v_" +:+ dbName +:+ "_node" +:+ itoa (Z.of_nat (size names) + 1)).

Definition addedOf (o : outcome (VCoordinationDatabase * option error))
  : VCoordinationDatabase :=
  match o with
  | Returns (v, _) => v
  | Panics _ => makeVCoordinationDatabase
  end.

Definition vdbThreeNodes : VCoordinationDatabase :=
  addedOf (addHosts joinSlash "ipv6" "ipv4" nextNodeName vdbOneNode
             ["10.0.0.2"%string; "10.0.0.3"%string] "sc1").

Definition vdbStopped : VCoordinationDatabase :=
  addedOf (addHosts joinSlash "ipv6" "ipv4" nextNodeName vdbOneNode
             ["10.0.0.2"%string; "10.0.0.1"%string; "10.0.0.3"%string] "sc1").

(** [maps.Keys] in the order of the map's list of entries. *)
Definition keysOfEntries (m : gmap string VCoordinationNode) : list string :=
  (map_to_list m).*1.

(** A result the depot operation accepts: passing, parsed, and naming the
    node and the depot path the operation holds for the host. *)
Definition depotAccepted
    (parse : string -> string -> string -> result OpResponseMap)
    (op : HTTPSCreateNodesDepotOp.HTTPSCreateNodesDepotOp)
    (hr : string * HostHTTPResult) : Prop :=
  isPassing (snd hr) = true /\
  exists resp,
    parse (HTTPSCreateNodesDepotOp.name op) (fst hr) (content (snd hr)) = Ok resp /\
    default EmptyString (resp !! "node"%string) =
      Name (HTTPSCreateNodesDepotOp.nodeOf op (fst hr)) /\
    default EmptyString (resp !! "depot_location"%string) =
      DepotPath (HTTPSCreateNodesDepotOp.nodeOf op (fst hr)).

(** The hosts of the [logResponse] calls of a log, in order. *)
Definition loggedHosts (log : list logCall) : list string :=
  omap (fun c => match c with
                 | CallLogResponse _ h _ => Some h
                 | _ => None
                 end) log.

(** A result the polling passes over: no credential error, not passing. *)
Definition pollSkipped (isPwdErr : HostHTTPResult -> bool)
    (hr : string * HostHTTPResult) : Prop :=
  isPwdErr (snd hr) = false /\ isPassing (snd hr) = false.

(** The requested nodes whose address differs from the one in the
    catalog, and the others, given the catalog addresses by node name. *)
Definition needsReIP (names : gmap string string) (nodeIP : string * string) : bool :=
  match names !! fst nodeIP with
  | Some oldIP => negb (String.eqb oldIP (snd nodeIP))
  | None => false
  end.

(** The instructions were asked for with [info]. *)
Definition producedWith (tr : list RestartNodes.event)
    (info : RestartNodes.VRestartNodesInfo) : Prop :=
  List.filter (fun ev => match ev with RestartNodes.EvProduce _ => true | _ => false end)
    tr = [RestartNodes.EvProduce info].

(** The entries of [vdbOneNode], and a restart that asks for and runs
    its instructions without error. *)
Definition oneNodeEntries : list (string * VCoordinationNode) :=
  map_to_list (entries (HostNodeMap vdbOneNode)).

Definition restartOneNode (Nodes : list (string * string))
  : list RestartNodes.event * option error :=
  RestartNodes.VRestartNodes unit unit (String.concat " ") (Ok tt) None
    (oneNodeEntries, None) (fun _ => Ok tt) (fun _ => None) Nodes.
(* ===================================================================== *)
(** * Part III: properties *)
(* ===================================================================== *)

(** ** Strings *)

Lemma append_cons (c : ascii) (s t : string) :
  String c s +:+ t = String c (s +:+ t).
Proof. reflexivity. Qed.

Lemma append_nil (t : string) : EmptyString +:+ t = t.
Proof. reflexivity. Qed.

Lemma prefix_app (p s : string) :
  String.prefix p s = true <-> exists post, s = p +:+ post.
Proof.
  revert s; induction p as [|a p IH]; intros s; simpl.
  - destruct s; split; eauto.
  - destruct s as [|b s]; simpl.
    + split; [discriminate | intros [post H]; discriminate].
    + destruct (ascii_dec a b) as [->|Hne].
      * rewrite IH. split; intros [post H]; exists post.
        -- rewrite append_cons. f_equal. exact H.
        -- rewrite append_cons in H. injection H. auto.
      * split; [discriminate | intros [post H]].
        rewrite append_cons in H. congruence.
Qed.

Lemma stringsContains_spec (s substr : string) :
  stringsContains s substr = true <->
  exists pre post, s = pre +:+ substr +:+ post.
Proof.
  induction s as [|c s IH].
  - cbn [stringsContains]. rewrite orb_false_r, prefix_app. split.
    + intros [post H]. exists EmptyString, post. exact H.
    + intros [pre [post H]]. destruct pre.
      * rewrite append_nil in H. eauto.
      * rewrite append_cons in H. discriminate.
  - cbn [stringsContains]. rewrite orb_true_iff, prefix_app, IH. split.
    + intros [[post H] | [pre [post H]]].
      * exists EmptyString, post. exact H.
      * exists (String c pre), post. rewrite append_cons. congruence.
    + intros [pre [post H]]. destruct pre as [|c' pre].
      * left. rewrite append_nil in H. eauto.
      * right. rewrite append_cons in H. exists pre, post. congruence.
Qed.

(** ** Results *)

(** C10: [IsHTTPRunning] holds exactly when the result is passing or its
    status code is 401 or 500. *)
Theorem IsHTTPRunning_iff (hostResult : HostHTTPResult) :
  IsHTTPRunning hostResult = true <->
  (err hostResult = None \/ statusCode hostResult = 401 \/
   statusCode hostResult = 500).
Proof.
  unfold IsHTTPRunning, isPassing, IsUnauthorizedRequest, IsInternalError,
    UnauthorizedCode, InternalErrorCode.
  destruct (err hostResult) as [e|]; simpl.
  - destruct (Z.eqb_spec (statusCode hostResult) 401) as [H1|H1]; simpl.
    + split; auto.
    + destruct (Z.eqb_spec (statusCode hostResult) 500) as [H2|H2].
      * split; auto.
      * split; [discriminate | intros [H|[H|H]]; congruence].
  - split; auto.
Qed.

Lemma anyContained_spec (resultString : string) (msgs : list string) :
  anyContained resultString msgs = true <->
  exists msg, In msg msgs /\ stringsContains resultString msg = true.
Proof.
  induction msgs as [|m msgs IH]; cbn [anyContained].
  - split; [discriminate | intros [msg [[] _]]].
  - destruct (stringsContains resultString m) eqn:Hm.
    + split; [intros _ | reflexivity]. exists m. split; [left; reflexivity | exact Hm].
    + rewrite IH. split.
      * intros [msg [Hin Hc]]. exists msg. split; [right; exact Hin | exact Hc].
      * intros [msg [[-> | Hin] Hc]]; [congruence | eauto].
Qed.

(** C8: [IsPasswordandCertificateError] holds exactly when the status code
    is 401 and the [%v] rendering of the result contains "Wrong password"
    or "Wrong certificate". *)
Theorem IsPasswordandCertificateError_iff
    (fmtErrField : error -> string) (hostResult : HostHTTPResult) :
  IsPasswordandCertificateError fmtErrField hostResult = true <->
  (statusCode hostResult = 401 /\
   exists msg pre post,
     (msg = "Wrong password"%string \/ msg = "Wrong certificate"%string) /\
     sprintfV fmtErrField hostResult = pre +:+ msg +:+ post).
Proof.
  unfold IsPasswordandCertificateError, IsUnauthorizedRequest, UnauthorizedCode.
  destruct (Z.eqb_spec (statusCode hostResult) 401) as [H1|H1]; cbn [negb].
  - rewrite anyContained_spec. unfold wrongCredentialErrMsg. split.
    + intros [msg [Hin Hc]]. split; [exact H1|].
      apply stringsContains_spec in Hc as [pre [post Hc]].
      exists msg, pre, post. split; [|exact Hc].
      destruct Hin as [<- | [<- | []]]; auto.
    + intros [_ [msg [pre [post [Hmsg Hs]]]]]. exists msg. split.
      * destruct Hmsg as [-> | ->]; [left | right; left]; reflexivity.
      * apply stringsContains_spec. eauto.
  - split; [discriminate | intros [H _]; contradiction].
Qed.

(** ** Spread key generation *)

Lemma length_string_of_list_byte (l : list Byte.byte) :
  String.length (string_of_list_byte l) = length l.
Proof.
  induction l as [|b l IH]; [reflexivity|].
  change (string_of_list_byte (b :: l))
    with (String (ascii_of_byte b) (string_of_list_byte l)).
  cbn [String.length length]. now rewrite IH.
Qed.

Lemma hex_digits_of_byte (v : Byte.byte) :
  isHexDigit (byteAt hextable (N.to_nat (N.shiftr (Byte.to_N v) 4))) = true /\
  isHexDigit (byteAt hextable (N.to_nat (N.land (Byte.to_N v) 15))) = true.
Proof. destruct v; vm_compute; split; reflexivity. Qed.

Lemma hexEncodeToString_length (src : list Byte.byte) :
  String.length (hexEncodeToString src) = (2 * length src)%nat.
Proof.
  unfold hexEncodeToString. rewrite length_string_of_list_byte.
  induction src as [|v src IH]; simpl; [reflexivity | rewrite IH; lia].
Qed.

Lemma hexEncodeToString_digits (src : list Byte.byte) :
  Forall (fun c => isHexDigit c = true)
    (list_byte_of_string (hexEncodeToString src)).
Proof.
  unfold hexEncodeToString. rewrite list_byte_of_string_of_list_byte.
  induction src as [|v src IH]; simpl; [constructor|].
  destruct (hex_digits_of_byte v) as [Hhi Hlo].
  constructor; [exact Hhi|]. constructor; [exact Hlo | exact IH].
Qed.

Lemma availChars_alnum :
  Forall (fun c => isLowerAlnum c = true) NMASpreadSecurityOp.availChars.
Proof. vm_compute. repeat constructor. Qed.

Lemma byteAt_availChars (r : nat) :
  (r < length NMASpreadSecurityOp.availChars)%nat ->
  isLowerAlnum (byteAt NMASpreadSecurityOp.availChars r) = true.
Proof.
  intros Hr. pose proof availChars_alnum as Hall.
  rewrite List.Forall_forall in Hall. apply Hall.
  unfold byteAt. apply nth_In. exact Hr.
Qed.

Lemma randIntn_lt (n : nat) (g : rng) :
  (0 < n)%nat -> (fst (randIntn n g) < n)%nat.
Proof. intros Hn. simpl. apply Nat.mod_upper_bound. lia. Qed.

(** After the loop, the positions visited hold characters of
    [availChars]; the other positions are unchanged. *)
Lemma fillKeyID_spec (idxs : list nat) (b : list Byte.byte) (g : rng) :
  let b' := fst (NMASpreadSecurityOp.fillKeyID idxs b g) in
  length b' = length b /\
  forall i x, b' !! i = Some x ->
    (In i idxs -> isLowerAlnum x = true) /\ (~ In i idxs -> b !! i = Some x).
Proof.
  revert b g.
  induction idxs as [|i0 idxs IH]; intros b g; cbn [NMASpreadSecurityOp.fillKeyID].
  - cbn. split; [reflexivity|]. intros i x Hx. split; [intros [] | auto].
  - unfold randIntn.
    set (c := byteAt NMASpreadSecurityOp.availChars
                (Nat.modulo (g 0%nat) (length NMASpreadSecurityOp.availChars))).
    assert (Hc : isLowerAlnum c = true).
    { apply byteAt_availChars. apply Nat.mod_upper_bound. vm_compute. lia. }
    destruct (IH (<[i0 := c]> b) (fun j => g (S j))) as [Hlen Hpos].
    cbn zeta. split.
    + rewrite Hlen. apply length_insert.
    + intros j x Hj. destruct (Hpos j x Hj) as [Hin Hout]. split.
      * intros Hjin. destruct (in_dec Nat.eq_dec j idxs) as [Hr|Hr]; [auto|].
        destruct Hjin as [-> | Hjin]; [|contradiction].
        specialize (Hout Hr).
        assert (Hlt : (j < length b)%nat).
        { apply lookup_lt_Some in Hout. rewrite length_insert in Hout. exact Hout. }
        rewrite list_lookup_insert_eq in Hout by exact Hlt. congruence.
      * intros Hnin. assert (Hne : i0 <> j) by (intros ->; apply Hnin; left; reflexivity).
        assert (Hr : ~ In j idxs) by (intros H; apply Hnin; right; exact H).
        specialize (Hout Hr). rewrite list_lookup_insert_ne in Hout; auto.
Qed.

Lemma generateKeyID_shape (g : rng) :
  let keyID := fst (NMASpreadSecurityOp.generateKeyID g) in
  String.length keyID = 4%nat /\
  Forall (fun c => isLowerAlnum c = true) (list_byte_of_string keyID).
Proof.
  unfold NMASpreadSecurityOp.generateKeyID.
  set (b := replicate NMASpreadSecurityOp.keyLength Byte.x00).
  pose proof (fillKeyID_spec (seq 0 (length b)) b g) as Hspec.
  destruct (NMASpreadSecurityOp.fillKeyID (seq 0 (length b)) b g) as [b' g'].
  cbn [fst] in *. cbv zeta in Hspec. destruct Hspec as [Hlen Hpos].
  split.
  - rewrite length_string_of_list_byte, Hlen. reflexivity.
  - rewrite list_byte_of_string_of_list_byte.
    apply List.Forall_forall. intros x Hx.
    apply list_elem_of_In, list_elem_of_lookup in Hx as [i Hi].
    apply (Hpos i x Hi). apply in_seq.
    apply lookup_lt_Some in Hi. rewrite Hlen in Hi. lia.
Qed.

Lemma generateVerticaSpreadKey_shape (src : cryptoSource) (key : string) :
  NMASpreadSecurityOp.generateVerticaSpreadKey src = Ok key ->
  String.length key = 64%nat /\
  Forall (fun c => isHexDigit c = true) (list_byte_of_string key).
Proof.
  unfold NMASpreadSecurityOp.generateVerticaSpreadKey.
  destruct src as [e | f]; cbn [crandRead]; [discriminate|].
  intros [= <-]. split.
  - rewrite hexEncodeToString_length. reflexivity.
  - apply hexEncodeToString_digits.
Qed.

(** C6: a key returned by [generateVerticaSpreadKey] has exactly 64
    characters, all hexadecimal digits, and a key id returned by
    [generateKeyID] has exactly 4 characters, all of [[a-z0-9]]. *)
Theorem spread_key_and_key_id_shape
    (src : cryptoSource) (key : string) (g : rng) :
  NMASpreadSecurityOp.generateVerticaSpreadKey src = Ok key ->
  (String.length key = 64%nat /\
   Forall (fun c => isHexDigit c = true) (list_byte_of_string key)) /\
  (String.length (fst (NMASpreadSecurityOp.generateKeyID g)) = 4%nat /\
   Forall (fun c => isLowerAlnum c = true)
     (list_byte_of_string (fst (NMASpreadSecurityOp.generateKeyID g)))).
Proof.
  intros Hkey. split.
  - exact (generateVerticaSpreadKey_shape src key Hkey).
  - exact (generateKeyID_shape g).
Qed.

(** With a working entropy source the key generation succeeds. *)
Lemma generateVerticaSpreadKey_total (f : nat -> Byte.byte) :
  exists key, NMASpreadSecurityOp.generateVerticaSpreadKey (CryptoStream f) = Ok key.
Proof. unfold NMASpreadSecurityOp.generateVerticaSpreadKey. cbn. eauto. Qed.

Lemma spread_key_and_key_id_shape_witness :
  let src := CryptoStream (fun i => if Nat.even i then Byte.x3c else Byte.xa7) in
  let g : rng := fun i => (37 * i + 5)%nat in
  exists key,
    NMASpreadSecurityOp.generateVerticaSpreadKey src = Ok key /\
    (String.length key = 64%nat /\
     Forall (fun c => isHexDigit c = true) (list_byte_of_string key)) /\
    (String.length (fst (NMASpreadSecurityOp.generateKeyID g)) = 4%nat /\
     Forall (fun c => isLowerAlnum c = true)
       (list_byte_of_string (fst (NMASpreadSecurityOp.generateKeyID g)))).
Proof.
  intros src g.
  exists (hexEncodeToString
            (imap (fun i _ => if Nat.even i then Byte.x3c else Byte.xa7)
               (replicate 32 Byte.x00))).
  split; [reflexivity|].
  apply (spread_key_and_key_id_shape src _ g). reflexivity.
Defined.

(** ** Coordination database *)

Lemma addNode_existing (vdb : VCoordinationDatabase) (vnode : VCoordinationNode) :
  is_Some (entries (HostNodeMap vdb) !! Address vnode) ->
  exists e, addNode vdb vnode = Returns (vdb, Some e).
Proof.
  intros [n Hn]. unfold addNode. rewrite Hn. eauto.
Qed.

Lemma addNode_fresh (vdb : VCoordinationDatabase) (vnode : VCoordinationNode)
    (m : gmap string VCoordinationNode) :
  HostNodeMap vdb = Some m ->
  m !! Address vnode = None ->
  addNode vdb vnode =
    Returns (setHosts vdb (Some (<[Address vnode := vnode]> m))
               (HostList vdb ++ [Address vnode]), None).
Proof.
  intros Hm Hnone. unfold addNode. rewrite Hm. cbn [entries].
  rewrite Hnone. reflexivity.
Qed.

Lemma addNode_preserves (vdb : VCoordinationDatabase) (vnode : VCoordinationNode) :
  vdb_hosts_inv vdb ->
  match addNode vdb vnode with
  | Returns (vdb', _) => vdb_hosts_inv vdb'
  | Panics _ => HostNodeMap vdb = None
  end.
Proof.
  intros [Hnd Hkeys]. unfold addNode.
  destruct (entries (HostNodeMap vdb) !! Address vnode) as [n|] eqn:Hlook.
  - split; assumption.
  - destruct (HostNodeMap vdb) as [m|] eqn:Hm; [|reflexivity].
    cbn [entries] in Hlook.
    assert (Hfresh : Address vnode ∉ HostList vdb).
    { intros Hin. apply Hkeys in Hin. cbn [entries] in Hin.
      rewrite Hlook in Hin. destruct Hin as [x Hx]. discriminate. }
    split; cbn [setHosts HostList HostNodeMap entries].
    + apply NoDup_app. split; [exact Hnd|]. split.
      * intros x Hx Hx'. apply list_elem_of_singleton in Hx'. subst x. auto.
      * apply NoDup_singleton.
    + intros a. rewrite elem_of_app, list_elem_of_singleton.
      destruct (decide (Address vnode = a)) as [<-|Hne].
      * rewrite lookup_insert_eq. split; [eauto | auto].
      * rewrite lookup_insert_ne by exact Hne.
        rewrite Hkeys. cbn [entries].
        split; [intros [H|H]; [exact H | congruence] | auto].
Qed.

Section Vdb.
Variable filepathJoin : list string -> string.
Variable IPv6ControlAddressFamily DefaultControlAddressFamily : string.
Variable GenVNodeName : gmap string string -> string -> Z -> option string.

Lemma addHosts_loop_preserves (todo : list string) (scName : string)
    (total : Z) (names : gmap string string) (vdb : VCoordinationDatabase) :
  vdb_hosts_inv vdb ->
  match addHosts_loop filepathJoin IPv6ControlAddressFamily
          DefaultControlAddressFamily GenVNodeName todo scName total names vdb with
  | Returns (vdb', _) => vdb_hosts_inv vdb'
  | Panics _ => HostNodeMap vdb = None
  end.
Proof.
  revert names vdb. induction todo as [|h rest IH]; intros names vdb Hinv.
  - exact Hinv.
  - cbn [addHosts_loop].
    destruct (GenVNodeName names (DBName vdb) total) as [nodeName|]; [|exact Hinv].
    set (vn := setFromNodeConfig _ _ _ _ _ _).
    pose proof (addNode_preserves vdb vn Hinv) as Hstep.
    destruct (addNode vdb vn) as [[vdb' [e|]]|msg] eqn:Hadd; try exact Hstep.
    specialize (IH (<[nodeName := h]> names) vdb' Hstep).
    destruct (addHosts_loop _ _ _ _ rest scName total _ vdb')
      as [[vdb'' e']|msg]; [exact IH|].
    unfold addNode in Hadd.
    destruct (entries (HostNodeMap vdb) !! Address vn); [discriminate|].
    destruct (HostNodeMap vdb); [|discriminate].
    injection Hadd as <-. discriminate IH.
Qed.

(** C9: [addNode] and [addHosts] keep [HostList] duplicate-free and equal,
    as a set, to the keys of [HostNodeMap] (they return unless the map
    is nil and an entry has to be assigned); [addNode] returns an error
    and the unchanged vdb when the address is already a key. *)
Theorem addNode_addHosts_preserve_inv
    (vdb : VCoordinationDatabase) (vnode : VCoordinationNode)
    (hosts : list string) (scName : string) :
  vdb_hosts_inv vdb ->
  match addNode vdb vnode with
  | Returns (vdb', _) => vdb_hosts_inv vdb'
  | Panics _ => HostNodeMap vdb = None
  end /\
  match addHosts filepathJoin IPv6ControlAddressFamily
          DefaultControlAddressFamily GenVNodeName vdb hosts scName with
  | Returns (vdb', _) => vdb_hosts_inv vdb'
  | Panics _ => HostNodeMap vdb = None
  end /\
  (is_Some (entries (HostNodeMap vdb) !! Address vnode) ->
   exists e, addNode vdb vnode = Returns (vdb, Some e)).
Proof.
  intros Hinv. split; [|split].
  - exact (addNode_preserves vdb vnode Hinv).
  - unfold addHosts. apply addHosts_loop_preserves. exact Hinv.
  - apply addNode_existing.
Qed.
End Vdb.

(** ** Result processing *)

Lemma responseLog_app (opName : string) (l1 l2 : list (string * HostHTTPResult)) :
  responseLog opName (l1 ++ l2) = responseLog opName l1 ++ responseLog opName l2.
Proof. unfold responseLog. apply List.map_app. Qed.

(** Every list of results either has a first passing result or has none. *)
Lemma first_passing (rs : list (string * HostHTTPResult)) :
  Exists (fun hr => isPassing (snd hr) = true) rs ->
  exists pre h r post,
    rs = pre ++ (h, r) :: post /\
    Forall (fun hr => isPassing (snd hr) = false) pre /\
    isPassing r = true.
Proof.
  induction rs as [|[h r] rs IH]; intros Hex.
  - inversion Hex.
  - destruct (isPassing r) eqn:Hr.
    + exists [], h, r, rs. split; [reflexivity|]. split; [constructor | exact Hr].
    + assert (Hex' : Exists (fun hr => isPassing (snd hr) = true) rs).
      { inversion Hex as [? ? Hhd | ? ? Htl]; subst; [|exact Htl].
        cbn in Hhd. congruence. }
      destruct (IH Hex') as [pre [h' [r' [post [-> [Hpre Hr']]]]]].
      exists ((h, r) :: pre), h', r', post.
      split; [reflexivity|]. split; [|exact Hr'].
      constructor; [exact Hr | exact Hpre].
Qed.

(** *** Spread security *)

Section SpreadSecurityResults.
Variable parseAndCheckMapResponse :
  string -> string -> string -> result OpResponseMap.

(** Whatever was accumulated, a run over failing results returns nil. *)
Lemma spread_processResult_loop_failing
    (op : NMASpreadSecurityOp.nmaSpreadSecurityOp)
    (rs : list (string * HostHTTPResult)) (allErrs : option error)
    (log : list logEntry) :
  Forall (fun hr => isPassing (snd hr) = false) rs ->
  NMASpreadSecurityOp.processResult_loop parseAndCheckMapResponse op rs allErrs log =
    (log ++ responseLog (NMASpreadSecurityOp.name op) rs, None).
Proof.
  revert allErrs log. induction rs as [|[h r] rs IH]; intros allErrs log Hall.
  - cbn. now rewrite app_nil_r.
  - inversion Hall as [|? ? Hr Hrs]; subst. cbn in Hr.
    cbn [NMASpreadSecurityOp.processResult_loop]. rewrite Hr.
    rewrite IH by exact Hrs. cbn [responseLog List.map fst snd].
    now rewrite <- app_assoc.
Qed.

(** C3 (evaluation of the code): whatever errors the hosts failed with,
    [nmaSpreadSecurityOp.processResult] returns nil; the accumulated join
    is dropped by the final [return nil]. *)
Theorem nmaSpreadSecurityOp_processResult_drops_host_errors
    (n : string) (hs : list string) (paths : gmap string string) (kt : string)
    (failures : list (string * error)) :
  snd (NMASpreadSecurityOp.processResult parseAndCheckMapResponse
         (NMASpreadSecurityOp.mkOp n hs paths kt
            (List.map (fun he => (fst he, failingResult (fst he) (snd he)))
               failures)))
  = None.
Proof.
  unfold NMASpreadSecurityOp.processResult.
  rewrite spread_processResult_loop_failing; [reflexivity|].
  cbn [NMASpreadSecurityOp.ResultCollection].
  induction failures as [|[h e] fs IH]; constructor; [reflexivity | exact IH].
Qed.
End SpreadSecurityResults.

(** One host failing with an internal error: the operation reports success. *)
Example nmaSpreadSecurityOp_processResult_one_failure :
  NMASpreadSecurityOp.processResult (fun _ _ _ => Ok ∅)
    (NMASpreadSecurityOp.mkOp "NMASpreadSecurityOp" ["10.0.0.1"%string] ∅ "vertica"
       [("10.0.0.1"%string,
         failingResult "10.0.0.1" (ErrorString "500 Internal Server Error"))])
  = ([LogResponse "NMASpreadSecurityOp" "10.0.0.1"
        (failingResult "10.0.0.1" (ErrorString "500 Internal Server Error"))],
     None).
Proof. reflexivity. Qed.

(** *** Download config *)

Lemma errorsJoin_two_joined (acc : option error) (e : error) :
  exists E, errorsJoin [acc; Some e] = Some E /\
    joinedErrors E =
      match acc with
      | Some a => joinedErrors a ++ joinedErrors e
      | None => joinedErrors e
      end.
Proof.
  destruct acc as [a|]; cbn.
  - eexists. split; [reflexivity|]. cbn. now rewrite app_nil_r.
  - eexists. split; [reflexivity|]. cbn. now rewrite app_nil_r.
Qed.

Lemma errorsJoin_step (acc : option error) (e : error) :
  joinedOf (errorsJoin [acc; Some e]) = joinedOf acc ++ joinedErrors e.
Proof.
  destruct acc as [a|]; cbn; now rewrite app_nil_r.
Qed.

Lemma download_loop_passing (op : NMADownloadConfigOp.NMADownloadConfigOp)
    (pre : list (string * HostHTTPResult)) (h : string) (r : HostHTTPResult)
    (post : list (string * HostHTTPResult)) (allErrs : option error)
    (hp : heap) (log : list logEntry) :
  Forall (fun hr => isPassing (snd hr) = false) pre ->
  isPassing r = true ->
  NMADownloadConfigOp.processResult_loop op (pre ++ (h, r) :: post) allErrs hp log =
    (<[NMADownloadConfigOp.fileContent op := content r]> hp,
     log ++ responseLog (NMADownloadConfigOp.name op) (pre ++ [(h, r)]),
     None).
Proof.
  revert allErrs log. induction pre as [|[h' r'] pre IH]; intros allErrs log Hpre Hr.
  - cbn [app NMADownloadConfigOp.processResult_loop]. rewrite Hr. reflexivity.
  - inversion Hpre as [|? ? Hr' Hpre']; subst. cbn in Hr'.
    cbn [app NMADownloadConfigOp.processResult_loop]. rewrite Hr'.
    rewrite IH by assumption. cbn [responseLog List.map fst snd app].
    now rewrite <- app_assoc.
Qed.

Lemma download_loop_failing (op : NMADownloadConfigOp.NMADownloadConfigOp)
    (rs : list (string * HostHTTPResult)) (allErrs : option error)
    (hp : heap) (log : list logEntry) :
  Forall (fun hr => isPassing (snd hr) = false) rs ->
  exists E,
    NMADownloadConfigOp.processResult_loop op rs allErrs hp log =
      (hp, log ++ responseLog (NMADownloadConfigOp.name op) rs, Some E) /\
    joinedErrors E =
      joinedOf allErrs ++ List.flat_map joinedErrors (hostErrors rs) ++
      [NMADownloadConfigOp.noPassingHost].
Proof.
  revert allErrs log. induction rs as [|[h r] rs IH]; intros allErrs log Hall.
  - cbn [NMADownloadConfigOp.processResult_loop].
    destruct (errorsJoin_two_joined allErrs NMADownloadConfigOp.noPassingHost)
      as [E [HE HJ]].
    exists E. rewrite HE, app_nil_r. split; [reflexivity|].
    rewrite HJ. destruct allErrs; reflexivity.
  - inversion Hall as [|? ? Hr Hrs]; subst. cbn in Hr.
    cbn [NMADownloadConfigOp.processResult_loop]. rewrite Hr.
    unfold isPassing in Hr. destruct (err r) as [e|] eqn:He; [|discriminate].
    destruct (IH (errorsJoin [allErrs; Some e])
                (log ++ [LogResponse (NMADownloadConfigOp.name op) h r]) Hrs)
      as [E [HE HJ]].
    exists E. split.
    + rewrite HE. cbn [responseLog List.map fst snd]. now rewrite <- app_assoc.
    + rewrite HJ, errorsJoin_step. unfold hostErrors. cbn [omap list_omap snd].
      rewrite He. cbn [List.flat_map]. now rewrite <- !app_assoc.
Qed.

(** C4: when some host passes, [processResult] returns nil, stores the
    body of the first passing host (in iteration order) in the cell
    [fileContent], which any operation holding the same reference then
    reads, and logs no host after it; when no host passes it returns the
    join of every host's error and the no-passing-host error. *)
Theorem NMADownloadConfigOp_processResult_spec
    (op : NMADownloadConfigOp.NMADownloadConfigOp) (hp : heap) :
  (Exists (fun hr => isPassing (snd hr) = true)
     (NMADownloadConfigOp.ResultCollection op) ->
   exists pre h r post,
     NMADownloadConfigOp.ResultCollection op = pre ++ (h, r) :: post /\
     Forall (fun hr => isPassing (snd hr) = false) pre /\
     isPassing r = true /\
     NMADownloadConfigOp.processResult op hp =
       (<[NMADownloadConfigOp.fileContent op := content r]> hp,
        responseLog (NMADownloadConfigOp.name op) (pre ++ [(h, r)]),
        None) /\
     forall up : NMAUploadConfigOp.NMAUploadConfigOp,
       NMAUploadConfigOp.fileContent up = NMADownloadConfigOp.fileContent op ->
       deref (fst (fst (NMADownloadConfigOp.processResult op hp)))
         (NMAUploadConfigOp.fileContent up) = content r) /\
  (Forall (fun hr => isPassing (snd hr) = false)
     (NMADownloadConfigOp.ResultCollection op) ->
   exists E,
     NMADownloadConfigOp.processResult op hp =
       (hp,
        responseLog (NMADownloadConfigOp.name op)
          (NMADownloadConfigOp.ResultCollection op),
        Some E) /\
     joinedErrors E =
       List.flat_map joinedErrors
         (hostErrors (NMADownloadConfigOp.ResultCollection op)) ++
       [NMADownloadConfigOp.noPassingHost]).
Proof.
  split.
  - intros Hex.
    destruct (first_passing _ Hex) as [pre [h [r [post [Hrs [Hpre Hr]]]]]].
    exists pre, h, r, post.
    assert (Hrun : NMADownloadConfigOp.processResult op hp =
      (<[NMADownloadConfigOp.fileContent op := content r]> hp,
       responseLog (NMADownloadConfigOp.name op) (pre ++ [(h, r)]), None)).
    { unfold NMADownloadConfigOp.processResult. rewrite Hrs.
      rewrite (download_loop_passing op pre h r post None hp [] Hpre Hr).
      reflexivity. }
    repeat split; try assumption.
    intros up Hup. rewrite Hrun, Hup. cbn [fst]. unfold deref.
    now rewrite lookup_insert_eq.
  - intros Hall. unfold NMADownloadConfigOp.processResult.
    destruct (download_loop_failing op _ None hp [] Hall) as [E [HE HJ]].
    exists E. split; [exact HE | exact HJ].
Qed.

(** *** Unauthorized results *)

Section UnauthorizedShortCircuit.
Variable parseScInfo : string -> string -> string -> result HTTPSCheckSubclusterOp.scInfo.
Variable parseMap : string -> string -> string -> result OpResponseMap.

(** At an unauthorized result the loop of the check-subcluster
    operation returns that result's error, whatever it holds. *)
Lemma checkSubcluster_loop_unauthorized
    (op : HTTPSCheckSubclusterOp.httpsCheckSubclusterOp)
    (h : string) (r : HostHTTPResult) (rest : list (string * HostHTTPResult))
    (e : option error) (log : list logEntry) :
  IsUnauthorizedRequest r = true ->
  HTTPSCheckSubclusterOp.processResult_loop parseScInfo op ((h, r) :: rest) e log =
    (log ++ [LogResponse (HTTPSCheckSubclusterOp.name op) h r], err r).
Proof.
  intros Hr. cbn [HTTPSCheckSubclusterOp.processResult_loop]. now rewrite Hr.
Qed.

Lemma sandboxing_loop_unauthorized
    (op : HTTPSSandboxingOp.httpsSandboxingOp)
    (h : string) (r : HostHTTPResult) (rest : list (string * HostHTTPResult))
    (allErrs : option error) (log : list logEntry) :
  IsUnauthorizedRequest r = true ->
  HTTPSSandboxingOp.processResult_loop parseMap op ((h, r) :: rest) allErrs log =
    (log ++ [LogResponse (HTTPSSandboxingOp.name op) h r], err r).
Proof.
  intros Hr. cbn [HTTPSSandboxingOp.processResult_loop]. now rewrite Hr.
Qed.

Lemma checkSubcluster_loop_reaches
    (op : HTTPSCheckSubclusterOp.httpsCheckSubclusterOp)
    (pre : list (string * HostHTTPResult)) (h : string) (r : HostHTTPResult)
    (post : list (string * HostHTTPResult)) (e : option error)
    (log : list logEntry) :
  Forall passedOver pre ->
  IsUnauthorizedRequest r = true ->
  HTTPSCheckSubclusterOp.processResult_loop parseScInfo op
    (pre ++ (h, r) :: post) e log =
    (log ++ responseLog (HTTPSCheckSubclusterOp.name op) (pre ++ [(h, r)]), err r).
Proof.
  revert e log. induction pre as [|[h' r'] pre IH]; intros e log Hpre Hr.
  - cbn [app]. now apply checkSubcluster_loop_unauthorized.
  - inversion Hpre as [|? ? [Hu Hp] Hpre']; subst. cbn in Hu, Hp.
    cbn [app HTTPSCheckSubclusterOp.processResult_loop]. rewrite Hu, Hp.
    cbn [negb]. rewrite IH by assumption.
    cbn [responseLog List.map fst snd app]. now rewrite <- app_assoc.
Qed.

Lemma sandboxing_loop_reaches
    (op : HTTPSSandboxingOp.httpsSandboxingOp)
    (pre : list (string * HostHTTPResult)) (h : string) (r : HostHTTPResult)
    (post : list (string * HostHTTPResult)) (allErrs : option error)
    (log : list logEntry) :
  Forall passedOver pre ->
  IsUnauthorizedRequest r = true ->
  HTTPSSandboxingOp.processResult_loop parseMap op
    (pre ++ (h, r) :: post) allErrs log =
    (log ++ responseLog (HTTPSSandboxingOp.name op) (pre ++ [(h, r)]), err r).
Proof.
  revert allErrs log. induction pre as [|[h' r'] pre IH]; intros allErrs log Hpre Hr.
  - cbn [app]. now apply sandboxing_loop_unauthorized.
  - inversion Hpre as [|? ? [Hu Hp] Hpre']; subst. cbn in Hu, Hp.
    cbn [app HTTPSSandboxingOp.processResult_loop]. rewrite Hu, Hp.
    cbn [negb]. rewrite IH by assumption.
    cbn [responseLog List.map fst snd app]. now rewrite <- app_assoc.
Qed.

(** C5: in [httpsCheckSubclusterOp.processResult] and
    [httpsSandboxingOp.processResult], an unauthorized result ends the
    processing where the loop comes to it: the method returns that host's
    error alone, whatever was accumulated from the hosts before it, and
    the hosts after it are neither logged nor looked at.  For the whole
    method this is the first unauthorized result in iteration order, the
    results before it having been passed over. *)
Theorem unauthorized_short_circuits
    (chk : HTTPSCheckSubclusterOp.httpsCheckSubclusterOp)
    (sbx : HTTPSSandboxingOp.httpsSandboxingOp)
    (h : string) (r : HostHTTPResult) (post : list (string * HostHTTPResult)) :
  IsUnauthorizedRequest r = true ->
  (forall e log,
     HTTPSCheckSubclusterOp.processResult_loop parseScInfo chk ((h, r) :: post) e log =
       (log ++ [LogResponse (HTTPSCheckSubclusterOp.name chk) h r], err r)) /\
  (forall allErrs log,
     HTTPSSandboxingOp.processResult_loop parseMap sbx ((h, r) :: post) allErrs log =
       (log ++ [LogResponse (HTTPSSandboxingOp.name sbx) h r], err r)) /\
  (forall pre,
     Forall passedOver pre ->
     HTTPSCheckSubclusterOp.ResultCollection chk = pre ++ (h, r) :: post ->
     HTTPSCheckSubclusterOp.processResult parseScInfo chk =
       (responseLog (HTTPSCheckSubclusterOp.name chk) (pre ++ [(h, r)]), err r)) /\
  (forall pre,
     Forall passedOver pre ->
     HTTPSSandboxingOp.ResultCollection sbx = pre ++ (h, r) :: post ->
     HTTPSSandboxingOp.processResult parseMap sbx =
       (responseLog (HTTPSSandboxingOp.name sbx) (pre ++ [(h, r)]), err r)).
Proof.
  intros Hr. repeat split.
  - intros e log. now apply checkSubcluster_loop_unauthorized.
  - intros allErrs log. now apply sandboxing_loop_unauthorized.
  - intros pre Hpre Hrs. unfold HTTPSCheckSubclusterOp.processResult. rewrite Hrs.
    now rewrite (checkSubcluster_loop_reaches chk pre h r post None [] Hpre Hr).
  - intros pre Hpre Hrs. unfold HTTPSSandboxingOp.processResult. rewrite Hrs.
    now rewrite (sandboxing_loop_reaches sbx pre h r post None [] Hpre Hr).
Qed.
End UnauthorizedShortCircuit.

(** ** Key material in the log *)

Lemma append_assoc (a b c : string) : (a +:+ b) +:+ c = a +:+ (b +:+ c).
Proof.
  induction a as [|x a IH]; [reflexivity|].
  rewrite !append_cons. now rewrite IH.
Qed.

Lemma append_empty_r (a : string) : a +:+ EmptyString = a.
Proof.
  induction a as [|x a IH]; [reflexivity|]. rewrite append_cons. now rewrite IH.
Qed.

Section SpreadKeyLogging.
Variable getCatalogPath : string -> string.
Variable jsonMarshalPayload :
  NMASpreadSecurityOp.nmaSpreadSecurityPayload -> result string.
Variable fmtMap : gmap string string -> string.

(** The loop only adds to the log. *)
Lemma spread_setupRequestBody_loop_log
    (op : NMASpreadSecurityOp.nmaSpreadSecurityOp) (details : string)
    (todo : list string) (bodies : gmap string string) (log : list logEntry) :
  exists more,
    fst (NMASpreadSecurityOp.setupRequestBody_loop getCatalogPath
           jsonMarshalPayload fmtMap op details todo bodies log) = log ++ more.
Proof.
  revert bodies log. induction todo as [|h rest IH]; intros bodies log.
  - exists []. cbn. now rewrite app_nil_r.
  - cbn [NMASpreadSecurityOp.setupRequestBody_loop].
    destruct (NMASpreadSecurityOp.catalogPathMap op !! h) as [p|].
    + destruct (jsonMarshalPayload _) as [data|e].
      * match goal with
        | |- context [NMASpreadSecurityOp.setupRequestBody_loop _ _ _ _ _ _ ?b ?l] =>
            destruct (IH b l) as [more Hmore]
        end.
        rewrite Hmore. rewrite <- !app_assoc. eauto.
      * cbn [fst]. eauto.
    + exists []. cbn. now rewrite app_nil_r.
Qed.

(** With a host to send to, a catalog path for it, the key type
    "vertica" and a working entropy source, [setupRequestBody] hands the
    security details themselves to a log call. *)
Lemma spread_setupRequestBody_logs_details
    (n h p : string) (hs : list string) (paths : gmap string string)
    (rc : list (string * HostHTTPResult)) (g : rng) (f : nat -> Byte.byte) :
  let op := NMASpreadSecurityOp.mkOp n (h :: hs) (<[h := p]> paths)
              NMASpreadSecurityOp.spreadKeyTypeVertica rc in
  exists details,
    fst (NMASpreadSecurityOp.generateSecurityDetails op g (CryptoStream f)) =
      Ok details /\
    In details
      (allLoggedStrings
         (fst (fst (NMASpreadSecurityOp.setupRequestBody getCatalogPath
                      jsonMarshalPayload fmtMap op g (CryptoStream f))))).
Proof.
  intros op. unfold NMASpreadSecurityOp.setupRequestBody.
  unfold NMASpreadSecurityOp.generateSecurityDetails.
  destruct (NMASpreadSecurityOp.generateKeyID g) as [keyID g'].
  change (NMASpreadSecurityOp.keyType op)
    with NMASpreadSecurityOp.spreadKeyTypeVertica.
  rewrite String.eqb_refl.
  destruct (generateVerticaSpreadKey_total f) as [key Hkey]. rewrite Hkey.
  eexists. split; [reflexivity|].
  change (NMASpreadSecurityOp.hosts op) with (h :: hs).
  cbn [length Nat.eqb fst].
  cbn [NMASpreadSecurityOp.setupRequestBody_loop].
  change (NMASpreadSecurityOp.catalogPathMap op) with (<[h := p]> paths).
  rewrite lookup_insert_eq.
  destruct (jsonMarshalPayload _) as [data|e].
  - match goal with
    | |- context [NMASpreadSecurityOp.setupRequestBody_loop _ _ _ ?o ?d ?t ?b ?l] =>
        destruct (spread_setupRequestBody_loop_log o d t b l) as [more Hmore];
        destruct (NMASpreadSecurityOp.setupRequestBody_loop getCatalogPath
                    jsonMarshalPayload fmtMap o d t b l) as [lg res]
    end.
    cbn [fst] in *. subst lg. unfold allLoggedStrings.
    rewrite !flat_map_app. apply in_or_app. left. apply in_or_app. left.
    cbn. tauto.
  - cbn. tauto.
Qed.
End SpreadKeyLogging.

Section UploadKeyLogging.
Variable jsonMarshalData :
  NMAUploadConfigOp.uploadConfigRequestData -> result string.

(** In [encryptSpread] mode [setupRequestBody] appends the spread key
    payload to the shared file content and hands the new content to a
    log call. *)
Lemma upload_setupRequestBody_logs_payload
    (op : NMAUploadConfigOp.NMAUploadConfigOp) (hp : heap) (hs : list string) :
  NMAUploadConfigOp.encryptSpread op = true ->
  exists logged,
    In logged
      (allLoggedStrings
         (snd (fst (NMAUploadConfigOp.setupRequestBody jsonMarshalData op hp hs)))) /\
    stringsContains logged NMAUploadConfigOp.spreadKeyPayload = true /\
    deref (snd (fst (fst (NMAUploadConfigOp.setupRequestBody jsonMarshalData op hp hs))))
      (NMAUploadConfigOp.fileContent op) = logged.
Proof.
  intros Henc. unfold NMAUploadConfigOp.setupRequestBody.
  cbn [NMAUploadConfigOp.setHostRequestBodyMap NMAUploadConfigOp.encryptSpread
       NMAUploadConfigOp.fileContent].
  rewrite Henc.
  match goal with
  | |- context [NMAUploadConfigOp.setupRequestBody_loop _ ?o ?h ?t] =>
      destruct (NMAUploadConfigOp.setupRequestBody_loop jsonMarshalData o h t)
        as [op2 e]
  end.
  cbn [fst snd]. unfold deref at 1 3. rewrite !lookup_insert_eq. cbn [default from_option id].
  eexists. split; [|split; [|reflexivity]].
  - cbn. right. right. left. reflexivity.
  - apply stringsContains_spec.
    exists (deref hp (NMAUploadConfigOp.fileContent op) +:+
            NMAUploadConfigOp.newline +:+ "# SPILLY added by me" +:+
            NMAUploadConfigOp.newline +:+ "# VSpreadKey: "), EmptyString.
    rewrite append_empty_r, !append_assoc. reflexivity.
Qed.
End UploadKeyLogging.

(** C7 (evaluation of the code): in every run of
    [nmaSpreadSecurityOp.setupRequestBody] that reaches its first host,
    the security details are passed to a log call, and in every run of
    [NMAUploadConfigOp.setupRequestBody] in [encryptSpread] mode the file
    content with the spread key payload is passed to a log call. *)
Theorem spread_key_material_is_logged
    (getCatalogPath : string -> string)
    (jsonMarshalPayload : NMASpreadSecurityOp.nmaSpreadSecurityPayload -> result string)
    (fmtMap : gmap string string -> string)
    (jsonMarshalData : NMAUploadConfigOp.uploadConfigRequestData -> result string)
    (n h p : string) (hs : list string) (paths : gmap string string)
    (rc : list (string * HostHTTPResult)) (g : rng) (f : nat -> Byte.byte)
    (opName endpoint : string) (src : option (list string)) (targets : list string)
    (fileContent : nat) (v : option VCoordinationDatabase) (hp : heap) :
  let spreadOp := NMASpreadSecurityOp.mkOp n (h :: hs) (<[h := p]> paths)
                    NMASpreadSecurityOp.spreadKeyTypeVertica rc in
  let uploadOp := NMAUploadConfigOp.makeNMAUploadConfigOp opName src targets
                    endpoint fileContent v true in
  (exists details,
     fst (NMASpreadSecurityOp.generateSecurityDetails spreadOp g (CryptoStream f)) =
       Ok details /\
     In details
       (allLoggedStrings
          (fst (fst (NMASpreadSecurityOp.setupRequestBody getCatalogPath
                       jsonMarshalPayload fmtMap spreadOp g (CryptoStream f)))))) /\
  (exists logged,
     In logged
       (allLoggedStrings
          (snd (fst (NMAUploadConfigOp.setupRequestBody jsonMarshalData
                       uploadOp hp targets)))) /\
     stringsContains logged NMAUploadConfigOp.spreadKeyPayload = true).
Proof.
  intros spreadOp uploadOp. split.
  - apply spread_setupRequestBody_logs_details.
  - destruct (upload_setupRequestBody_logs_payload jsonMarshalData uploadOp hp
                targets eq_refl) as [logged [Hin [Hc _]]].
    exists logged. split; assumption.
Qed.

(** ** Upload config: target hosts *)

Section UploadPrepare.
Variable NmaVDatabase : Type.
Variable SliceDiff : list string -> list string -> list string.
Variable updateCatalogPathMapFromCatalogEditor :
  list string -> NmaVDatabase -> gmap string string ->
  gmap string string * option error.
Variable getCatalogPath : string -> string.
Variable jsonMarshal : NMAUploadConfigOp.uploadConfigRequestData -> result string.
Variable BuildNMAEndpoint : string -> string.

(** [util.SliceDiff(m, n)] holds the elements of [m] that are not in [n]. *)
Hypothesis SliceDiff_spec :
  forall (m n : list string) (x : string), x ∈ SliceDiff m n <-> x ∈ m /\ x ∉ n.

Lemma upload_setupRequestBody_loop_keeps
    (op : NMAUploadConfigOp.NMAUploadConfigOp) (hp : heap) (todo : list string) :
  let op' := fst (NMAUploadConfigOp.setupRequestBody_loop jsonMarshal op hp todo) in
  NMAUploadConfigOp.hosts op' = NMAUploadConfigOp.hosts op /\
  NMAUploadConfigOp.skipExecute op' = NMAUploadConfigOp.skipExecute op.
Proof.
  revert op. induction todo as [|h rest IH]; intros op.
  - cbn. auto.
  - cbn [NMAUploadConfigOp.setupRequestBody_loop].
    destruct (jsonMarshal _) as [data|e]; [|cbn; auto].
    destruct (IH (NMAUploadConfigOp.setHostRequestBodyMap op
                    (<[h := data]> (NMAUploadConfigOp.hostRequestBodyMap op))))
      as [Hh Hs].
    split; [exact Hh | exact Hs].
Qed.

Lemma upload_prepare_requests_keeps
    (op : NMAUploadConfigOp.NMAUploadConfigOp) (hp : heap)
    (ctx : OpEngineExecContext NmaVDatabase) (log : list logEntry) :
  let op' := preparedOp (NMAUploadConfigOp.prepare_requests NmaVDatabase
                           jsonMarshal BuildNMAEndpoint op hp ctx log) in
  NMAUploadConfigOp.hosts op' = NMAUploadConfigOp.hosts op /\
  NMAUploadConfigOp.skipExecute op' = NMAUploadConfigOp.skipExecute op.
Proof.
  unfold NMAUploadConfigOp.prepare_requests, NMAUploadConfigOp.setupRequestBody.
  pose proof (upload_setupRequestBody_loop_keeps
                (NMAUploadConfigOp.setHostRequestBodyMap op ∅)) as Hloop.
  destruct (NMAUploadConfigOp.encryptSpread
              (NMAUploadConfigOp.setHostRequestBodyMap op ∅)).
  - match goal with
    | |- context [NMAUploadConfigOp.setupRequestBody_loop _ ?o ?h ?t] =>
        specialize (Hloop h t);
        destruct (NMAUploadConfigOp.setupRequestBody_loop jsonMarshal o h t)
          as [op2 [e|]]
    end; cbn in Hloop |- *; exact Hloop.
  - match goal with
    | |- context [NMAUploadConfigOp.setupRequestBody_loop _ ?o ?h ?t] =>
        specialize (Hloop h t);
        destruct (NMAUploadConfigOp.setupRequestBody_loop jsonMarshal o h t)
          as [op2 [e|]]
    end; cbn in Hloop |- *; exact Hloop.
Qed.

Lemma upload_prepare_fromCatalogEditor_keeps
    (op : NMAUploadConfigOp.NMAUploadConfigOp) (hp : heap)
    (ctx : OpEngineExecContext NmaVDatabase) (log : list logEntry) :
  let op' := preparedOp (NMAUploadConfigOp.prepare_fromCatalogEditor NmaVDatabase
                           updateCatalogPathMapFromCatalogEditor
                           jsonMarshal BuildNMAEndpoint op hp ctx log) in
  NMAUploadConfigOp.hosts op' = NMAUploadConfigOp.hosts op /\
  NMAUploadConfigOp.skipExecute op' = NMAUploadConfigOp.skipExecute op.
Proof.
  unfold NMAUploadConfigOp.prepare_fromCatalogEditor.
  destruct (updateCatalogPathMapFromCatalogEditor _ _ _) as [m [e|]].
  - cbn. auto.
  - apply (upload_prepare_requests_keeps (NMAUploadConfigOp.setCatalogPathMap op m)).
Qed.

Lemma length_zero_iff_no_elem (l : list string) :
  (length l =? 0)%nat = true <-> forall x, x ∉ l.
Proof.
  destruct l as [|a l]; cbn.
  - split; [intros _ x Hx; inversion Hx | reflexivity].
  - split; [discriminate | intros H; exfalso; apply (H a); left].
Qed.

(** C2: with no node information at hand, [prepare] fails when
    [sourceConfigHost] is nil and no host has the latest catalog;
    otherwise the target hosts are [destHosts] without the hosts with the
    latest catalog (nil [sourceConfigHost]) or without [sourceConfigHost],
    and [prepare] sets [skipExecute] exactly when [sourceConfigHost] is
    nil and no target host is left. *)
Theorem NMAUploadConfigOp_prepare_targets
    (op : NMAUploadConfigOp.NMAUploadConfigOp) (hp : heap)
    (ctx : OpEngineExecContext NmaVDatabase) :
  noNodeInfo op ->
  let out := NMAUploadConfigOp.prepare NmaVDatabase SliceDiff
               updateCatalogPathMapFromCatalogEditor getCatalogPath
               jsonMarshal BuildNMAEndpoint op hp ctx in
  match NMAUploadConfigOp.sourceConfigHost op with
  | None =>
      (hostsWithLatestCatalog ctx = [] ->
       preparedErr out =
         Some (ErrorString "could not find at least one host with the latest catalog")) /\
      (hostsWithLatestCatalog ctx <> [] ->
       (forall x, x ∈ NMAUploadConfigOp.hosts (preparedOp out) <->
                  x ∈ NMAUploadConfigOp.destHosts op /\
                  x ∉ hostsWithLatestCatalog ctx) /\
       (NMAUploadConfigOp.skipExecute (preparedOp out) = true <->
        NMAUploadConfigOp.skipExecute op = true \/
        forall x, ~ (x ∈ NMAUploadConfigOp.destHosts op /\
                     x ∉ hostsWithLatestCatalog ctx)))
  | Some src =>
      (forall x, x ∈ NMAUploadConfigOp.hosts (preparedOp out) <->
                 x ∈ NMAUploadConfigOp.destHosts op /\ x ∉ src) /\
      NMAUploadConfigOp.skipExecute (preparedOp out) =
        NMAUploadConfigOp.skipExecute op
  end.
Proof.
  intros Hno out. subst out. unfold NMAUploadConfigOp.prepare.
  cbn [NMAUploadConfigOp.setCatalogPathMap NMAUploadConfigOp.vdb
       NMAUploadConfigOp.sourceConfigHost NMAUploadConfigOp.destHosts].
  assert (Hcond :
    match NMAUploadConfigOp.vdb op with
    | Some v => (size (entries (HostNodeMap v)) =? 0)%nat
    | None => true
    end = true).
  { unfold noNodeInfo in Hno. destruct (NMAUploadConfigOp.vdb op) as [v|];
      [rewrite Hno|]; reflexivity. }
  rewrite Hcond.
  destruct (NMAUploadConfigOp.sourceConfigHost op) as [src|].
  - match goal with
    | |- context [NMAUploadConfigOp.prepare_fromCatalogEditor _ _ _ _ ?o ?h ?c ?l] =>
        destruct (upload_prepare_fromCatalogEditor_keeps o h c l) as [Hh Hs]
    end.
    cbn [NMAUploadConfigOp.setHosts NMAUploadConfigOp.hosts
         NMAUploadConfigOp.skipExecute] in Hh, Hs.
    split; [|exact Hs]. intros x. rewrite Hh. apply SliceDiff_spec.
  - split.
    + intros Hnil. rewrite Hnil. reflexivity.
    + intros Hne.
      destruct (hostsWithLatestCatalog ctx) as [|l0 ls] eqn:Hl; [congruence|].
      cbn [length Nat.eqb].
      set (diff := SliceDiff (NMAUploadConfigOp.destHosts op) (l0 :: ls)).
      cbn [NMAUploadConfigOp.setHosts NMAUploadConfigOp.hosts].
      destruct (length diff =? 0)%nat eqn:Hlen.
      * cbn. split.
        -- intros x. apply SliceDiff_spec.
        -- split; [intros _ | reflexivity]. right. intros x Hx.
           apply length_zero_iff_no_elem with (x := x) in Hlen. apply Hlen.
           apply SliceDiff_spec. exact Hx.
      * match goal with
        | |- context [NMAUploadConfigOp.prepare_fromCatalogEditor _ _ _ _ ?o ?h ?c ?l] =>
            destruct (upload_prepare_fromCatalogEditor_keeps o h c l) as [Hh Hs]
        end.
        cbn [NMAUploadConfigOp.setHosts NMAUploadConfigOp.hosts
             NMAUploadConfigOp.skipExecute] in Hh, Hs.
        split.
        -- intros x. rewrite Hh. apply SliceDiff_spec.
        -- rewrite Hs. split; [auto|]. intros [H|H]; [exact H|].
           exfalso. assert (Hz : (length diff =? 0)%nat = true).
           { apply length_zero_iff_no_elem. intros x Hx.
             apply (H x). apply SliceDiff_spec. exact Hx. }
           congruence.
Qed.
End UploadPrepare.

(** ** The plan engine *)

Lemma callsOf_app (j : nat) (m : VClusterOpEngine.method)
    (t t' : list VClusterOpEngine.call) :
  callsOf j m (t ++ t') = (callsOf j m t + callsOf j m t')%nat.
Proof. unfold callsOf. now rewrite List.map_app, count_occ_app. Qed.

Lemma callsOf_lifecycle (j : nat) (m : VClusterOpEngine.method)
    (tr : list VClusterOpEngine.call) :
  isLifecycle (VClusterOpEngine.Call j m VClusterOpEngine.RNone) = true ->
  callsOf j m (lifecycle tr) = callsOf j m tr.
Proof.
  intros Hm. unfold callsOf, lifecycle.
  induction tr as [|c tr IH]; [reflexivity|].
  cbn [List.filter]. destruct (isLifecycle c) eqn:Hc.
  - cbn [List.map count_occ]. now rewrite IH.
  - rewrite IH. cbn [List.map count_occ].
    destruct (callKey_eq_dec (callKey c) (j, m)) as [Heq|]; [|reflexivity].
    exfalso. unfold callKey in Heq. injection Heq as Hi Hmeth.
    unfold isLifecycle in Hc, Hm. cbn in Hm. rewrite Hmeth in Hc. congruence.
Qed.

Ltac count_calls :=
  unfold callsOf, callKey;
  cbn [List.map count_occ VClusterOpEngine.opIndex VClusterOpEngine.meth];
  repeat match goal with
  | |- context [callKey_eq_dec ?x ?y] => destruct (callKey_eq_dec x y)
  end; try congruence; try lia.

(** A cycle calls nothing on other operations. *)
Lemma opCycle_other (i j : nat) (m : VClusterOpEngine.method)
    (t : list VClusterOpEngine.call) (r : option error) :
  opCycle i t r -> j <> i -> callsOf j m t = 0%nat.
Proof. intros Hc Hne. inversion Hc; subst; count_calls. Qed.

(** A complete cycle: [prepare] once, [finalize] once, [execute] as often
    as the certificates are loaded, at most once. *)
Lemma opCycle_complete_counts (i : nat) (t : list VClusterOpEngine.call) :
  opCycle i t None ->
  callsOf i VClusterOpEngine.Prepare t = 1%nat /\
  callsOf i VClusterOpEngine.Finalize t = 1%nat /\
  callsOf i VClusterOpEngine.Execute t =
    callsOf i VClusterOpEngine.LoadCertsIfNeeded t /\
  (callsOf i VClusterOpEngine.Execute t <= 1)%nat.
Proof. intros Hc. inversion Hc; subst; repeat split; count_calls. Qed.

Lemma planCycles_other (i n j : nat) (m : VClusterOpEngine.method)
    (t : list VClusterOpEngine.call) (r : option (nat * error)) :
  planCycles i n t r -> (j < i)%nat -> callsOf j m t = 0%nat.
Proof.
  intros Hp. revert j. induction Hp as [i | i n t t' r Hc Hp IH | i n t e Hc];
    intros j Hj.
  - reflexivity.
  - rewrite callsOf_app, (opCycle_other i j m t None Hc) by lia.
    rewrite IH by lia. reflexivity.
  - apply (opCycle_other i j m t (Some e) Hc). lia.
Qed.

Lemma planCycles_complete_counts (i n : nat) (t : list VClusterOpEngine.call) :
  planCycles i n t None ->
  forall j, (i <= j < i + n)%nat ->
    callsOf j VClusterOpEngine.Prepare t = 1%nat /\
    callsOf j VClusterOpEngine.Finalize t = 1%nat /\
    callsOf j VClusterOpEngine.Execute t =
      callsOf j VClusterOpEngine.LoadCertsIfNeeded t /\
    (callsOf j VClusterOpEngine.Execute t <= 1)%nat.
Proof.
  intros Hp. remember None as r eqn:Hr. revert Hr.
  induction Hp as [i | i n t t' r Hc Hp IH | i n t e Hc]; intros Hr j Hj.
  - lia.
  - subst r. rewrite !callsOf_app.
    destruct (Nat.eq_dec j i) as [->|Hne].
    + destruct (opCycle_complete_counts i t Hc) as [H1 [H2 [H3 H4]]].
      rewrite !(planCycles_other (S i) n i _ t' None Hp) by lia. lia.
    + rewrite !(opCycle_other i j _ t None Hc) by exact Hne.
      apply IH; [reflexivity | lia].
  - discriminate.
Qed.

Section Engine.
Variable World : Type.
Variable makeOpEngineExecContext : World -> World.
Variable PrintWithIndent : string -> World -> World.

Lemma runOp_cycle (opEngine : VClusterOpEngine.VClusterOpEngine World)
    (findCerts : bool) (i : nat) (op : VClusterOpEngine.clusterOp World)
    (w : World) (tr : list VClusterOpEngine.call) :
  exists seg,
    snd (snd (VClusterOpEngine.runOp World PrintWithIndent opEngine findCerts i op
                (w, tr))) = tr ++ seg /\
    Forall (fun c => VClusterOpEngine.opIndex c = i) seg /\
    match fst (VClusterOpEngine.runOp World PrintWithIndent opEngine findCerts i op
                 (w, tr)) with
    | Ok _ => opCycle i (lifecycle seg) None
    | Fail E => exists e, opCycle i (lifecycle seg) (Some e) /\ Unwrap E = Some e
    end.
Proof.
  unfold VClusterOpEngine.runOp, mbind, VClusterOpEngine.M_bind, mret,
    VClusterOpEngine.M_ret, VClusterOpEngine.callUnit, VClusterOpEngine.callError,
    VClusterOpEngine.callBool, VClusterOpEngine.callString, VClusterOpEngine.logger,
    VClusterOpEngine.throw.
  cbn.
  repeat match goal with
  | |- context [VClusterOpEngine.prepare World op ?x] =>
      destruct (VClusterOpEngine.prepare World op x) as [? [?|]]; cbn
  | |- context [VClusterOpEngine.isSkipExecute World op ?x] =>
      destruct (VClusterOpEngine.isSkipExecute World op x); cbn
  | |- context [VClusterOpEngine.loadCertsIfNeeded World op ?c ?b ?x] =>
      destruct (VClusterOpEngine.loadCertsIfNeeded World op c b x) as [? [?|]]; cbn
  | |- context [VClusterOpEngine.execute World op ?x] =>
      destruct (VClusterOpEngine.execute World op x) as [? [?|]]; cbn
  | |- context [VClusterOpEngine.finalize World op ?x] =>
      destruct (VClusterOpEngine.finalize World op x) as [? [?|]]; cbn
  end;
  (eexists; split;
   [ rewrite <- ?app_assoc; cbn [app]; reflexivity
   | split;
     [ repeat constructor
     | cbn; first [ constructor
                  | eexists; split; [ constructor | reflexivity ] ] ] ]).
Qed.

Lemma lifecycle_app (t t' : list VClusterOpEngine.call) :
  lifecycle (t ++ t') = lifecycle t ++ lifecycle t'.
Proof. unfold lifecycle. apply List.filter_app. Qed.

(** What the loop over the plan does from position [i] on. *)
Lemma runOps_cycles (opEngine : VClusterOpEngine.VClusterOpEngine World)
    (findCerts : bool) (ops : list (VClusterOpEngine.clusterOp World)) :
  forall (i : nat) (w : World) (tr : list VClusterOpEngine.call),
  exists seg cause,
    snd (snd (VClusterOpEngine.runOps World PrintWithIndent opEngine findCerts i ops
                (w, tr))) = tr ++ seg /\
    planCycles i (length ops) (lifecycle seg) cause /\
    Forall (fun c => (i <= VClusterOpEngine.opIndex c < i + length ops)%nat) seg /\
    match fst (VClusterOpEngine.runOps World PrintWithIndent opEngine findCerts i ops
                 (w, tr)), cause with
    | Ok _, None => True
    | Fail E, Some (k, e) =>
        Unwrap E = Some e /\ (i <= k < i + length ops)%nat /\
        Forall (fun c => (VClusterOpEngine.opIndex c <= k)%nat) seg
    | _, _ => False
    end.
Proof.
  induction ops as [|op rest IH]; intros i w tr.
  - exists [], None. cbn. rewrite app_nil_r.
    repeat split; constructor.
  - cbn [VClusterOpEngine.runOps]. unfold mbind, VClusterOpEngine.M_bind.
    destruct (runOp_cycle opEngine findCerts i op w tr) as [seg1 [Htr [Hidx Hcyc]]].
    destruct (VClusterOpEngine.runOp World PrintWithIndent opEngine findCerts i op
                (w, tr)) as [r [w1 tr1]].
    cbn [fst snd] in Htr, Hcyc. subst tr1. destruct r as [u|E].
    + destruct (IH (S i) w1 (tr ++ seg1)) as [seg2 [cause [Htr2 [Hplan [Hidx2 Hres]]]]].
      exists (seg1 ++ seg2), cause. split; [|split; [|split]].
      * rewrite Htr2. now rewrite app_assoc.
      * rewrite lifecycle_app. cbn [length]. now apply plan_next.
      * apply Forall_app. split.
        -- eapply Forall_impl; [exact Hidx|]. cbn. intros c Hc. rewrite Hc.
           cbn [length]. lia.
        -- eapply Forall_impl; [exact Hidx2|]. cbn. intros c Hc.
           cbn [length]. lia.
      * destruct (fst (VClusterOpEngine.runOps World PrintWithIndent opEngine
                         findCerts (S i) rest (w1, tr ++ seg1))) as [u'|E];
          destruct cause as [[k e]|]; try exact Hres.
        destruct Hres as [Hun [Hk Hle]]. split; [exact Hun|]. split.
        -- cbn [length]. lia.
        -- apply Forall_app. split; [|exact Hle].
           eapply Forall_impl; [exact Hidx|]. cbn. intros c Hc. lia.
    + destruct Hcyc as [e [Hcyc Hun]].
      exists seg1, (Some (i, e)). split; [reflexivity|]. split; [|split].
      * cbn [length]. now apply plan_failed.
      * eapply Forall_impl; [exact Hidx|]. cbn. intros c Hc. cbn [length]. lia.
      * cbn [fst]. split; [exact Hun|]. split; [cbn [length]; lia|].
        eapply Forall_impl; [exact Hidx|]. cbn. intros c Hc. lia.
Qed.

End Engine.

(** ** Instances *)

Lemma utilSliceDiff_spec (m n : list string) (x : string) :
  x ∈ utilSliceDiff m n <-> x ∈ m /\ x ∉ n.
Proof. unfold utilSliceDiff. rewrite list_elem_of_filter. tauto. Qed.

Lemma vdbOneNode_inv : vdb_hosts_inv vdbOneNode.
Proof.
  split.
  - apply NoDup_singleton.
  - intros a. cbn [vdbOneNode setHosts HostList HostNodeMap entries].
    rewrite list_elem_of_singleton, lookup_singleton_is_Some.
    split; congruence.
Defined.

Lemma addNode_addHosts_preserve_inv_witness :
  vdb_hosts_inv vdbOneNode /\
  match addNode vdbOneNode
          (mkVCoordinationNode "v_db_node0002" "10.0.0.2" "" [] [] "" 5433 "ipv4"
             false "DOWN" "") with
  | Returns (vdb', _) => vdb_hosts_inv vdb'
  | Panics _ => HostNodeMap vdbOneNode = None
  end /\
  match addHosts (fun parts => joinLines parts) "ipv6" "ipv4"
          (fun _ _ _ => Some "v_db_node0003"%string)
          vdbOneNode ["10.0.0.3"%string; "10.0.0.1"%string] "sc1" with
  | Returns (vdb', _) => vdb_hosts_inv vdb'
  | Panics _ => HostNodeMap vdbOneNode = None
  end.
Proof.
  split; [exact vdbOneNode_inv|].
  destruct (addNode_addHosts_preserve_inv (fun parts => joinLines parts) "ipv6" "ipv4"
              (fun _ _ _ => Some "v_db_node0003"%string)
              vdbOneNode
              (mkVCoordinationNode "v_db_node0002" "10.0.0.2" "" [] [] "" 5433 "ipv4"
                 false "DOWN" "")
              ["10.0.0.3"%string; "10.0.0.1"%string] "sc1" vdbOneNode_inv)
    as [Hnode [Hhosts _]].
  split; [exact Hnode | exact Hhosts].
Defined.

Lemma NMAUploadConfigOp_prepare_targets_witness :
  noNodeInfo uploadOpStartDB /\
  forall x,
    x ∈ NMAUploadConfigOp.hosts
          (preparedOp
             (NMAUploadConfigOp.prepare unit utilSliceDiff
                (fun _ _ m => (m, None)) (fun p => p)
                (fun d => Ok (NMAUploadConfigOp.Content d)) (fun ep => ep)
                uploadOpStartDB ∅ ctxStartDB)) <->
    x ∈ ["10.0.0.1"%string; "10.0.0.2"%string; "10.0.0.3"%string] /\
    x ∉ ["10.0.0.1"%string; "10.0.0.2"%string].
Proof.
  split; [exact I|].
  destruct (NMAUploadConfigOp_prepare_targets unit utilSliceDiff
              (fun _ _ m => (m, None)) (fun p => p)
              (fun d => Ok (NMAUploadConfigOp.Content d)) (fun ep => ep)
              utilSliceDiff_spec uploadOpStartDB ∅ ctxStartDB I) as [_ Hset].
  apply Hset. discriminate.
Defined.

(** The same run, evaluated: the third host is the only target. *)
Example NMAUploadConfigOp_prepare_start_db :
  let out := NMAUploadConfigOp.prepare unit utilSliceDiff
               (fun _ _ m => (m, None)) (fun p => p)
               (fun d => Ok (NMAUploadConfigOp.Content d)) (fun ep => ep)
               uploadOpStartDB ∅ ctxStartDB in
  NMAUploadConfigOp.hosts (preparedOp out) = ["10.0.0.3"%string] /\
  NMAUploadConfigOp.skipExecute (preparedOp out) = false /\
  preparedErr out = None.
Proof. vm_compute. auto. Qed.

Lemma NMADownloadConfigOp_processResult_spec_witness :
  exists pre h r post,
    NMADownloadConfigOp.ResultCollection downloadOp = pre ++ (h, r) :: post /\
    Forall (fun hr => isPassing (snd hr) = false) pre /\
    isPassing r = true /\
    NMADownloadConfigOp.processResult downloadOp ∅ =
      (<[NMADownloadConfigOp.fileContent downloadOp := content r]> ∅,
       responseLog (NMADownloadConfigOp.name downloadOp) (pre ++ [(h, r)]),
       None).
Proof.
  assert (Hex : Exists (fun hr => isPassing (snd hr) = true)
                  (NMADownloadConfigOp.ResultCollection downloadOp)).
  { apply Exists_cons_tl. apply Exists_cons_hd. reflexivity. }
  destruct (proj1 (NMADownloadConfigOp_processResult_spec downloadOp ∅) Hex)
    as [pre [h [r [post [Hrs [Hpre [Hr [Hrun _]]]]]]]].
  exists pre, h, r, post. repeat split; assumption.
Defined.

Example NMADownloadConfigOp_processResult_first_passing :
  NMADownloadConfigOp.processResult downloadOp ∅ =
    (<[0%nat := "spread.conf body"%string]> ∅,
     responseLog "NMADownloadConfigOp" (firstn 2 downloadResults),
     None).
Proof. reflexivity. Qed.

Lemma unauthorized_short_circuits_witness :
  IsUnauthorizedRequest unauthorizedResult = true /\
  HTTPSCheckSubclusterOp.processResult
    (fun _ _ _ => Ok (HTTPSCheckSubclusterOp.mkScInfo "sc1" true 2))
    (HTTPSCheckSubclusterOp.mkOp "HTTPSCheckSubclusterOp" "sc1" true 2
       resultsWithUnauthorized) =
    (responseLog "HTTPSCheckSubclusterOp" (firstn 2 resultsWithUnauthorized),
     Some (ErrorString "401 Unauthorized")) /\
  HTTPSSandboxingOp.processResult (fun _ _ _ => Ok ∅)
    (HTTPSSandboxingOp.mkOp "HTTPSSansboxingOp" ∅ "sc1" "sb1"
       resultsWithUnauthorized) =
    (responseLog "HTTPSSansboxingOp" (firstn 2 resultsWithUnauthorized),
     Some (ErrorString "401 Unauthorized")).
Proof.
  split; [reflexivity|].
  assert (Hpre : Forall passedOver
            [("10.0.0.1"%string,
              failingResult "10.0.0.1" (ErrorString "500 Internal Server Error"))]).
  { constructor; [split; reflexivity | constructor]. }
  destruct (unauthorized_short_circuits
              (fun _ _ _ => Ok (HTTPSCheckSubclusterOp.mkScInfo "sc1" true 2))
              (fun _ _ _ => Ok ∅)
              (HTTPSCheckSubclusterOp.mkOp "HTTPSCheckSubclusterOp" "sc1" true 2
                 resultsWithUnauthorized)
              (HTTPSSandboxingOp.mkOp "HTTPSSansboxingOp" ∅ "sc1" "sb1"
                 resultsWithUnauthorized)
              "10.0.0.2" unauthorizedResult
              [("10.0.0.3"%string,
                mkHostHTTPResult SUCCESS SuccessCode "10.0.0.3" "{}" None)]
              eq_refl) as [_ [_ [Hchk Hsbx]]].
  split; [apply (Hchk _ Hpre); reflexivity | apply (Hsbx _ Hpre); reflexivity].
Defined.

(** Credential errors: the message is looked for in the rendering of the
    whole result. *)
Example IsPasswordandCertificateError_wrong_password :
  IsPasswordandCertificateError (fun _ => "0xc00009e040"%string) unauthorizedResult = true.
Proof. reflexivity. Qed.

Example IsPasswordandCertificateError_not_joined :
  IsPasswordandCertificateError (fun _ => "0xc00009e040"%string)
    (mkHostHTTPResult FAILURE UnauthorizedCode "10.0.0.2"
       "Local node has not joined cluster yet" (Some (ErrorString "401 Unauthorized")))
  = false.
Proof. reflexivity. Qed.

Example IsPasswordandCertificateError_other_status :
  IsPasswordandCertificateError (fun _ => "0xc00009e040"%string)
    (mkHostHTTPResult FAILURE InternalErrorCode "10.0.0.2" "Wrong password"
       (Some (ErrorString "500 Internal Server Error")))
  = false.
Proof. reflexivity. Qed.

Example sprintfV_unauthorized :
  sprintfV (fun _ => "0xc00009e040"%string) unauthorizedResult =
    "&{1 401 10.0.0.2 Wrong password 0xc00009e040}"%string.
Proof. reflexivity. Qed.

Example IsHTTPRunning_unauthorized : IsHTTPRunning unauthorizedResult = true.
Proof. reflexivity. Qed.

Example IsHTTPRunning_not_found :
  IsHTTPRunning (mkHostHTTPResult FAILURE 404 "10.0.0.2" ""
                   (Some (ErrorString "404 Not Found"))) = false.
Proof. reflexivity. Qed.

Example run_fourOpPlan :
  let out := VClusterOpEngine.run nat (fun _ => 0%nat) (fun _ w => w) fourOpPlan 7%nat in
  lifecycle (snd (fst out)) =
    [VClusterOpEngine.Call 0 VClusterOpEngine.Prepare (VClusterOpEngine.RError None);
     VClusterOpEngine.Call 0 VClusterOpEngine.IsSkipExecute (VClusterOpEngine.RBool false);
     VClusterOpEngine.Call 0 VClusterOpEngine.LoadCertsIfNeeded (VClusterOpEngine.RError None);
     VClusterOpEngine.Call 0 VClusterOpEngine.Execute (VClusterOpEngine.RError None);
     VClusterOpEngine.Call 0 VClusterOpEngine.Finalize (VClusterOpEngine.RError None);
     VClusterOpEngine.Call 1 VClusterOpEngine.Prepare (VClusterOpEngine.RError None);
     VClusterOpEngine.Call 1 VClusterOpEngine.IsSkipExecute (VClusterOpEngine.RBool true);
     VClusterOpEngine.Call 1 VClusterOpEngine.Finalize (VClusterOpEngine.RError None);
     VClusterOpEngine.Call 2 VClusterOpEngine.Prepare (VClusterOpEngine.RError None);
     VClusterOpEngine.Call 2 VClusterOpEngine.IsSkipExecute (VClusterOpEngine.RBool false);
     VClusterOpEngine.Call 2 VClusterOpEngine.LoadCertsIfNeeded (VClusterOpEngine.RError None);
     VClusterOpEngine.Call 2 VClusterOpEngine.Execute
       (VClusterOpEngine.RError (Some (ErrorString "boom")))] /\
  snd out = Some (WrapError "execute C failed, details: boom" (ErrorString "boom")) /\
  fst (fst out) = 7%nat.
Proof. vm_compute. auto. Qed.

(** The key material in the log of a concrete run. *)
Example nmaSpreadSecurityOp_setupRequestBody_log :
  fst (fst (NMASpreadSecurityOp.setupRequestBody (fun p => p)
              (fun pl => Ok (NMASpreadSecurityOp.SpreadSecurityDetails pl))
              (fun _ => "map[]"%string)
              (NMASpreadSecurityOp.mkOp "NMASpreadSecurityOp" ["10.0.0.1"%string]
                 {["10.0.0.1"%string := "/cat/db/v_db_node0001_catalog"%string]}
                 "vertica" [])
              (fun i => (37 * i + 5)%nat)
              (CryptoStream (fun i => if Nat.even i then Byte.x3c else Byte.xa7))))
  = [Info "payload setup"
       ["catalogPath"%string; "/cat/db/v_db_node0001_catalog"%string;
        "securityDetails"%string;
        "{fghi: 3ca73ca73ca73ca73ca73ca73ca73ca73ca73ca73ca73ca73ca73ca73ca73ca7}"%string];
     Info "mashaled payload"
       ["payload"%string;
        "{fghi: 3ca73ca73ca73ca73ca73ca73ca73ca73ca73ca73ca73ca73ca73ca73ca73ca7}"%string]].
Proof. vm_compute. reflexivity. Qed.


(* ===================================================================== *)
(** * Part IV: further properties of the code *)
(* ===================================================================== *)

(** ** The plan engine: plans compose *)

Section EngineComposition.
Variable World : Type.
Variable makeOpEngineExecContext : World -> World.
Variable PrintWithIndent : string -> World -> World.

(** The loop over a concatenated plan runs the first part, and the
    second part only if the first returned no error. *)
Lemma runOps_app (opEngine : VClusterOpEngine.VClusterOpEngine World)
    (findCerts : bool) (P Q : list (VClusterOpEngine.clusterOp World)) :
  forall (i : nat) (st : VClusterOpEngine.St World),
    VClusterOpEngine.runOps World PrintWithIndent opEngine findCerts i (P ++ Q) st =
      match VClusterOpEngine.runOps World PrintWithIndent opEngine findCerts i P st with
      | (Ok _, st') =>
          VClusterOpEngine.runOps World PrintWithIndent opEngine findCerts
            (i + length P) Q st'
      | (Fail e, st') => (Fail e, st')
      end.
Proof.
  induction P as [|op P IH]; intros i st.
  - cbn. now rewrite Nat.add_0_r.
  - cbn [app VClusterOpEngine.runOps length].
    unfold mbind, VClusterOpEngine.M_bind.
    destruct (VClusterOpEngine.runOp World PrintWithIndent opEngine findCerts i op st)
      as [[u|e] st1]; [|reflexivity].
    rewrite IH. replace (S i + length P)%nat with (i + S (length P))%nat by lia.
    reflexivity.
Qed.

(** The loop does not look at the plan stored in the engine, only at
    its certificates. *)
Lemma runOps_certs_only (e1 e2 : VClusterOpEngine.VClusterOpEngine World)
    (findCerts : bool) (ops : list (VClusterOpEngine.clusterOp World)) :
  VClusterOpEngine.certs World e1 = VClusterOpEngine.certs World e2 ->
  forall (i : nat) (st : VClusterOpEngine.St World),
    VClusterOpEngine.runOps World PrintWithIndent e1 findCerts i ops st =
    VClusterOpEngine.runOps World PrintWithIndent e2 findCerts i ops st.
Proof.
  intros Hc. induction ops as [|op ops IH]; intros i st; [reflexivity|].
  cbn [VClusterOpEngine.runOps]. unfold mbind, VClusterOpEngine.M_bind.
  assert (Hop : VClusterOpEngine.runOp World PrintWithIndent e1 findCerts i op st =
                VClusterOpEngine.runOp World PrintWithIndent e2 findCerts i op st).
  { unfold VClusterOpEngine.runOp. now rewrite Hc. }
  rewrite Hop.
  destruct (VClusterOpEngine.runOp World PrintWithIndent e2 findCerts i op st)
    as [[u|e] st1]; [apply IH | reflexivity].
Qed.

(** X1: a plan that fails is not affected by the operations that follow
    the failing one: with any operations appended, [run] returns the
    same error, leaves the same world and has made the same calls. *)
Theorem run_failure_ignores_rest
    (P Q : list (VClusterOpEngine.clusterOp World))
    (c : VClusterOpEngine.httpsCerts) (w w' : World)
    (tr : list VClusterOpEngine.call) (E : error) :
  VClusterOpEngine.run World makeOpEngineExecContext PrintWithIndent
    (VClusterOpEngine.mkEngine World P c) w = (w', tr, Some E) ->
  VClusterOpEngine.run World makeOpEngineExecContext PrintWithIndent
    (VClusterOpEngine.mkEngine World (P ++ Q) c) w = (w', tr, Some E).
Proof.
  unfold VClusterOpEngine.run.
  cbn [VClusterOpEngine.instructions].
  change (VClusterOpEngine.shouldGetCertsFromOptions World
            (VClusterOpEngine.mkEngine World (P ++ Q) c))
    with (VClusterOpEngine.shouldGetCertsFromOptions World
            (VClusterOpEngine.mkEngine World P c)).
  rewrite runOps_app.
  rewrite (runOps_certs_only (VClusterOpEngine.mkEngine World (P ++ Q) c)
             (VClusterOpEngine.mkEngine World P c)) by reflexivity.
  destruct (VClusterOpEngine.runOps World PrintWithIndent
              (VClusterOpEngine.mkEngine World P c) _ 0 P _) as [[u|e] [w1 tr1]];
    [discriminate | auto].
Qed.

(** X2: a plan that succeeds composes: running [P ++ Q] is running [P]
    and then, from the world [P] left and with the calls it made, the
    operations of [Q] at the positions after those of [P]. *)
Theorem run_success_then_rest
    (P Q : list (VClusterOpEngine.clusterOp World))
    (c : VClusterOpEngine.httpsCerts) (w w1 : World)
    (tr1 : list VClusterOpEngine.call) :
  VClusterOpEngine.run World makeOpEngineExecContext PrintWithIndent
    (VClusterOpEngine.mkEngine World P c) w = (w1, tr1, None) ->
  VClusterOpEngine.run World makeOpEngineExecContext PrintWithIndent
    (VClusterOpEngine.mkEngine World (P ++ Q) c) w =
    match VClusterOpEngine.runOps World PrintWithIndent
            (VClusterOpEngine.mkEngine World Q c)
            (VClusterOpEngine.shouldGetCertsFromOptions World
               (VClusterOpEngine.mkEngine World Q c))
            (length P) Q (w1, tr1) with
    | (Ok _, (w', tr)) => (w', tr, None)
    | (Fail e, (w', tr)) => (w', tr, Some e)
    end.
Proof.
  unfold VClusterOpEngine.run.
  cbn [VClusterOpEngine.instructions].
  change (VClusterOpEngine.shouldGetCertsFromOptions World
            (VClusterOpEngine.mkEngine World (P ++ Q) c))
    with (VClusterOpEngine.shouldGetCertsFromOptions World
            (VClusterOpEngine.mkEngine World P c)).
  change (VClusterOpEngine.shouldGetCertsFromOptions World
            (VClusterOpEngine.mkEngine World Q c))
    with (VClusterOpEngine.shouldGetCertsFromOptions World
            (VClusterOpEngine.mkEngine World P c)).
  rewrite runOps_app.
  rewrite (runOps_certs_only (VClusterOpEngine.mkEngine World (P ++ Q) c)
             (VClusterOpEngine.mkEngine World P c)) by reflexivity.
  destruct (VClusterOpEngine.runOps World PrintWithIndent
              (VClusterOpEngine.mkEngine World P c) _ 0 P _) as [[u|e] [w1' tr1']];
    [|discriminate].
  intros [= -> ->]. cbn [Nat.add].
  now rewrite (runOps_certs_only (VClusterOpEngine.mkEngine World (P ++ Q) c)
                 (VClusterOpEngine.mkEngine World Q c)) by reflexivity.
Qed.
End EngineComposition.

Lemma run_failure_ignores_rest_witness :
  VClusterOpEngine.run nat (fun _ => 0%nat) (fun _ w => w)
    (VClusterOpEngine.mkEngine nat (failingPlan ++ [plainOp "D" false None])
       (VClusterOpEngine.mkCerts "" "" "")) 7%nat =
  VClusterOpEngine.run nat (fun _ => 0%nat) (fun _ w => w)
    (VClusterOpEngine.mkEngine nat failingPlan (VClusterOpEngine.mkCerts "" "" "")) 7%nat.
Proof.
  set (out := VClusterOpEngine.run nat (fun _ => 0%nat) (fun _ w => w)
                (VClusterOpEngine.mkEngine nat failingPlan
                   (VClusterOpEngine.mkCerts "" "" "")) 7%nat).
  rewrite (run_failure_ignores_rest nat (fun _ => 0%nat) (fun _ w => w)
             failingPlan [plainOp "D" false None] (VClusterOpEngine.mkCerts "" "" "")
             7%nat (fst (fst out)) (snd (fst out))
             (WrapError "execute C failed, details: boom" (ErrorString "boom"))).
  - vm_compute. reflexivity.
  - vm_compute. reflexivity.
Defined.

Lemma run_success_then_rest_witness :
  snd (VClusterOpEngine.run nat (fun _ => 0%nat) (fun _ w => w)
         (VClusterOpEngine.mkEngine nat
            (passingPlan ++ [plainOp "C" false (Some (ErrorString "boom"))])
            (VClusterOpEngine.mkCerts "" "" "")) 7%nat) =
  Some (WrapError "execute C failed, details: boom" (ErrorString "boom")).
Proof.
  set (out := VClusterOpEngine.run nat (fun _ => 0%nat) (fun _ w => w)
                (VClusterOpEngine.mkEngine nat passingPlan
                   (VClusterOpEngine.mkCerts "" "" "")) 7%nat).
  rewrite (run_success_then_rest nat (fun _ => 0%nat) (fun _ w => w)
             passingPlan [plainOp "C" false (Some (ErrorString "boom"))]
             (VClusterOpEngine.mkCerts "" "" "")
             7%nat (fst (fst out)) (snd (fst out))).
  - vm_compute. reflexivity.
  - vm_compute. reflexivity.
Defined.

(** ** Loading certificates *)

Lemma loadCerts_loop_lookup (certs : VClusterOpEngine.httpsCerts)
    (order : list string) :
  NoDup order ->
  forall (rc : gmap string OpBase.request) (h : string),
    foldl (OpBase.loadCerts_step certs) rc order !! h =
      if decide (h ∈ order)
      then Some (OpBase.withCerts certs (default OpBase.zeroRequest (rc !! h)))
      else rc !! h.
Proof.
  induction order as [|a l IH]; intros Hnd rc h.
  - cbn. destruct (decide (h ∈ [])) as [Hin|]; [inversion Hin | reflexivity].
  - apply NoDup_cons in Hnd as [Ha Hl]. cbn [foldl]. rewrite (IH Hl).
    unfold OpBase.loadCerts_step at 1 2.
    destruct (decide (h = a)) as [->|Hne].
    + rewrite lookup_insert_eq.
      destruct (decide (a ∈ l)) as [Hin|_]; [contradiction|].
      destruct (decide (a ∈ a :: l)) as [_|Hn]; [reflexivity|].
      exfalso. apply Hn. left.
    + rewrite lookup_insert_ne by congruence.
      destruct (decide (h ∈ l)) as [Hin|Hnin].
      * destruct (decide (h ∈ a :: l)) as [_|Hn]; [reflexivity|].
        exfalso. apply Hn. now right.
      * destruct (decide (h ∈ a :: l)) as [Hin|_]; [|reflexivity].
        apply elem_of_cons in Hin as [?|?]; contradiction.
Qed.

(** X3: when certificates come from the options, the operation is not
    skipped and it has requests, [loadCertsIfNeeded] returns nil and
    every request, and only the requests that were there, carries the
    engine's certificates and the flag [UseCertsInOptions], whatever the
    order of the loop; nothing else of a request changes.  Without
    requests it returns an error. *)
Theorem loadCertsIfNeeded_loads_every_request
    (order : list string) (op : OpBase.OpBase)
    (certs : VClusterOpEngine.httpsCerts) :
  iterationOrder (OpBase.RequestCollection op) order ->
  OpBase.skipExecute op = false ->
  (OpBase.RequestCollection op = ∅ ->
   exists e, OpBase.loadCertsIfNeeded order op certs true = (op, Some e)) /\
  (OpBase.RequestCollection op <> ∅ ->
   OpBase.loadCertsIfNeeded order op certs true =
     (OpBase.setRequestCollection op
        (OpBase.withCerts certs <$> OpBase.RequestCollection op), None)).
Proof.
  intros [Hnd Hkeys] Hskip. unfold OpBase.loadCertsIfNeeded.
  cbn [negb]. rewrite Hskip. split.
  - intros Hempty. rewrite Hempty, map_size_empty. cbn. eauto.
  - intros Hne.
    destruct (size (OpBase.RequestCollection op) =? 0)%nat eqn:Hsz.
    + apply Nat.eqb_eq, map_size_empty_iff in Hsz. contradiction.
    + f_equal. f_equal. apply map_eq. intros h.
      rewrite (loadCerts_loop_lookup certs order Hnd), lookup_fmap.
      destruct (decide (h ∈ order)) as [Hin|Hnin].
      * apply Hkeys in Hin as [r Hr]. now rewrite Hr.
      * destruct (OpBase.RequestCollection op !! h) as [r|] eqn:Hr; [|reflexivity].
        exfalso. apply Hnin, Hkeys. eauto.
Qed.

(** ** Upload config: results *)

Section UploadResults.
Variable parse : string -> string -> string -> result OpResponseMap.

Lemma upload_hostError_None (opName h : string) (r : HostHTTPResult) :
  uploadHostError parse opName h r = None <->
  uploadAccepted parse opName (h, r).
Proof.
  unfold uploadHostError, uploadAccepted, isPassing. cbn [fst snd].
  destruct (err r) as [e|].
  - split; [discriminate | intros [H _]; discriminate].
  - destruct (parse opName h (content r)) as [obj|e].
    + destruct (obj !! "destination"%string) as [d|] eqn:Hd.
      * split; [intros _ | reflexivity]. split; [reflexivity|].
        exists obj. split; [reflexivity | rewrite Hd; eauto].
      * split; [discriminate|]. intros [_ [obj' [[= <-] [d Hd']]]]. congruence.
    + split; [discriminate|]. intros [_ [obj [Hp _]]]. discriminate.
Qed.

(** One turn of the loop joins the host's error, if it has one. *)
Lemma upload_processResult_loop_cons
    (op : NMAUploadConfigOp.NMAUploadConfigOp) (h : string) (r : HostHTTPResult)
    (rs : list (string * HostHTTPResult)) (allErrs : option error)
    (log : list logEntry) :
  NMAUploadConfigResults.processResult_loop parse op ((h, r) :: rs) allErrs log =
    NMAUploadConfigResults.processResult_loop parse op rs
      match uploadHostError parse (NMAUploadConfigOp.name op) h r with
      | Some e => errorsJoin [allErrs; Some e]
      | None => allErrs
      end
      (log ++ [LogResponse (NMAUploadConfigOp.name op) h r]).
Proof.
  cbn [NMAUploadConfigResults.processResult_loop]. unfold uploadHostError.
  unfold isPassing. destruct (err r) as [e|]; [reflexivity|].
  destruct (parse (NMAUploadConfigOp.name op) h (content r)) as [obj|e];
    [|reflexivity].
  destruct (obj !! "destination"%string); reflexivity.
Qed.

Lemma upload_processResult_loop_spec
    (op : NMAUploadConfigOp.NMAUploadConfigOp)
    (rs : list (string * HostHTTPResult)) (allErrs : option error)
    (log : list logEntry) :
  let out := NMAUploadConfigResults.processResult_loop parse op rs allErrs log in
  fst out = log ++ responseLog (NMAUploadConfigOp.name op) rs /\
  (snd out = None <->
   allErrs = None /\
   Forall (uploadAccepted parse (NMAUploadConfigOp.name op)) rs) /\
  joinedOf (snd out) =
    joinedOf allErrs ++
    List.flat_map
      (fun hr => joinedOf (uploadHostError parse
                             (NMAUploadConfigOp.name op) (fst hr) (snd hr)))
      rs.
Proof.
  revert allErrs log. induction rs as [|[h r] rs IH]; intros allErrs log.
  - cbn. rewrite !app_nil_r. repeat split; auto. intros [H _]. exact H.
  - rewrite upload_processResult_loop_cons.
    destruct (uploadHostError parse (NMAUploadConfigOp.name op) h r)
      as [e|] eqn:He.
    + destruct (IH (errorsJoin [allErrs; Some e])
                  (log ++ [LogResponse (NMAUploadConfigOp.name op) h r]))
        as [Hlog [Hnone Hleaves]].
      cbv zeta. split; [|split].
      * rewrite Hlog. cbn [responseLog List.map fst snd]. now rewrite <- app_assoc.
      * rewrite Hnone. split.
        -- intros [Hj _]. destruct (errorsJoin_two_joined allErrs e) as [E [HE _]].
           congruence.
        -- intros [_ Hall]. inversion Hall as [|? ? Hacc _]; subst.
           apply upload_hostError_None in Hacc. congruence.
      * rewrite Hleaves, errorsJoin_step. cbn [List.flat_map fst snd].
        rewrite He. cbn [joinedOf]. now rewrite <- app_assoc.
    + destruct (IH allErrs (log ++ [LogResponse (NMAUploadConfigOp.name op) h r]))
        as [Hlog [Hnone Hleaves]].
      cbv zeta. split; [|split].
      * rewrite Hlog. cbn [responseLog List.map fst snd]. now rewrite <- app_assoc.
      * rewrite Hnone. apply upload_hostError_None in He. split.
        -- intros [Ha Hall]. split; [exact Ha | constructor; assumption].
        -- intros [Ha Hall]. inversion Hall; subst. auto.
      * rewrite Hleaves. cbn [List.flat_map fst snd]. rewrite He. reflexivity.
Qed.

(** X4: [NMAUploadConfigOp.processResult] returns nil exactly when every
    host's result is passing, parses and holds the field "destination";
    it logs every host, passing or not, and the error it returns joins
    the errors of all the hosts that were not accepted, in iteration
    order. *)
Theorem NMAUploadConfigOp_processResult_all_must_pass
    (op : NMAUploadConfigOp.NMAUploadConfigOp)
    (rs : list (string * HostHTTPResult)) :
  let out := NMAUploadConfigResults.processResult parse op rs in
  fst out = responseLog (NMAUploadConfigOp.name op) rs /\
  (snd out = None <-> Forall (uploadAccepted parse (NMAUploadConfigOp.name op)) rs) /\
  joinedOf (snd out) =
    List.flat_map
      (fun hr => joinedOf (uploadHostError parse
                             (NMAUploadConfigOp.name op) (fst hr) (snd hr)))
      rs.
Proof.
  unfold NMAUploadConfigResults.processResult.
  destruct (upload_processResult_loop_spec op rs None []) as [Hlog [Hnone Hleaves]].
  cbv zeta. split; [exact Hlog|]. split; [|exact Hleaves].
  rewrite Hnone. split; [intros [_ H]; exact H | auto].
Qed.
End UploadResults.

(** ** Upload config: the requests that [prepare] builds *)

Section UploadRequests.
Variable NmaVDatabase : Type.
Variable SliceDiff : list string -> list string -> list string.
Variable updateCatalogPathMapFromCatalogEditor :
  list string -> NmaVDatabase -> gmap string string ->
  gmap string string * option error.
Variable getCatalogPath : string -> string.
Variable jsonMarshal : NMAUploadConfigOp.uploadConfigRequestData -> result string.
Variable BuildNMAEndpoint : string -> string.

Lemma upload_setHostRequestBodyMap_id (op : NMAUploadConfigOp.NMAUploadConfigOp) :
  NMAUploadConfigOp.setHostRequestBodyMap op (NMAUploadConfigOp.hostRequestBodyMap op)
  = op.
Proof. destruct op. reflexivity. Qed.

(** The loop of [setupRequestBody] changes the request bodies only: the
    bodies it adds are the JSON of the request data, and when it returns
    nil every host it was given has a body. *)
Lemma upload_setupRequestBody_loop_bodies
    (hp : heap) (todo : list string) :
  forall op : NMAUploadConfigOp.NMAUploadConfigOp,
  exists m',
    fst (NMAUploadConfigOp.setupRequestBody_loop jsonMarshal op hp todo) =
      NMAUploadConfigOp.setHostRequestBodyMap op m' /\
    (forall t body, m' !! t = Some body ->
       NMAUploadConfigOp.hostRequestBodyMap op !! t = Some body \/
       (t ∈ todo /\
        jsonMarshal
          {| NMAUploadConfigOp.CatalogPath :=
               default EmptyString (NMAUploadConfigOp.catalogPathMap op !! t);
             NMAUploadConfigOp.Content := deref hp (NMAUploadConfigOp.fileContent op) |}
          = Ok body)) /\
    (snd (NMAUploadConfigOp.setupRequestBody_loop jsonMarshal op hp todo) = None ->
     forall t, t ∈ todo -> is_Some (m' !! t)) /\
    (forall t, is_Some (NMAUploadConfigOp.hostRequestBodyMap op !! t) ->
               is_Some (m' !! t)).
Proof.
  induction todo as [|h rest IH]; intros op.
  - exists (NMAUploadConfigOp.hostRequestBodyMap op). cbn.
    rewrite upload_setHostRequestBodyMap_id. repeat split; auto.
    intros _ t Ht. inversion Ht.
  - cbn [NMAUploadConfigOp.setupRequestBody_loop].
    destruct (jsonMarshal _) as [data|e] eqn:Hm.
    + destruct (IH (NMAUploadConfigOp.setHostRequestBodyMap op
                      (<[h := data]> (NMAUploadConfigOp.hostRequestBodyMap op))))
        as [m' [Hop [Hbody [Hall Hkeep]]]].
      exists m'. split; [exact Hop|]. split; [|split].
      * intros t body Ht. destruct (Hbody t body Ht) as [Hold | [Hin Hj]].
        -- cbn [NMAUploadConfigOp.setHostRequestBodyMap
                NMAUploadConfigOp.hostRequestBodyMap] in Hold.
           destruct (decide (h = t)) as [<-|Hne].
           ++ rewrite lookup_insert_eq in Hold. injection Hold as <-.
              right. split; [left | exact Hm].
           ++ rewrite lookup_insert_ne in Hold by exact Hne. now left.
        -- right. split; [now right | exact Hj].
      * intros Hnone t Ht. apply elem_of_cons in Ht as [->|Ht].
        -- apply Hkeep. cbn. rewrite lookup_insert_eq. eauto.
        -- now apply Hall.
      * intros t Ht. apply Hkeep. cbn.
        destruct (decide (h = t)) as [<-|Hne].
        -- rewrite lookup_insert_eq. eauto.
        -- now rewrite lookup_insert_ne.
    + exists (NMAUploadConfigOp.hostRequestBodyMap op). cbn [fst snd].
      rewrite upload_setHostRequestBodyMap_id. repeat split; auto. discriminate.
Qed.

Lemma upload_setupClusterHTTPRequest_loop_lookup
    (op : NMAUploadConfigOp.NMAUploadConfigOp) (todo : list string) :
  forall (reqs : gmap string HostHTTPRequest) (h : string),
    NMAUploadConfigOp.setupClusterHTTPRequest_loop BuildNMAEndpoint op todo reqs !! h =
      if decide (h ∈ todo)
      then Some (mkHostHTTPRequest PostMethod
                   (BuildNMAEndpoint (NMAUploadConfigOp.endpoint op))
                   (default EmptyString (NMAUploadConfigOp.hostRequestBodyMap op !! h)))
      else reqs !! h.
Proof.
  induction todo as [|a rest IH]; intros reqs h.
  - cbn. destruct (decide (h ∈ [])) as [Hin|]; [inversion Hin | reflexivity].
  - cbn [NMAUploadConfigOp.setupClusterHTTPRequest_loop]. rewrite IH.
    destruct (decide (h ∈ rest)) as [Hin|Hnin].
    + destruct (decide (h ∈ a :: rest)) as [_|Hn]; [reflexivity|].
      exfalso. apply Hn. now right.
    + destruct (decide (h = a)) as [->|Hne].
      * rewrite lookup_insert_eq.
        destruct (decide (a ∈ a :: rest)) as [_|Hn]; [reflexivity|].
        exfalso. apply Hn. left.
      * rewrite lookup_insert_ne by congruence.
        destruct (decide (h ∈ a :: rest)) as [Hin|_]; [|reflexivity].
        apply elem_of_cons in Hin as [?|?]; contradiction.
Qed.

Lemma upload_prepare_requests_ready
    (op : NMAUploadConfigOp.NMAUploadConfigOp) (hp : heap)
    (ctx : OpEngineExecContext NmaVDatabase) (log : list logEntry) :
  let out := NMAUploadConfigOp.prepare_requests NmaVDatabase jsonMarshal
               BuildNMAEndpoint op hp ctx log in
  preparedErr out = None ->
  uploadRequestsReady jsonMarshal BuildNMAEndpoint
    (preparedOp out) (preparedHeap out) (preparedCtx out) /\
  NMAUploadConfigOp.catalogPathMap (preparedOp out) =
    NMAUploadConfigOp.catalogPathMap op.
Proof.
  unfold NMAUploadConfigOp.prepare_requests, NMAUploadConfigOp.setupRequestBody.
  set (op1 := NMAUploadConfigOp.setHostRequestBodyMap op ∅).
  set (st := if NMAUploadConfigOp.encryptSpread op1 then _ else _).
  destruct st as [hp1 log1].
  destruct (upload_setupRequestBody_loop_bodies hp1 (NMAUploadConfigOp.hosts op) op1)
    as [m' [Hop [Hbody [Hall _]]]].
  destruct (NMAUploadConfigOp.setupRequestBody_loop jsonMarshal op1 hp1
              (NMAUploadConfigOp.hosts op)) as [op2 e].
  cbn [fst snd] in Hop, Hall. subst op2.
  destruct e as [e|]; cbv zeta; unfold preparedErr; cbn [snd]; [discriminate|].
  intros _. unfold preparedOp, preparedHeap, preparedCtx,
    NMAUploadConfigOp.setupClusterHTTPRequest.
  cbn [fst snd NMAUploadConfigOp.setRequestCollection
       NMAUploadConfigOp.setHostRequestBodyMap NMAUploadConfigOp.hosts
       NMAUploadConfigOp.catalogPathMap NMAUploadConfigOp.RequestCollection
       NMAUploadConfigOp.endpoint NMAUploadConfigOp.fileContent op1].
  split; [|reflexivity]. unfold uploadRequestsReady.
  cbn [NMAUploadConfigOp.setRequestCollection
       NMAUploadConfigOp.setHostRequestBodyMap NMAUploadConfigOp.hosts
       NMAUploadConfigOp.catalogPathMap NMAUploadConfigOp.RequestCollection
       NMAUploadConfigOp.endpoint NMAUploadConfigOp.fileContent op1].
  split; [reflexivity|]. split.
  - intros h. rewrite upload_setupClusterHTTPRequest_loop_lookup.
    cbn [NMAUploadConfigOp.setHostRequestBodyMap NMAUploadConfigOp.hosts].
    destruct (decide (h ∈ NMAUploadConfigOp.hosts op)) as [Hin|Hnin].
    + split; [eauto | auto].
    + rewrite lookup_empty. split; [contradiction | intros [x Hx]; discriminate].
  - intros h req. rewrite upload_setupClusterHTTPRequest_loop_lookup.
    cbn [NMAUploadConfigOp.setHostRequestBodyMap NMAUploadConfigOp.hosts
         NMAUploadConfigOp.endpoint NMAUploadConfigOp.hostRequestBodyMap].
    destruct (decide (h ∈ NMAUploadConfigOp.hosts op)) as [Hin|Hnin];
      [|rewrite lookup_empty; discriminate].
    intros [= <-]. cbn [Method Endpoint RequestData].
    split; [reflexivity|]. split; [reflexivity|].
    destruct (Hall eq_refl h Hin) as [body Hb]. rewrite Hb. cbn [default from_option id].
    destruct (Hbody h body Hb) as [Hold | [_ Hj]].
    + cbn in Hold. rewrite lookup_empty in Hold. discriminate.
    + exact Hj.
Qed.

Lemma upload_prepare_fromCatalogEditor_ready
    (op : NMAUploadConfigOp.NMAUploadConfigOp) (hp : heap)
    (ctx : OpEngineExecContext NmaVDatabase) (log : list logEntry) :
  let out := NMAUploadConfigOp.prepare_fromCatalogEditor NmaVDatabase
               updateCatalogPathMapFromCatalogEditor jsonMarshal BuildNMAEndpoint
               op hp ctx log in
  preparedErr out = None ->
  uploadRequestsReady jsonMarshal BuildNMAEndpoint
    (preparedOp out) (preparedHeap out) (preparedCtx out).
Proof.
  unfold NMAUploadConfigOp.prepare_fromCatalogEditor.
  destruct (updateCatalogPathMapFromCatalogEditor _ _ _) as [m [e|]].
  - cbv zeta. unfold preparedErr. cbn [snd]. discriminate.
  - cbv zeta. intros Herr.
    now apply (upload_prepare_requests_ready
                 (NMAUploadConfigOp.setCatalogPathMap op m) hp ctx log).
Qed.

(** A prepared upload is skipped or has its requests in place. *)
Lemma upload_prepare_skipped_or_ready
    (op : NMAUploadConfigOp.NMAUploadConfigOp) (hp : heap)
    (ctx : OpEngineExecContext NmaVDatabase) :
  let out := NMAUploadConfigOp.prepare NmaVDatabase SliceDiff
               updateCatalogPathMapFromCatalogEditor getCatalogPath
               jsonMarshal BuildNMAEndpoint op hp ctx in
  preparedErr out = None ->
  NMAUploadConfigOp.skipExecute (preparedOp out) = true \/
  uploadRequestsReady jsonMarshal BuildNMAEndpoint
    (preparedOp out) (preparedHeap out) (preparedCtx out).
Proof.
  unfold NMAUploadConfigOp.prepare.
  destruct (match NMAUploadConfigOp.vdb (NMAUploadConfigOp.setCatalogPathMap op ∅) with
            | Some v => (size (entries (HostNodeMap v)) =? 0)%nat
            | None => true
            end).
  - destruct (NMAUploadConfigOp.sourceConfigHost
                (NMAUploadConfigOp.setCatalogPathMap op ∅)) as [src|].
    + cbv zeta. intros Herr. right.
      now apply upload_prepare_fromCatalogEditor_ready.
    + cbv zeta.
      destruct (length (hostsWithLatestCatalog ctx) =? 0)%nat.
      * unfold preparedErr. cbn [snd]. discriminate.
      * destruct (length (NMAUploadConfigOp.hosts _) =? 0)%nat.
        -- intros _. left. reflexivity.
        -- intros Herr. right. now apply upload_prepare_fromCatalogEditor_ready.
  - cbv zeta. intros Herr. right.
    now apply (upload_prepare_requests_ready _ hp ctx []).
Qed.

(** X6: when [prepare] returns nil without setting [skipExecute], the
    dispatcher is set up for the target hosts, exactly the target hosts
    have a request, and each request is a POST to the operation's NMA
    endpoint whose body is the JSON of the host's catalog path and of the
    shared file content as [prepare] left it. *)
Theorem NMAUploadConfigOp_prepare_requests_ready
    (op : NMAUploadConfigOp.NMAUploadConfigOp) (hp : heap)
    (ctx : OpEngineExecContext NmaVDatabase) :
  let out := NMAUploadConfigOp.prepare NmaVDatabase SliceDiff
               updateCatalogPathMapFromCatalogEditor getCatalogPath
               jsonMarshal BuildNMAEndpoint op hp ctx in
  preparedErr out = None ->
  NMAUploadConfigOp.skipExecute (preparedOp out) = false ->
  uploadRequestsReady jsonMarshal BuildNMAEndpoint
    (preparedOp out) (preparedHeap out) (preparedCtx out).
Proof.
  intros out Herr Hskip.
  destruct (upload_prepare_skipped_or_ready op hp ctx Herr) as [Hs|Hready].
  - fold out in Hs. congruence.
  - exact Hready.
Qed.

Lemma map_fold_insert_fmap {A B : Type} (f : A -> B) (m : gmap string A) :
  map_fold (fun h x acc => <[h := f x]> acc) ∅ m = f <$> m.
Proof.
  apply (map_fold_weak_ind (fun r m => r = f <$> m)).
  - now rewrite fmap_empty.
  - intros i x m' r _ ->. now rewrite fmap_insert.
Qed.

Lemma upload_prepare_requests_keeps_paths
    (op : NMAUploadConfigOp.NMAUploadConfigOp) (hp : heap)
    (ctx : OpEngineExecContext NmaVDatabase) (log : list logEntry) :
  NMAUploadConfigOp.catalogPathMap
    (preparedOp (NMAUploadConfigOp.prepare_requests NmaVDatabase jsonMarshal
                   BuildNMAEndpoint op hp ctx log)) =
  NMAUploadConfigOp.catalogPathMap op.
Proof.
  unfold NMAUploadConfigOp.prepare_requests, NMAUploadConfigOp.setupRequestBody.
  set (op1 := NMAUploadConfigOp.setHostRequestBodyMap op ∅).
  set (st := if NMAUploadConfigOp.encryptSpread op1 then _ else _).
  destruct st as [hp1 log1].
  destruct (upload_setupRequestBody_loop_bodies hp1 (NMAUploadConfigOp.hosts op) op1)
    as [m' [Hop _]].
  destruct (NMAUploadConfigOp.setupRequestBody_loop jsonMarshal op1 hp1
              (NMAUploadConfigOp.hosts op)) as [op2 e].
  cbn [fst] in Hop. subst op2. destruct e; reflexivity.
Qed.

(** X5: with node information at hand ([vdb] with a non-empty
    [HostNodeMap]), [prepare] targets [destHosts] as given, whatever
    [sourceConfigHost] and the execution context hold, never sets
    [skipExecute], and takes the catalog path of every host from its
    node. *)
Theorem NMAUploadConfigOp_prepare_with_node_info
    (op : NMAUploadConfigOp.NMAUploadConfigOp) (hp : heap)
    (ctx : OpEngineExecContext NmaVDatabase) (v : VCoordinationDatabase) :
  NMAUploadConfigOp.vdb op = Some v ->
  entries (HostNodeMap v) <> ∅ ->
  let out := NMAUploadConfigOp.prepare NmaVDatabase SliceDiff
               updateCatalogPathMapFromCatalogEditor getCatalogPath
               jsonMarshal BuildNMAEndpoint op hp ctx in
  NMAUploadConfigOp.hosts (preparedOp out) = NMAUploadConfigOp.destHosts op /\
  NMAUploadConfigOp.skipExecute (preparedOp out) = NMAUploadConfigOp.skipExecute op /\
  NMAUploadConfigOp.catalogPathMap (preparedOp out) =
    (fun vnode => getCatalogPath (CatalogPath vnode)) <$> entries (HostNodeMap v).
Proof.
  intros Hv Hne. unfold NMAUploadConfigOp.prepare.
  cbn [NMAUploadConfigOp.setCatalogPathMap NMAUploadConfigOp.vdb
       NMAUploadConfigOp.setHosts NMAUploadConfigOp.catalogPathMap].
  rewrite Hv.
  destruct (size (entries (HostNodeMap v)) =? 0)%nat eqn:Hsz.
  { apply Nat.eqb_eq, map_size_empty_iff in Hsz. contradiction. }
  cbv zeta.
  match goal with
  | |- context [NMAUploadConfigOp.prepare_requests _ _ _ ?o ?h ?c ?l] =>
      destruct (upload_prepare_requests_keeps NmaVDatabase jsonMarshal
                  BuildNMAEndpoint o h c l) as [Hh Hs];
      pose proof (upload_prepare_requests_keeps_paths o h c l) as Hp
  end.
  cbn [NMAUploadConfigOp.setCatalogPathMap NMAUploadConfigOp.setHosts
       NMAUploadConfigOp.hosts NMAUploadConfigOp.skipExecute
       NMAUploadConfigOp.catalogPathMap NMAUploadConfigOp.destHosts] in Hh, Hs, Hp.
  split; [exact Hh|]. split; [exact Hs|].
  etransitivity; [exact Hp|].
  exact (map_fold_insert_fmap
           (fun vnode => getCatalogPath (CatalogPath vnode))
           (entries (HostNodeMap v))).
Qed.

(** ** Download then upload: the shared file content *)

Lemma upload_prepare_requests_keeps_content
    (op : NMAUploadConfigOp.NMAUploadConfigOp) (hp : heap)
    (ctx : OpEngineExecContext NmaVDatabase) (log : list logEntry) :
  let out := NMAUploadConfigOp.prepare_requests NmaVDatabase jsonMarshal
               BuildNMAEndpoint op hp ctx log in
  NMAUploadConfigOp.fileContent (preparedOp out) = NMAUploadConfigOp.fileContent op /\
  (NMAUploadConfigOp.encryptSpread op = false -> preparedHeap out = hp).
Proof.
  unfold NMAUploadConfigOp.prepare_requests, NMAUploadConfigOp.setupRequestBody.
  set (op1 := NMAUploadConfigOp.setHostRequestBodyMap op ∅).
  change (NMAUploadConfigOp.encryptSpread op1) with (NMAUploadConfigOp.encryptSpread op).
  destruct (NMAUploadConfigOp.encryptSpread op).
  - match goal with
    | |- context [NMAUploadConfigOp.setupRequestBody_loop _ ?o ?h ?t] =>
        destruct (upload_setupRequestBody_loop_bodies h t o) as [m' [Hop _]];
        destruct (NMAUploadConfigOp.setupRequestBody_loop jsonMarshal o h t) as [op2 e]
    end.
    cbn [fst] in Hop. subst op2. split; [|discriminate]. destruct e; reflexivity.
  - match goal with
    | |- context [NMAUploadConfigOp.setupRequestBody_loop _ ?o ?h ?t] =>
        destruct (upload_setupRequestBody_loop_bodies h t o) as [m' [Hop _]];
        destruct (NMAUploadConfigOp.setupRequestBody_loop jsonMarshal o h t) as [op2 e]
    end.
    cbn [fst] in Hop. subst op2. split; destruct e; reflexivity.
Qed.

Lemma upload_prepare_keeps_content
    (op : NMAUploadConfigOp.NMAUploadConfigOp) (hp : heap)
    (ctx : OpEngineExecContext NmaVDatabase) :
  let out := NMAUploadConfigOp.prepare NmaVDatabase SliceDiff
               updateCatalogPathMapFromCatalogEditor getCatalogPath
               jsonMarshal BuildNMAEndpoint op hp ctx in
  NMAUploadConfigOp.fileContent (preparedOp out) = NMAUploadConfigOp.fileContent op /\
  (NMAUploadConfigOp.encryptSpread op = false -> preparedHeap out = hp).
Proof.
  assert (Hce : forall o l,
    let out := NMAUploadConfigOp.prepare_fromCatalogEditor NmaVDatabase
                 updateCatalogPathMapFromCatalogEditor jsonMarshal BuildNMAEndpoint
                 o hp ctx l in
    NMAUploadConfigOp.fileContent (preparedOp out) = NMAUploadConfigOp.fileContent o /\
    (NMAUploadConfigOp.encryptSpread o = false -> preparedHeap out = hp)).
  { intros o l. unfold NMAUploadConfigOp.prepare_fromCatalogEditor.
    destruct (updateCatalogPathMapFromCatalogEditor _ _ _) as [m [e|]].
    - cbv zeta. split; reflexivity.
    - cbv zeta.
      apply (upload_prepare_requests_keeps_content
               (NMAUploadConfigOp.setCatalogPathMap o m) hp ctx l). }
  unfold NMAUploadConfigOp.prepare.
  destruct (match NMAUploadConfigOp.vdb (NMAUploadConfigOp.setCatalogPathMap op ∅) with
            | Some v => (size (entries (HostNodeMap v)) =? 0)%nat
            | None => true
            end).
  - destruct (NMAUploadConfigOp.sourceConfigHost
                (NMAUploadConfigOp.setCatalogPathMap op ∅)) as [src|].
    + cbv zeta.
      match goal with
      | |- context [NMAUploadConfigOp.prepare_fromCatalogEditor _ _ _ _ ?o _ _ ?l] =>
          exact (Hce o l)
      end.
    + cbv zeta.
      destruct (length (hostsWithLatestCatalog ctx) =? 0)%nat.
      * split; reflexivity.
      * destruct (length (NMAUploadConfigOp.hosts _) =? 0)%nat.
        -- split; reflexivity.
        -- match goal with
           | |- context [NMAUploadConfigOp.prepare_fromCatalogEditor _ _ _ _ ?o _ _ ?l] =>
               exact (Hce o l)
           end.
  - cbv zeta.
    match goal with
    | |- context [NMAUploadConfigOp.prepare_requests _ _ _ ?o ?h ?c ?l] =>
        exact (upload_prepare_requests_keeps_content o h c l)
    end.
Qed.

(** X7: a download and an upload that share the file content cell.  When
    the download found a passing host and the upload, without spread
    encryption, is then prepared without error and without being skipped,
    the body of every upload request is the JSON of the host's catalog
    path and of the content the first passing host of the download
    returned. *)
Theorem download_then_upload_carries_content
    (down : NMADownloadConfigOp.NMADownloadConfigOp)
    (up : NMAUploadConfigOp.NMAUploadConfigOp) (hp : heap)
    (ctx : OpEngineExecContext NmaVDatabase)
    (pre post : list (string * HostHTTPResult)) (h : string) (r : HostHTTPResult) :
  NMADownloadConfigOp.ResultCollection down = pre ++ (h, r) :: post ->
  Forall (fun hr => isPassing (snd hr) = false) pre ->
  isPassing r = true ->
  NMAUploadConfigOp.fileContent up = NMADownloadConfigOp.fileContent down ->
  NMAUploadConfigOp.encryptSpread up = false ->
  let hp1 := fst (fst (NMADownloadConfigOp.processResult down hp)) in
  let out := NMAUploadConfigOp.prepare NmaVDatabase SliceDiff
               updateCatalogPathMapFromCatalogEditor getCatalogPath
               jsonMarshal BuildNMAEndpoint up hp1 ctx in
  preparedErr out = None ->
  NMAUploadConfigOp.skipExecute (preparedOp out) = false ->
  forall h' req,
    NMAUploadConfigOp.RequestCollection (preparedOp out) !! h' = Some req ->
    jsonMarshal
      {| NMAUploadConfigOp.CatalogPath :=
           default EmptyString
             (NMAUploadConfigOp.catalogPathMap (preparedOp out) !! h');
         NMAUploadConfigOp.Content := content r |} = Ok (RequestData req).
Proof.
  intros Hrs Hpre Hr Hcell Henc hp1 out Herr Hskip h' req Hreq.
  subst out.
  destruct (upload_prepare_keeps_content up hp1 ctx) as [Hfc Hhp].
  specialize (Hhp Henc).
  destruct (upload_prepare_skipped_or_ready up hp1 ctx Herr)
    as [Hs|[_ [_ Hall]]]; [congruence|].
  destruct (Hall h' req Hreq) as [_ [_ Hbody]].
  rewrite Hhp, Hfc, Hcell in Hbody.
  replace (deref hp1 (NMADownloadConfigOp.fileContent down)) with (content r) in Hbody;
    [exact Hbody|].
  subst hp1. unfold NMADownloadConfigOp.processResult. rewrite Hrs.
  rewrite (download_loop_passing down pre h r post None hp [] Hpre Hr).
  cbn [fst]. unfold deref. now rewrite lookup_insert_eq.
Qed.
End UploadRequests.

Lemma loadCertsIfNeeded_loads_every_request_witness :
  OpBase.loadCertsIfNeeded ["10.0.0.1"%string] oneRequestOp optionCerts true =
    (OpBase.setRequestCollection oneRequestOp
       (OpBase.withCerts optionCerts <$> OpBase.RequestCollection oneRequestOp), None).
Proof.
  refine (proj2 (loadCertsIfNeeded_loads_every_request
                   ["10.0.0.1"%string] oneRequestOp optionCerts _ _) _).
  - split; [apply NoDup_singleton|].
    intros h. cbn [OpBase.RequestCollection oneRequestOp].
    rewrite lookup_singleton_is_Some, list_elem_of_singleton. split; congruence.
  - reflexivity.
  - cbn [OpBase.RequestCollection oneRequestOp]. apply insert_non_empty.
Defined.

Lemma NMAUploadConfigOp_prepare_requests_ready_witness :
  uploadRequestsReady
    (fun d => Ok (NMAUploadConfigOp.Content d)) (fun ep => ep)
    (preparedOp
       (NMAUploadConfigOp.prepare unit utilSliceDiff
          (fun _ _ m => (m, None)) (fun p => p)
          (fun d => Ok (NMAUploadConfigOp.Content d)) (fun ep => ep)
          uploadOpStartDB ∅ ctxStartDB))
    (preparedHeap
       (NMAUploadConfigOp.prepare unit utilSliceDiff
          (fun _ _ m => (m, None)) (fun p => p)
          (fun d => Ok (NMAUploadConfigOp.Content d)) (fun ep => ep)
          uploadOpStartDB ∅ ctxStartDB))
    (preparedCtx
       (NMAUploadConfigOp.prepare unit utilSliceDiff
          (fun _ _ m => (m, None)) (fun p => p)
          (fun d => Ok (NMAUploadConfigOp.Content d)) (fun ep => ep)
          uploadOpStartDB ∅ ctxStartDB)).
Proof.
  apply (NMAUploadConfigOp_prepare_requests_ready unit utilSliceDiff
           (fun _ _ m => (m, None)) (fun p => p)
           (fun d => Ok (NMAUploadConfigOp.Content d)) (fun ep => ep)
           uploadOpStartDB ∅ ctxStartDB).
  - vm_compute. reflexivity.
  - vm_compute. reflexivity.
Defined.

Lemma NMAUploadConfigOp_prepare_with_node_info_witness :
  NMAUploadConfigOp.hosts
    (preparedOp
       (NMAUploadConfigOp.prepare unit utilSliceDiff
          (fun _ _ m => (m, None)) (fun p => p)
          (fun d => Ok (NMAUploadConfigOp.Content d)) (fun ep => ep)
          uploadOpWithVdb ∅ ctxStartDB)) =
  NMAUploadConfigOp.destHosts uploadOpWithVdb.
Proof.
  refine (proj1 (NMAUploadConfigOp_prepare_with_node_info unit utilSliceDiff
                   (fun _ _ m => (m, None)) (fun p => p)
                   (fun d => Ok (NMAUploadConfigOp.Content d)) (fun ep => ep)
                   uploadOpWithVdb ∅ ctxStartDB vdbOneNode _ _)).
  - reflexivity.
  - cbn. apply insert_non_empty.
Defined.


Lemma download_then_upload_carries_content_witness :
  RequestData <$>
    (NMAUploadConfigOp.RequestCollection
       (preparedOp
          (NMAUploadConfigOp.prepare unit utilSliceDiff
             (fun _ _ m => (m, None)) (fun p => p)
             (fun d => Ok (NMAUploadConfigOp.Content d)) (fun ep => ep)
             uploadOpStartDB
             (fst (fst (NMADownloadConfigOp.processResult downloadOp ∅)))
             ctxStartDB)) !! "10.0.0.3"%string) =
  Some "spread.conf body"%string.
Proof.
  destruct (NMAUploadConfigOp.RequestCollection _ !! "10.0.0.3"%string)
    as [req|] eqn:Hreq.
  - pose proof (download_then_upload_carries_content unit utilSliceDiff
           (fun _ _ m => (m, None)) (fun p => p)
           (fun d => Ok (NMAUploadConfigOp.Content d)) (fun ep => ep)
           downloadOp uploadOpStartDB ∅ ctxStartDB
           [("10.0.0.1"%string,
             failingResult "10.0.0.1" (ErrorString "500 Internal Server Error"))]
           [("10.0.0.3"%string,
             failingResult "10.0.0.3" (ErrorString "connection refused"))]
           "10.0.0.2"
           (mkHostHTTPResult SUCCESS SuccessCode "10.0.0.2" "spread.conf body" None)
           eq_refl
           ltac:(repeat constructor) eq_refl eq_refl eq_refl
           ltac:(vm_compute; reflexivity) ltac:(vm_compute; reflexivity)
           "10.0.0.3"%string req Hreq) as Hbody.
    cbn [NMAUploadConfigOp.Content content] in Hbody.
    injection Hbody as Hb. change (Some (RequestData req) = Some "spread.conf body"%string).
    now rewrite <- Hb.
  - vm_compute in Hreq. discriminate.
Defined.

(** ** Spread security: [prepare] *)

Section SpreadPrepare.
Variable NmaVDatabase : Type.
Variable updateCatalogPathMapFromCatalogEditor :
  list string -> NmaVDatabase -> gmap string string ->
  gmap string string * option error.
Variable getCatalogPath : string -> string.
Variable jsonMarshal :
  NMASpreadSecurityOp.nmaSpreadSecurityPayload -> result string.
Variable fmtMap : gmap string string -> string.
Variable BuildNMAEndpoint : string -> string.

Lemma generateSecurityDetails_shape
    (op : NMASpreadSecurityOp.nmaSpreadSecurityOp) (g : rng) (src : cryptoSource)
    (details : string) :
  fst (NMASpreadSecurityOp.generateSecurityDetails op g src) = Ok details ->
  NMASpreadSecurityOp.keyType op = NMASpreadSecurityOp.spreadKeyTypeVertica /\
  exists keyID key,
    details = securityDetailsOf keyID key /\
    String.length keyID = 4%nat /\ String.length key = 64%nat.
Proof.
  unfold NMASpreadSecurityOp.generateSecurityDetails.
  pose proof (generateKeyID_shape g) as [Hid _].
  destruct (NMASpreadSecurityOp.generateKeyID g) as [keyID g']. cbn [fst] in Hid.
  destruct (String.eqb_spec (NMASpreadSecurityOp.keyType op)
              NMASpreadSecurityOp.spreadKeyTypeVertica) as [Hk|Hk].
  - destruct (NMASpreadSecurityOp.generateVerticaSpreadKey src) as [key|e] eqn:Hkey;
      cbn [fst]; [|discriminate].
    intros [= <-]. split; [exact Hk|]. exists keyID, key.
    split; [reflexivity|]. split; [exact Hid|].
    exact (proj1 (generateVerticaSpreadKey_shape src key Hkey)).
  - cbn [fst]. discriminate.
Qed.

Lemma spread_setupRequestBody_loop_bodies
    (op : NMASpreadSecurityOp.nmaSpreadSecurityOp) (details : string)
    (todo : list string) (bodies : gmap string string) (log : list logEntry)
    (m : gmap string string) :
  snd (NMASpreadSecurityOp.setupRequestBody_loop getCatalogPath jsonMarshal
         fmtMap op details todo bodies log) = Ok m ->
  (forall h, is_Some (m !! h) <-> h ∈ todo \/ is_Some (bodies !! h)) /\
  (forall h body, m !! h = Some body ->
     (exists full,
        NMASpreadSecurityOp.catalogPathMap op !! h = Some full /\
        jsonMarshal
          {| NMASpreadSecurityOp.CatalogPath := getCatalogPath full;
             NMASpreadSecurityOp.SpreadSecurityDetails := details |} = Ok body) \/
     bodies !! h = Some body).
Proof.
  revert bodies log. induction todo as [|a rest IH]; intros bodies log.
  - cbn. intros [= <-]. split.
    + intros h. rewrite elem_of_nil. tauto.
    + intros h body Hb. now right.
  - cbn [NMASpreadSecurityOp.setupRequestBody_loop].
    destruct (NMASpreadSecurityOp.catalogPathMap op !! a) as [full|] eqn:Hfull;
      [|cbn; discriminate].
    cbn [NMASpreadSecurityOp.CatalogPath].
    destruct (jsonMarshal _) as [data|e] eqn:Hdata; [|cbn; discriminate].
    intros Hm. apply IH in Hm as [Hkeys Hbodies]. split.
    + intros h. rewrite Hkeys, elem_of_cons.
      destruct (decide (h = a)) as [->|Hne].
      * rewrite lookup_insert_eq. split; [auto|]. intros _. right. eauto.
      * rewrite lookup_insert_ne by congruence. tauto.
    + intros h body Hb. destruct (Hbodies h body Hb) as [Hl|Hr]; [now left|].
      destruct (decide (h = a)) as [->|Hne].
      * rewrite lookup_insert_eq in Hr. injection Hr as <-. left.
        exists full. split; [exact Hfull | exact Hdata].
      * rewrite lookup_insert_ne in Hr by congruence. now right.
Qed.

Lemma spread_setupClusterHTTPRequest_fmap (bodies : gmap string string) :
  fst (NMASpreadSecurityRequests.setupClusterHTTPRequest BuildNMAEndpoint bodies) =
  (fun requestBody =>
     {| Method := PostMethod;
        Endpoint := BuildNMAEndpoint "catalog/spread-security";
        RequestData := requestBody |}) <$> bodies.
Proof.
  unfold NMASpreadSecurityRequests.setupClusterHTTPRequest. cbn [fst].
  apply (map_fold_weak_ind (fun r m => r = _ <$> m)).
  - now rewrite fmap_empty.
  - intros i x m' r _ ->. now rewrite fmap_insert.
Qed.

(** X8: when [nmaSpreadSecurityOp.prepare] returns nil, the hosts are the
    hosts with the latest catalog and there is at least one, the key type
    is "vertica", the dispatcher is set up for the hosts, exactly the
    hosts have a request, and there is one key id of 4 characters and one
    key of 64 characters such that every request is a POST to
    catalog/spread-security whose body is the JSON of the host's catalog
    path and of these same security details. *)
Theorem nmaSpreadSecurityOp_prepare_one_key_for_all
    (op : NMASpreadSecurityOp.nmaSpreadSecurityOp)
    (reqs : gmap string HostHTTPRequest)
    (ctx : OpEngineExecContext NmaVDatabase) (g : rng) (src : cryptoSource) :
  let out := NMASpreadSecurityRequests.prepare NmaVDatabase
               updateCatalogPathMapFromCatalogEditor getCatalogPath jsonMarshal
               fmtMap BuildNMAEndpoint op reqs ctx g src in
  spreadErr out = None ->
  NMASpreadSecurityOp.hosts (spreadOp out) = hostsWithLatestCatalog ctx /\
  hostsWithLatestCatalog ctx <> [] /\
  dispatcher (spreadCtx out) = hostsWithLatestCatalog ctx /\
  NMASpreadSecurityOp.keyType op = NMASpreadSecurityOp.spreadKeyTypeVertica /\
  exists keyID key,
    String.length keyID = 4%nat /\ String.length key = 64%nat /\
    (forall h, h ∈ hostsWithLatestCatalog ctx <->
               is_Some (spreadRequests out !! h)) /\
    forall h req,
      spreadRequests out !! h = Some req ->
      Method req = PostMethod /\
      Endpoint req = BuildNMAEndpoint "catalog/spread-security" /\
      exists full,
        NMASpreadSecurityOp.catalogPathMap (spreadOp out) !! h = Some full /\
        jsonMarshal
          {| NMASpreadSecurityOp.CatalogPath := getCatalogPath full;
             NMASpreadSecurityOp.SpreadSecurityDetails :=
               securityDetailsOf keyID key |} = Ok (RequestData req).
Proof.
  unfold NMASpreadSecurityRequests.prepare, NMASpreadSecurityRequests.setRuntimeParms.
  cbn [NMASpreadSecurityRequests.setHosts NMASpreadSecurityRequests.setCatalogPathMap
       NMASpreadSecurityOp.hosts NMASpreadSecurityOp.catalogPathMap
       NMASpreadSecurityOp.name NMASpreadSecurityOp.keyType
       NMASpreadSecurityOp.ResultCollection].
  destruct (updateCatalogPathMapFromCatalogEditor _ _ _) as [paths [e|]];
    [cbv zeta; unfold spreadErr; cbn [snd]; discriminate|].
  set (op1 := NMASpreadSecurityRequests.setCatalogPathMap
                (NMASpreadSecurityRequests.setCatalogPathMap
                   (NMASpreadSecurityRequests.setHosts op (hostsWithLatestCatalog ctx))
                   ∅)
                paths).
  unfold NMASpreadSecurityOp.setupRequestBody.
  change (NMASpreadSecurityOp.hosts op1) with (hostsWithLatestCatalog ctx).
  destruct (hostsWithLatestCatalog ctx) as [|h0 hs] eqn:Hhosts;
    [cbv zeta; unfold spreadErr; cbn; discriminate|].
  cbn [length Nat.eqb].
  pose proof (generateSecurityDetails_shape op1 g src) as Hshape.
  destruct (NMASpreadSecurityOp.generateSecurityDetails op1 g src) as [[details|e] g'];
    [|cbv zeta; unfold spreadErr; cbn; discriminate].
  destruct (Hshape details eq_refl) as [Hkt [keyID [key [Hd [Hid Hkey]]]]].
  pose proof (spread_setupRequestBody_loop_bodies op1 details (h0 :: hs) ∅ []) as Hloop.
  destruct (NMASpreadSecurityOp.setupRequestBody_loop getCatalogPath jsonMarshal
              fmtMap op1 details (h0 :: hs) ∅ []) as [log [bodies|e]];
    [|cbv zeta; unfold spreadErr; cbn; discriminate].
  destruct (Hloop bodies eq_refl) as [Hkeys Hbodies].
  pose proof (spread_setupClusterHTTPRequest_fmap bodies) as Hreqs.
  destruct (NMASpreadSecurityRequests.setupClusterHTTPRequest BuildNMAEndpoint bodies)
    as [reqs' e'] eqn:Hsetup.
  cbn [fst] in Hreqs.
  cbv zeta. unfold spreadErr, spreadOp, spreadCtx, spreadRequests. cbn [fst snd].
  intros _. split; [reflexivity|]. split; [discriminate|].
  split; [reflexivity|]. split; [exact Hkt|].
  exists keyID, key. split; [exact Hid|]. split; [exact Hkey|]. split.
  - intros h. rewrite Hreqs, lookup_fmap, fmap_is_Some, Hkeys.
    rewrite lookup_empty. split; [auto|]. intros [H|[x Hx]]; [exact H|discriminate].
  - intros h req. rewrite Hreqs, lookup_fmap.
    destruct (bodies !! h) as [body|] eqn:Hb; [|discriminate].
    cbn. intros [= <-]. cbn. split; [reflexivity|]. split; [reflexivity|].
    destruct (Hbodies h body Hb) as [[full [Hf Hj]]|Hr].
    + exists full. split; [exact Hf|]. rewrite <- Hd. exact Hj.
    + rewrite lookup_empty in Hr. discriminate.
Qed.

(** X9: a [prepare] of the spread security operation that fails leaves
    the request collection and the execution context as they were; and
    it fails whenever no host has the latest catalog or the key type is
    not "vertica". *)
Theorem nmaSpreadSecurityOp_prepare_failure
    (op : NMASpreadSecurityOp.nmaSpreadSecurityOp)
    (reqs : gmap string HostHTTPRequest)
    (ctx : OpEngineExecContext NmaVDatabase) (g : rng) (src : cryptoSource) :
  let out := NMASpreadSecurityRequests.prepare NmaVDatabase
               updateCatalogPathMapFromCatalogEditor getCatalogPath jsonMarshal
               fmtMap BuildNMAEndpoint op reqs ctx g src in
  (spreadErr out <> None -> spreadRequests out = reqs /\ spreadCtx out = ctx) /\
  (hostsWithLatestCatalog ctx = [] \/
   NMASpreadSecurityOp.keyType op <> NMASpreadSecurityOp.spreadKeyTypeVertica ->
   spreadErr out <> None).
Proof.
  unfold NMASpreadSecurityRequests.prepare, NMASpreadSecurityRequests.setRuntimeParms.
  cbn [NMASpreadSecurityRequests.setHosts NMASpreadSecurityRequests.setCatalogPathMap
       NMASpreadSecurityOp.hosts NMASpreadSecurityOp.catalogPathMap
       NMASpreadSecurityOp.name NMASpreadSecurityOp.keyType
       NMASpreadSecurityOp.ResultCollection].
  destruct (updateCatalogPathMapFromCatalogEditor _ _ _) as [paths [e|]];
    [cbv zeta; unfold spreadErr, spreadRequests, spreadCtx; cbn [fst snd];
     split; [auto | intros _; discriminate]|].
  set (op1 := NMASpreadSecurityRequests.setCatalogPathMap
                (NMASpreadSecurityRequests.setCatalogPathMap
                   (NMASpreadSecurityRequests.setHosts op (hostsWithLatestCatalog ctx))
                   ∅)
                paths).
  unfold NMASpreadSecurityOp.setupRequestBody.
  change (NMASpreadSecurityOp.hosts op1) with (hostsWithLatestCatalog ctx).
  destruct (hostsWithLatestCatalog ctx) as [|h0 hs] eqn:Hhosts;
    [cbv zeta; unfold spreadErr, spreadRequests, spreadCtx; cbn [fst snd length Nat.eqb];
     split; [auto | intros _; discriminate]|].
  cbn [length Nat.eqb].
  pose proof (generateSecurityDetails_shape op1 g src) as Hshape.
  destruct (NMASpreadSecurityOp.generateSecurityDetails op1 g src) as [[details|e] g'];
    [|cbv zeta; unfold spreadErr, spreadRequests, spreadCtx; cbn [fst snd];
      split; [auto | intros _; discriminate]].
  destruct (Hshape details eq_refl) as [Hkt _].
  destruct (NMASpreadSecurityOp.setupRequestBody_loop getCatalogPath jsonMarshal
              fmtMap op1 details (h0 :: hs) ∅ []) as [log [bodies|e]];
    [|cbv zeta; unfold spreadErr, spreadRequests, spreadCtx; cbn [fst snd];
      split; [auto | intros _; discriminate]].
  cbv zeta. unfold NMASpreadSecurityRequests.setupClusterHTTPRequest.
  unfold spreadErr, spreadRequests, spreadCtx. cbn [fst snd]. split.
  - intros H. contradiction.
  - intros [H|H]; [discriminate | contradiction].
Qed.
End SpreadPrepare.

Lemma nmaSpreadSecurityOp_prepare_one_key_for_all_witness :
  spreadErr spreadPrepared = None /\
  NMASpreadSecurityOp.hosts (spreadOp spreadPrepared) =
    ["10.0.0.1"%string; "10.0.0.2"%string] /\
  dispatcher (spreadCtx spreadPrepared) = ["10.0.0.1"%string; "10.0.0.2"%string].
Proof.
  assert (H : spreadErr spreadPrepared = None) by (vm_compute; reflexivity).
  split; [exact H|].
  destruct (nmaSpreadSecurityOp_prepare_one_key_for_all unit
              (fun hs _ m => (catalogOfHosts hs m, None)) (fun p => p)
              (fun p => Ok (NMASpreadSecurityOp.CatalogPath p +:+ " " +:+
                            NMASpreadSecurityOp.SpreadSecurityDetails p))
              (fun _ => EmptyString) (fun ep => ep)
              (NMASpreadSecurityRequests.makeNMASpreadSecurityOp "vertica")
              ∅ ctxTwoHosts (fun _ => 0%nat) zeroEntropy H) as [Hh [_ [Hd _]]].
  split; [exact Hh | exact Hd].
Defined.

(** ** Spread security: results *)

Section SpreadResults.
Variable parse : string -> string -> string -> result OpResponseMap.

Lemma hostErrors_cons (h : string) (r : HostHTTPResult)
    (rs : list (string * HostHTTPResult)) :
  hostErrors ((h, r) :: rs) =
    match err r with
    | Some e => e :: hostErrors rs
    | None => hostErrors rs
    end.
Proof. reflexivity. Qed.

Lemma spread_processResult_loop_spec
    (op : NMASpreadSecurityOp.nmaSpreadSecurityOp)
    (rs : list (string * HostHTTPResult)) (allErrs : option error)
    (log : list logEntry) :
  let out := NMASpreadSecurityOp.processResult_loop parse op rs allErrs log in
  (Forall (spreadParses parse (NMASpreadSecurityOp.name op)) rs /\
   out = (log ++ responseLog (NMASpreadSecurityOp.name op) rs, None)) \/
  (exists pre h r post e E,
     rs = pre ++ (h, r) :: post /\
     Forall (spreadParses parse (NMASpreadSecurityOp.name op)) pre /\
     isPassing r = true /\
     parse (NMASpreadSecurityOp.name op) h (content r) = Fail e /\
     out = (log ++ responseLog (NMASpreadSecurityOp.name op) (pre ++ [(h, r)]),
            Some E) /\
     joinedErrors E =
       joinedOf allErrs ++ List.flat_map joinedErrors (hostErrors pre) ++
       joinedErrors e).
Proof.
  revert allErrs log. induction rs as [|[h r] rs IH]; intros allErrs log.
  - left. split; [constructor|]. cbn. now rewrite app_nil_r.
  - cbn [NMASpreadSecurityOp.processResult_loop].
    destruct (isPassing r) eqn:Hr.
    + destruct (parse (NMASpreadSecurityOp.name op) h (content r)) as [obj|e] eqn:Hp.
      * destruct (IH allErrs (log ++ [LogResponse (NMASpreadSecurityOp.name op) h r]))
          as [[Hall Hout]|[pre [h' [r' [post [e [E [Hrs [Hpre [Hr' [Hp' [Hout HE]]]]]]]]]]]].
        -- left. split.
           ++ constructor; [intros _; cbn; eauto | exact Hall].
           ++ cbv zeta. rewrite Hout. cbn [responseLog List.map fst snd].
              now rewrite <- app_assoc.
        -- right. exists ((h, r) :: pre), h', r', post, e, E.
           split; [now rewrite Hrs|].
           split; [constructor; [intros _; cbn; eauto | exact Hpre]|].
           split; [exact Hr'|]. split; [exact Hp'|]. split.
           ++ cbv zeta. rewrite Hout. cbn [responseLog List.map fst snd app].
              now rewrite <- app_assoc.
           ++ rewrite HE, hostErrors_cons.
              unfold isPassing in Hr. destruct (err r); [discriminate|].
              reflexivity.
      * right. exists [], h, r, rs, e.
        destruct (errorsJoin_two_joined allErrs e) as [E [HE HJ]].
        exists E. split; [reflexivity|]. split; [constructor|].
        split; [exact Hr|]. split; [exact Hp|]. split.
        -- cbv zeta. now rewrite HE.
        -- rewrite HJ. cbn. destruct allErrs; reflexivity.
    + unfold isPassing in Hr. destruct (err r) as [er|] eqn:Her; [|discriminate].
      destruct (IH (errorsJoin [allErrs; Some er])
                   (log ++ [LogResponse (NMASpreadSecurityOp.name op) h r]))
        as [[Hall Hout]|[pre [h' [r' [post [e [E [Hrs [Hpre [Hr' [Hp' [Hout HE]]]]]]]]]]]].
      * left. split.
        -- constructor; [|exact Hall]. intros Hpass. cbn in Hpass.
           unfold isPassing in Hpass. rewrite Her in Hpass. discriminate.
        -- cbv zeta. rewrite Hout. cbn [responseLog List.map fst snd].
           now rewrite <- app_assoc.
      * right. exists ((h, r) :: pre), h', r', post, e, E.
        split; [now rewrite Hrs|]. split.
        { constructor; [|exact Hpre]. intros Hpass. cbn in Hpass.
          unfold isPassing in Hpass. rewrite Her in Hpass. discriminate. }
        split; [exact Hr'|]. split; [exact Hp'|]. split.
        -- cbv zeta. rewrite Hout. cbn [responseLog List.map fst snd app].
           now rewrite <- app_assoc.
        -- rewrite HE, errorsJoin_step, hostErrors_cons, Her.
           cbn [List.flat_map]. now rewrite <- !app_assoc.
Qed.

(** X10: [nmaSpreadSecurityOp.processResult] returns nil exactly when the
    response of every passing host parses.  When it returns an error, the
    loop stopped at the first passing host whose response did not parse:
    the hosts after it are not logged, and the error joins the errors of
    the failing hosts met before it with the parse error. *)
Theorem nmaSpreadSecurityOp_processResult_only_parse_errors
    (op : NMASpreadSecurityOp.nmaSpreadSecurityOp) :
  let out := NMASpreadSecurityOp.processResult parse op in
  (snd out = None <->
   Forall (spreadParses parse (NMASpreadSecurityOp.name op))
     (NMASpreadSecurityOp.ResultCollection op)) /\
  (forall E, snd out = Some E ->
   exists pre h r post e,
     NMASpreadSecurityOp.ResultCollection op = pre ++ (h, r) :: post /\
     Forall (spreadParses parse (NMASpreadSecurityOp.name op)) pre /\
     isPassing r = true /\
     parse (NMASpreadSecurityOp.name op) h (content r) = Fail e /\
     fst out = responseLog (NMASpreadSecurityOp.name op) (pre ++ [(h, r)]) /\
     joinedErrors E =
       List.flat_map joinedErrors (hostErrors pre) ++ joinedErrors e).
Proof.
  unfold NMASpreadSecurityOp.processResult.
  destruct (spread_processResult_loop_spec op
              (NMASpreadSecurityOp.ResultCollection op) None [])
    as [[Hall Hout]|[pre [h [r [post [e [E [Hrs [Hpre [Hr [Hp [Hout HE]]]]]]]]]]]];
    cbv zeta; rewrite Hout; cbn [fst snd].
  - split; [tauto|]. discriminate.
  - split.
    + split; [discriminate|]. intros Hall. rewrite Hrs in Hall.
      apply Forall_app in Hall as [_ Hall]. inversion Hall as [|? ? Hhr _]; subst.
      destruct (Hhr Hr) as [obj Hobj]. cbn in Hobj. congruence.
    + intros E' [= <-]. exists pre, h, r, post, e.
      repeat (split; [assumption|]). split; [reflexivity|]. exact HE.
Qed.
End SpreadResults.

(** ** Check subcluster and sandboxing: results *)

Section FirstDecisiveHost.
Variable parseScInfo : string -> string -> string -> result HTTPSCheckSubclusterOp.scInfo.
Variable parseMap : string -> string -> string -> result OpResponseMap.

Lemma checkResponse_None_iff
    (op : HTTPSCheckSubclusterOp.httpsCheckSubclusterOp)
    (h : string) (r : HostHTTPResult) :
  HTTPSCheckSubclusterOp.checkResponse parseScInfo op h r = None <->
  exists info,
    parseScInfo (HTTPSCheckSubclusterOp.name op) h (content r) = Ok info /\
    HTTPSCheckSubclusterOp.SCName info = HTTPSCheckSubclusterOp.scName op /\
    HTTPSCheckSubclusterOp.IsSecondary info = HTTPSCheckSubclusterOp.isSecondary op /\
    HTTPSCheckSubclusterOp.CtlSetSize info = HTTPSCheckSubclusterOp.ctlSetSize op.
Proof.
  unfold HTTPSCheckSubclusterOp.checkResponse.
  destruct (parseScInfo _ h (content r)) as [info|e].
  - destruct (String.eqb_spec (HTTPSCheckSubclusterOp.SCName info)
                (HTTPSCheckSubclusterOp.scName op)) as [Hn|Hn]; cbn [negb].
    + destruct (Bool.eqb_spec (HTTPSCheckSubclusterOp.IsSecondary info)
                  (HTTPSCheckSubclusterOp.isSecondary op)) as [Hs|Hs]; cbn [negb].
      * destruct (Z.eqb_spec (HTTPSCheckSubclusterOp.CtlSetSize info)
                    (HTTPSCheckSubclusterOp.ctlSetSize op)) as [Hc|Hc]; cbn [negb].
        -- split; [intros _; exists info; auto | reflexivity].
        -- split; [discriminate|]. intros [i [[= <-] [_ [_ Hc']]]]. contradiction.
      * split.
        -- destruct (HTTPSCheckSubclusterOp.isSecondary op); discriminate.
        -- intros [i [[= <-] [_ [Hs' _]]]]. contradiction.
    + split; [discriminate|]. intros [i [[= <-] [Hn' _]]]. contradiction.
  - split; [discriminate|]. intros [i [Hp _]]. discriminate.
Qed.

Lemma last_cons_default {A : Type} (l : list A) (x d : A) :
  List.last (x :: l) d = List.last l x.
Proof.
  revert x d. induction l as [|y l IH]; intros x d; [reflexivity|].
  change (List.last (x :: y :: l) d) with (List.last (y :: l) d).
  now rewrite !IH.
Qed.

Lemma checkSubcluster_loop_passed_over
    (op : HTTPSCheckSubclusterOp.httpsCheckSubclusterOp)
    (pre rest : list (string * HostHTTPResult)) (e : option error)
    (log : list logEntry) :
  Forall passedOver pre ->
  HTTPSCheckSubclusterOp.processResult_loop parseScInfo op (pre ++ rest) e log =
  HTTPSCheckSubclusterOp.processResult_loop parseScInfo op rest
    (List.last (List.map (fun hr => err (snd hr)) pre) e)
    (log ++ responseLog (HTTPSCheckSubclusterOp.name op) pre).
Proof.
  revert e log. induction pre as [|[h r] pre IH]; intros e log Hpre.
  - cbn. now rewrite app_nil_r.
  - inversion Hpre as [|? ? [Hu Hp] Hpre']; subst. cbn in Hu, Hp.
    cbn [app HTTPSCheckSubclusterOp.processResult_loop]. rewrite Hu, Hp.
    cbn [negb]. rewrite IH by assumption.
    cbn [responseLog List.map fst snd app]. rewrite <- app_assoc. f_equal.
    symmetry. apply last_cons_default.
Qed.

Lemma sandboxing_loop_passed_over
    (op : HTTPSSandboxingOp.httpsSandboxingOp)
    (pre rest : list (string * HostHTTPResult)) (allErrs : option error)
    (log : list logEntry) :
  Forall passedOver pre ->
  exists acc,
    HTTPSSandboxingOp.processResult_loop parseMap op (pre ++ rest) allErrs log =
    HTTPSSandboxingOp.processResult_loop parseMap op rest acc
      (log ++ responseLog (HTTPSSandboxingOp.name op) pre) /\
    joinedOf acc = joinedOf allErrs ++ List.flat_map joinedErrors (hostErrors pre) /\
    (acc = None <-> allErrs = None /\ pre = []).
Proof.
  revert allErrs log. induction pre as [|[h r] pre IH]; intros allErrs log Hpre.
  - exists allErrs. cbn. rewrite !app_nil_r. repeat split; tauto.
  - inversion Hpre as [|? ? [Hu Hp] Hpre']; subst. cbn in Hu, Hp.
    cbn [app HTTPSSandboxingOp.processResult_loop]. rewrite Hu, Hp.
    cbn [negb]. unfold isPassing in Hp.
    destruct (err r) as [er|] eqn:Her; [|discriminate].
    destruct (IH (errorsJoin [allErrs; Some er])
                 (log ++ [LogResponse (HTTPSSandboxingOp.name op) h r]) Hpre')
      as [acc [Hrun [Hleaves Hnone]]].
    exists acc. split; [|split].
    + rewrite Hrun. cbn [responseLog List.map fst snd app].
      now rewrite <- app_assoc.
    + rewrite Hleaves, errorsJoin_step, hostErrors_cons, Her.
      cbn [List.flat_map]. now rewrite <- !app_assoc.
    + rewrite Hnone. destruct (errorsJoin_two_joined allErrs er) as [E [HE _]].
      rewrite HE. split; [intros [? _]; discriminate | intros [_ ?]; discriminate].
Qed.

(** X11: in [httpsCheckSubclusterOp.processResult] the first passing host
    decides: whatever errors the failing hosts before it returned, the
    result is that of the checks on its response, which is nil exactly
    when the response parses and reports the expected subcluster name,
    kind and control set size; later hosts are not looked at. *)
Theorem httpsCheckSubclusterOp_first_passing_decides
    (op : HTTPSCheckSubclusterOp.httpsCheckSubclusterOp)
    (pre post : list (string * HostHTTPResult)) (h : string) (r : HostHTTPResult) :
  HTTPSCheckSubclusterOp.ResultCollection op = pre ++ (h, r) :: post ->
  Forall passedOver pre ->
  IsUnauthorizedRequest r = false ->
  isPassing r = true ->
  HTTPSCheckSubclusterOp.processResult parseScInfo op =
    (responseLog (HTTPSCheckSubclusterOp.name op) (pre ++ [(h, r)]),
     HTTPSCheckSubclusterOp.checkResponse parseScInfo op h r) /\
  (snd (HTTPSCheckSubclusterOp.processResult parseScInfo op) = None <->
   exists info,
     parseScInfo (HTTPSCheckSubclusterOp.name op) h (content r) = Ok info /\
     HTTPSCheckSubclusterOp.SCName info = HTTPSCheckSubclusterOp.scName op /\
     HTTPSCheckSubclusterOp.IsSecondary info = HTTPSCheckSubclusterOp.isSecondary op /\
     HTTPSCheckSubclusterOp.CtlSetSize info = HTTPSCheckSubclusterOp.ctlSetSize op).
Proof.
  intros Hrs Hpre Hu Hp.
  assert (Hrun : HTTPSCheckSubclusterOp.processResult parseScInfo op =
    (responseLog (HTTPSCheckSubclusterOp.name op) (pre ++ [(h, r)]),
     HTTPSCheckSubclusterOp.checkResponse parseScInfo op h r)).
  { unfold HTTPSCheckSubclusterOp.processResult. rewrite Hrs.
    rewrite checkSubcluster_loop_passed_over by exact Hpre.
    cbn [HTTPSCheckSubclusterOp.processResult_loop]. rewrite Hu, Hp. cbn [negb app].
    unfold responseLog. now rewrite List.map_app. }
  split; [exact Hrun|]. rewrite Hrun. cbn [snd]. apply checkResponse_None_iff.
Qed.

(** X12: when every host failed without being unauthorized,
    [httpsCheckSubclusterOp.processResult] returns the error of the last
    host in iteration order alone, whereas
    [httpsSandboxingOp.processResult] returns the join of the errors of
    all hosts; both log every host, and both return nil for an empty
    result collection. *)
Theorem all_hosts_failed_last_error_or_join
    (chk : HTTPSCheckSubclusterOp.httpsCheckSubclusterOp)
    (sbx : HTTPSSandboxingOp.httpsSandboxingOp) :
  (Forall passedOver (HTTPSCheckSubclusterOp.ResultCollection chk) ->
   HTTPSCheckSubclusterOp.processResult parseScInfo chk =
     (responseLog (HTTPSCheckSubclusterOp.name chk)
        (HTTPSCheckSubclusterOp.ResultCollection chk),
      List.last (List.map (fun hr => err (snd hr))
                   (HTTPSCheckSubclusterOp.ResultCollection chk)) None)) /\
  (Forall passedOver (HTTPSSandboxingOp.ResultCollection sbx) ->
   fst (HTTPSSandboxingOp.processResult parseMap sbx) =
     responseLog (HTTPSSandboxingOp.name sbx)
       (HTTPSSandboxingOp.ResultCollection sbx) /\
   joinedOf (snd (HTTPSSandboxingOp.processResult parseMap sbx)) =
     List.flat_map joinedErrors (hostErrors (HTTPSSandboxingOp.ResultCollection sbx)) /\
   (snd (HTTPSSandboxingOp.processResult parseMap sbx) = None <->
    HTTPSSandboxingOp.ResultCollection sbx = [])).
Proof.
  split.
  - intros Hall. unfold HTTPSCheckSubclusterOp.processResult.
    rewrite <- (app_nil_r (HTTPSCheckSubclusterOp.ResultCollection chk)) at 1.
    rewrite checkSubcluster_loop_passed_over by exact Hall. reflexivity.
  - intros Hall. unfold HTTPSSandboxingOp.processResult.
    destruct (sandboxing_loop_passed_over sbx
                (HTTPSSandboxingOp.ResultCollection sbx) [] None [] Hall)
      as [acc [Hrun [Hleaves Hnone]]].
    rewrite app_nil_r in Hrun. rewrite Hrun.
    cbn [HTTPSSandboxingOp.processResult_loop fst snd app].
    split; [reflexivity|]. split; [exact Hleaves|]. rewrite Hnone. tauto.
Qed.

(** X13: in [httpsSandboxingOp.processResult] the first passing host
    decides as well: the errors joined from the failing hosts before it
    are dropped, and the result is nil when its response parses and the
    wrapped parse error otherwise. *)
Theorem httpsSandboxingOp_first_passing_decides
    (op : HTTPSSandboxingOp.httpsSandboxingOp)
    (pre post : list (string * HostHTTPResult)) (h : string) (r : HostHTTPResult) :
  HTTPSSandboxingOp.ResultCollection op = pre ++ (h, r) :: post ->
  Forall passedOver pre ->
  IsUnauthorizedRequest r = false ->
  isPassing r = true ->
  HTTPSSandboxingOp.processResult parseMap op =
    (responseLog (HTTPSSandboxingOp.name op) (pre ++ [(h, r)]),
     match parseMap (HTTPSSandboxingOp.name op) h (content r) with
     | Ok _ => None
     | Fail e =>
         Some (Errorf_w ("[" +:+ HTTPSSandboxingOp.name op +:+
                         "] fail to parse result on host " +:+ h +:+
                         ", details: ") e "")
     end).
Proof.
  intros Hrs Hpre Hu Hp. unfold HTTPSSandboxingOp.processResult. rewrite Hrs.
  destruct (sandboxing_loop_passed_over op pre ((h, r) :: post) None [] Hpre)
    as [acc [Hrun _]].
  rewrite Hrun. cbn [HTTPSSandboxingOp.processResult_loop]. rewrite Hu, Hp.
  cbn [negb app]. unfold responseLog. rewrite List.map_app. cbn [List.map fst snd].
  destruct (parseMap (HTTPSSandboxingOp.name op) h (content r)); reflexivity.
Qed.
End FirstDecisiveHost.

Lemma httpsCheckSubclusterOp_first_passing_decides_witness :
  snd (HTTPSCheckSubclusterOp.processResult
         (fun _ _ c => Ok (HTTPSCheckSubclusterOp.mkScInfo c false 3))
         checkSubclusterOp) = None.
Proof.
  apply (httpsCheckSubclusterOp_first_passing_decides
           (fun _ _ c => Ok (HTTPSCheckSubclusterOp.mkScInfo c false 3))
           checkSubclusterOp
           [("10.0.0.1"%string,
             failingResult "10.0.0.1" (ErrorString "500 Internal Server Error"))]
           [] "10.0.0.2"
           (mkHostHTTPResult SUCCESS SuccessCode "10.0.0.2" "sc1" None)).
  - reflexivity.
  - repeat constructor.
  - reflexivity.
  - reflexivity.
  - eexists. split; [reflexivity|]. repeat split.
Defined.

Lemma httpsSandboxingOp_first_passing_decides_witness :
  snd (HTTPSSandboxingOp.processResult (fun _ _ _ => Ok ∅) sandboxingOp) = None.
Proof.
  rewrite (httpsSandboxingOp_first_passing_decides (fun _ _ _ => Ok ∅)
             sandboxingOp
             [("10.0.0.1"%string,
               failingResult "10.0.0.1" (ErrorString "500 Internal Server Error"))]
             [] "10.0.0.2"
             (mkHostHTTPResult SUCCESS SuccessCode "10.0.0.2" "sc1" None)).
  - reflexivity.
  - reflexivity.
  - repeat constructor.
  - reflexivity.
  - reflexivity.
Defined.

(** ** Download config: construction and [Prepare] *)

Section DownloadPrepare.
Variable BuildNMAEndpoint : string -> string.

Lemma download_make_loop_spec (opName : string)
    (nodeMap : gmap string VCoordinationNode) (todo : list string)
    (paths : gmap string string) :
  (Forall (fun h => is_Some (nodeMap !! h)) todo ->
   exists m,
     NMADownloadConfigRequests.MakeNMADownloadConfigOp_loop opName nodeMap todo paths
       = Returns m /\
     forall h, m !! h = if decide (h ∈ todo) then CatalogPath <$> nodeMap !! h
                        else paths !! h) /\
  (forall pre h post,
     todo = pre ++ h :: post ->
     Forall (fun h => is_Some (nodeMap !! h)) pre ->
     nodeMap !! h = None ->
     NMADownloadConfigRequests.MakeNMADownloadConfigOp_loop opName nodeMap todo paths
       = Panics ("[" +:+ opName +:+ "] fail to get catalog path from host " +:+ h)).
Proof.
  revert paths. induction todo as [|a rest IH]; intros paths.
  - split.
    + intros _. exists paths. split; [reflexivity|]. intros h.
      destruct (decide (h ∈ [])) as [Hin|_]; [|reflexivity].
      apply elem_of_nil in Hin. contradiction.
    + intros pre h post Heq. destruct pre; discriminate.
  - cbn [NMADownloadConfigRequests.MakeNMADownloadConfigOp_loop]. split.
    + intros Hall. inversion Hall as [|? ? [vnode Ha] Hrest]; subst. rewrite Ha.
      destruct (proj1 (IH (<[a := CatalogPath vnode]> paths)) Hrest) as [m [Hm Hlk]].
      exists m. split; [exact Hm|]. intros h. rewrite Hlk.
      destruct (decide (h ∈ rest)) as [Hin|Hnin].
      * destruct (decide (h ∈ a :: rest)) as [_|Hn]; [reflexivity|].
        exfalso. apply Hn. now right.
      * destruct (decide (h = a)) as [->|Hne].
        -- rewrite lookup_insert_eq, Ha.
           destruct (decide (a ∈ a :: rest)) as [_|Hn]; [reflexivity|].
           exfalso. apply Hn. now left.
        -- rewrite lookup_insert_ne by congruence.
           destruct (decide (h ∈ a :: rest)) as [Hin|_]; [|reflexivity].
           apply elem_of_cons in Hin as [?|?]; contradiction.
    + intros pre h post Heq Hpre Hh. destruct pre as [|p pre].
      * cbn [app] in Heq. injection Heq as -> ->. now rewrite Hh.
      * cbn [app] in Heq. injection Heq as -> ->.
        inversion Hpre as [|? ? [vnode Hp] Hpre']; subst. rewrite Hp.
        exact (proj2 (IH _) pre h post eq_refl Hpre' Hh).
Qed.

Lemma download_make_loop_returns (opName : string)
    (nodeMap : gmap string VCoordinationNode) (todo : list string)
    (paths m : gmap string string) :
  NMADownloadConfigRequests.MakeNMADownloadConfigOp_loop opName nodeMap todo paths
    = Returns m ->
  Forall (fun h => is_Some (nodeMap !! h)) todo.
Proof.
  revert paths. induction todo as [|a rest IH]; intros paths Hm; [constructor|].
  cbn [NMADownloadConfigRequests.MakeNMADownloadConfigOp_loop] in Hm.
  destruct (nodeMap !! a) as [vnode|] eqn:Ha; [|discriminate].
  constructor; [rewrite Ha; eauto | exact (IH _ Hm)].
Qed.

Lemma download_setup_loop_spec
    (op : NMADownloadConfigOp.NMADownloadConfigOp) (todo : list string)
    (reqs : gmap string NMADownloadConfigRequests.HostHTTPGetRequest) :
  Forall (fun h => is_Some (NMADownloadConfigOp.catalogPathMap op !! h)) todo ->
  exists m,
    NMADownloadConfigRequests.setupClusterHTTPRequest_loop BuildNMAEndpoint op todo reqs
      = Returns m /\
    forall h,
      m !! h =
        if decide (h ∈ todo) then
          (fun catalogPath =>
             NMADownloadConfigRequests.mkGetRequest
               NMADownloadConfigRequests.GetMethod
               (BuildNMAEndpoint (NMADownloadConfigOp.endpoint op))
               {["catalog_path"%string := catalogPath]})
            <$> NMADownloadConfigOp.catalogPathMap op !! h
        else reqs !! h.
Proof.
  revert reqs. induction todo as [|a rest IH]; intros reqs Hall.
  - exists reqs. split; [reflexivity|]. intros h.
    destruct (decide (h ∈ [])) as [Hin|_]; [|reflexivity].
    apply elem_of_nil in Hin. contradiction.
  - cbn [NMADownloadConfigRequests.setupClusterHTTPRequest_loop].
    inversion Hall as [|? ? [p Ha] Hrest]; subst. rewrite Ha.
    match goal with
    | |- context [NMADownloadConfigRequests.setupClusterHTTPRequest_loop _ _ _ ?r] =>
        destruct (IH r Hrest) as [m [Hm Hlk]]
    end.
    exists m. split; [exact Hm|]. intros h. rewrite Hlk.
    destruct (decide (h ∈ rest)) as [Hin|Hnin].
    + destruct (decide (h ∈ a :: rest)) as [_|Hn]; [reflexivity|].
      exfalso. apply Hn. now right.
    + destruct (decide (h = a)) as [->|Hne].
      * rewrite lookup_insert_eq, Ha.
        destruct (decide (a ∈ a :: rest)) as [_|Hn]; [reflexivity|].
        exfalso. apply Hn. now left.
      * rewrite lookup_insert_ne by congruence.
        destruct (decide (h ∈ a :: rest)) as [Hin|_]; [|reflexivity].
        apply elem_of_cons in Hin as [?|?]; contradiction.
Qed.

(** X14: [MakeNMADownloadConfigOp] panics exactly when a bootstrap host
    is missing from the node map, at the first such host; and on an
    operation it returned, [Prepare] never panics: it returns nil, sets
    up the dispatcher for the bootstrap hosts, and gives exactly the
    bootstrap hosts a GET request to the endpoint with the catalog path
    of the host's node as the only query parameter. *)
Theorem NMADownloadConfigOp_made_then_prepared
    {N : Type} (opName : string) (nodeMap : gmap string VCoordinationNode)
    (bootstrapHosts : list string) (endpoint : string) (fileContent : nat)
    (ctx : OpEngineExecContext N) :
  (forall pre h post,
     bootstrapHosts = pre ++ h :: post ->
     Forall (fun h => is_Some (nodeMap !! h)) pre ->
     nodeMap !! h = None ->
     NMADownloadConfigRequests.MakeNMADownloadConfigOp opName nodeMap
       bootstrapHosts endpoint fileContent =
     Panics ("[" +:+ opName +:+ "] fail to get catalog path from host " +:+ h)) /\
  (forall op,
     NMADownloadConfigRequests.MakeNMADownloadConfigOp opName nodeMap
       bootstrapHosts endpoint fileContent = Returns op ->
     Forall (fun h => is_Some (nodeMap !! h)) bootstrapHosts /\
     exists reqs,
       NMADownloadConfigRequests.Prepare BuildNMAEndpoint op ctx =
         Returns (reqs, dispatcherSetup ctx bootstrapHosts, None) /\
       forall h,
         reqs !! h =
           if decide (h ∈ bootstrapHosts) then
             (fun vnode =>
                NMADownloadConfigRequests.mkGetRequest
                  NMADownloadConfigRequests.GetMethod
                  (BuildNMAEndpoint endpoint)
                  {["catalog_path"%string := CatalogPath vnode]})
               <$> nodeMap !! h
           else None).
Proof.
  unfold NMADownloadConfigRequests.MakeNMADownloadConfigOp.
  destruct (download_make_loop_spec opName nodeMap bootstrapHosts ∅) as [Hok Hpanic].
  split.
  - intros pre h post Heq Hpre Hh. now rewrite (Hpanic pre h post Heq Hpre Hh).
  - intros op Hop.
    assert (Hall : Forall (fun h => is_Some (nodeMap !! h)) bootstrapHosts).
    { destruct (NMADownloadConfigRequests.MakeNMADownloadConfigOp_loop opName
                  nodeMap bootstrapHosts ∅) as [m|msg] eqn:Hm; [|discriminate].
      exact (download_make_loop_returns opName nodeMap bootstrapHosts ∅ m Hm). }
    split; [exact Hall|].
    destruct (Hok Hall) as [m [Hm Hlk]]. rewrite Hm in Hop. injection Hop as <-.
    unfold NMADownloadConfigRequests.Prepare,
      NMADownloadConfigRequests.setupClusterHTTPRequest.
    cbn [NMADownloadConfigOp.hosts].
    match goal with
    | |- context [NMADownloadConfigRequests.setupClusterHTTPRequest_loop _ ?o ?t ?r] =>
        destruct (download_setup_loop_spec o t r) as [reqs [Hreqs Hrl]]
    end.
    { cbn [NMADownloadConfigOp.catalogPathMap].
      apply Forall_forall. intros h Hin. rewrite Hlk.
      destruct (decide (h ∈ bootstrapHosts)) as [_|Hn]; [|contradiction].
      rewrite Forall_forall in Hall. apply fmap_is_Some, Hall, Hin. }
    rewrite Hreqs. exists reqs. split; [reflexivity|]. intros h. rewrite Hrl.
    cbn [NMADownloadConfigOp.catalogPathMap NMADownloadConfigOp.endpoint].
    destruct (decide (h ∈ bootstrapHosts)) as [Hin|Hnin].
    + rewrite Hlk. destruct (decide (h ∈ bootstrapHosts)) as [_|Hn]; [|contradiction].
      destruct (nodeMap !! h); reflexivity.
    + apply lookup_empty.
Qed.
End DownloadPrepare.

(** ** Coordination database: adding hosts *)

Lemma rangeOrder_map_to_list {V : Type} (m : gmap string V) :
  rangeOrder m (map_to_list m).
Proof.
  split; [apply NoDup_fst_map_to_list|]. intros h v. apply elem_of_map_to_list.
Qed.

Section VdbHosts.
Variable filepathJoin : list string -> string.
Variable IPv6ControlAddressFamily DefaultControlAddressFamily : string.
Variable GenVNodeName : gmap string string -> string -> Z -> option string.

Lemma addHosts_loop_spec (todo : list string) (scName : string)
    (total : Z) (names : gmap string string) (vdb vdb' : VCoordinationDatabase)
    (e : option error) :
  addHosts_loop filepathJoin IPv6ControlAddressFamily DefaultControlAddressFamily
    GenVNodeName todo scName total names vdb = Returns (vdb', e) ->
  exists pre post,
    todo = pre ++ post /\
    HostList vdb' = HostList vdb ++ pre /\
    NoDup pre /\
    (forall a, a ∈ pre ->
       entries (HostNodeMap vdb) !! a = None /\
       exists node, entries (HostNodeMap vdb') !! a = Some node /\
                    Address node = a /\ Subcluster node = scName) /\
    (forall a, a ∉ pre ->
       entries (HostNodeMap vdb') !! a = entries (HostNodeMap vdb) !! a) /\
    match e with
    | None => post = []
    | Some er =>
        exists h post', post = h :: post' /\
          (er = ErrorString ("could not generate a vnode name for " +:+ h) \/
           (is_Some (entries (HostNodeMap vdb') !! h) /\
            er = ErrorString ("host " +:+ h +:+
                              " has already been in the VDB's HostList")))
    end.
Proof.
  revert names vdb. induction todo as [|h rest IH]; intros names vdb Hrun.
  - cbn in Hrun. injection Hrun as <- <-. exists [], [].
      split; [reflexivity|]. split; [now rewrite app_nil_r|].
      split; [constructor|].
      split; [intros a Ha; apply elem_of_nil in Ha; contradiction|].
      split; [reflexivity|].
      reflexivity.
  - cbn [addHosts_loop] in Hrun.
    destruct (GenVNodeName names (DBName vdb) total) as [nodeName|].
    2:{ injection Hrun as <- <-. exists [], (h :: rest).
      split; [reflexivity|]. split; [now rewrite app_nil_r|].
      split; [constructor|].
      split; [intros a Ha; apply elem_of_nil in Ha; contradiction|].
      split; [reflexivity|].
      exists h, rest. split; [reflexivity|]. now left. }
    set (vn := setFromNodeConfig _ _ _ _ _ _) in Hrun.
    unfold addNode in Hrun.
    change (Address vn) with h in Hrun.
    destruct (entries (HostNodeMap vdb) !! h) as [old|] eqn:Hold.
    { injection Hrun as <- <-. exists [], (h :: rest).
      split; [reflexivity|]. split; [now rewrite app_nil_r|].
      split; [constructor|].
      split; [intros a Ha; apply elem_of_nil in Ha; contradiction|].
      split; [reflexivity|].
      exists h, rest. split; [reflexivity|]. right. rewrite Hold. eauto. }
    destruct (HostNodeMap vdb) as [m|] eqn:Hm; [|discriminate].
    cbn [entries] in Hold.
    apply IH in Hrun as [pre [post [Hsplit [Hlist [Hnd [Hnew [Hkeep He]]]]]]].
    cbn [setHosts HostList HostNodeMap entries] in Hlist, Hnew, Hkeep.
    assert (Hfresh : h ∉ pre).
    { intros Hin. destruct (Hnew h Hin) as [Hnone _].
      rewrite lookup_insert_eq in Hnone. discriminate. }
    exists (h :: pre), post. split; [now rewrite Hsplit|].
    split; [now rewrite Hlist, <- app_assoc|].
    split; [constructor; assumption|]. split; [|split].
    + intros a Ha. apply elem_of_cons in Ha as [->|Ha].
      * split; [exact Hold|]. rewrite (Hkeep h Hfresh), lookup_insert_eq.
        exists vn. repeat split.
      * destruct (Hnew a Ha) as [Hnone Hnode]. split; [|exact Hnode].
        destruct (decide (a = h)) as [->|Hne]; [contradiction|].
        now rewrite lookup_insert_ne in Hnone by congruence.
    + intros a Ha. rewrite not_elem_of_cons in Ha. destruct Ha as [Hne Ha].
      rewrite (Hkeep a Ha). now rewrite lookup_insert_ne by congruence.
    + exact He.
Qed.

Lemma addHosts_loop_succeeds (todo : list string) (scName : string)
    (total : Z) (names : gmap string string) (vdb : VCoordinationDatabase)
    (m : gmap string VCoordinationNode) :
  (forall nodeNameToHost dbName hostCount,
     is_Some (GenVNodeName nodeNameToHost dbName hostCount)) ->
  HostNodeMap vdb = Some m ->
  NoDup todo ->
  (forall a, a ∈ todo -> m !! a = None) ->
  exists vdb',
    addHosts_loop filepathJoin IPv6ControlAddressFamily DefaultControlAddressFamily
      GenVNodeName todo scName total names vdb = Returns (vdb', None).
Proof.
  intros Hgen. revert names vdb m.
  induction todo as [|h rest IH]; intros names vdb m Hm Hnd Hfresh.
  - eexists. reflexivity.
  - cbn [addHosts_loop].
    destruct (Hgen names (DBName vdb) total) as [nodeName ->].
    set (vn := setFromNodeConfig _ _ _ _ _ _).
    rewrite (addNode_fresh vdb vn m Hm) by (apply Hfresh; now left).
    inversion Hnd as [|? ? Hh Hrest]; subst.
    apply (IH _ _ (<[Address vn := vn]> m)); [reflexivity | exact Hrest |].
    intros a Ha. change (Address vn) with h.
    rewrite lookup_insert_ne by (intros ->; contradiction).
    apply Hfresh. now right.
Qed.

(** X15: when [addHosts] returns nil, [HostList] is the old list followed
    by the given hosts in order; the hosts were pairwise distinct and
    none was a key of [HostNodeMap] before; each is now filed with a node
    of that address in the given subcluster; every other entry of the
    map is unchanged. *)
Theorem addHosts_success
    (vdb vdb' : VCoordinationDatabase) (hosts : list string) (scName : string) :
  addHosts filepathJoin IPv6ControlAddressFamily DefaultControlAddressFamily
    GenVNodeName vdb hosts scName = Returns (vdb', None) ->
  HostList vdb' = HostList vdb ++ hosts /\
  NoDup hosts /\
  (forall a, a ∈ hosts ->
     entries (HostNodeMap vdb) !! a = None /\
     exists node, entries (HostNodeMap vdb') !! a = Some node /\
                  Address node = a /\ Subcluster node = scName) /\
  (forall a, a ∉ hosts ->
     entries (HostNodeMap vdb') !! a = entries (HostNodeMap vdb) !! a).
Proof.
  unfold addHosts. intros Hrun.
  apply addHosts_loop_spec in Hrun
    as [pre [post [Hsplit [Hlist [Hnd [Hnew [Hkeep ->]]]]]]].
  rewrite app_nil_r in Hsplit. subst pre. auto.
Qed.

(** X16: [addHosts] is not atomic.  When it returns an error at some
    host, the hosts before it stay added, to [HostList] and to
    [HostNodeMap]; the error is that no node name could be generated for
    the host, or that the host is already a key of the map, be it from
    before the call or from an earlier occurrence in the given hosts. *)
Theorem addHosts_failure_keeps_prefix
    (vdb vdb' : VCoordinationDatabase) (hosts : list string) (scName : string)
    (er : error) :
  addHosts filepathJoin IPv6ControlAddressFamily DefaultControlAddressFamily
    GenVNodeName vdb hosts scName = Returns (vdb', Some er) ->
  exists pre h post,
    hosts = pre ++ h :: post /\
    HostList vdb' = HostList vdb ++ pre /\
    (forall a, a ∈ pre -> is_Some (entries (HostNodeMap vdb') !! a)) /\
    (er = ErrorString ("could not generate a vnode name for " +:+ h) \/
     ((is_Some (entries (HostNodeMap vdb) !! h) \/ h ∈ pre) /\
      er = ErrorString ("host " +:+ h +:+
                        " has already been in the VDB's HostList"))).
Proof.
  unfold addHosts. intros Hrun.
  apply addHosts_loop_spec in Hrun
    as [pre [post [Hsplit [Hlist [Hnd [Hnew [Hkeep [h [post' [-> Herr]]]]]]]]]].
  exists pre, h, post'. split; [exact Hsplit|]. split; [exact Hlist|]. split.
  - intros a Ha. destruct (Hnew a Ha) as [_ [node [Hnode _]]]. rewrite Hnode. eauto.
  - destruct Herr as [Hgen|[Hkey Hmsg]]; [now left|]. right. split; [|exact Hmsg].
    destruct (decide (h ∈ pre)) as [Hin|Hnin]; [now right|]. left.
    now rewrite <- (Hkeep h Hnin).
Qed.
End VdbHosts.

(** ** Coordination database: which nodes are in the database *)

Section VdbContains.
Variable SliceDiff : list string -> list string -> list string.
Hypothesis SliceDiff_spec :
  forall m n x, x ∈ SliceDiff m n <-> x ∈ m /\ x ∉ n.

Lemma hostSet_lookup (nodes : list string) (s : gmap string unit) (a : string) :
  is_Some (foldl (fun acc n => <[n := tt]> acc) s nodes !! a) <->
  a ∈ nodes \/ is_Some (s !! a).
Proof.
  revert s. induction nodes as [|n nodes IH]; intros s.
  - cbn. rewrite elem_of_nil. tauto.
  - cbn [foldl]. rewrite IH, elem_of_cons.
    destruct (decide (a = n)) as [->|Hne].
    + rewrite lookup_insert_eq. split; [auto|]. intros _. right. eauto.
    + rewrite lookup_insert_ne by congruence. tauto.
Qed.

Lemma nodesInDB_elem (hostSet : gmap string unit)
    (order : list (string * VCoordinationNode)) (acc : list string) (a : string) :
  a ∈ foldl (fun acc hv =>
               match hostSet !! Address (snd hv) with
               | Some _ => acc ++ [Address (snd hv)]
               | None => acc
               end) acc order <->
  a ∈ acc \/
  (is_Some (hostSet !! a) /\ exists hv, hv ∈ order /\ Address (snd hv) = a).
Proof.
  revert acc. induction order as [|hv order IH]; intros acc.
  - cbn. split; [auto|]. intros [H|[_ [hv [Hhv _]]]]; [exact H|].
    apply elem_of_nil in Hhv. contradiction.
  - cbn [foldl]. rewrite IH.
    destruct (hostSet !! Address hv.2) as [u|] eqn:Hset.
    + rewrite elem_of_app, list_elem_of_singleton. split.
      * intros [[H | ->] | [Hs [hv' [Hin Ha]]]]; [now left | |].
        -- right. split; [rewrite Hset; eauto|]. exists hv. split; [now left|reflexivity].
        -- right. split; [exact Hs|]. exists hv'. split; [now right|exact Ha].
      * intros [H|[Hs [hv' [Hin Ha]]]]; [now left; left|].
        apply elem_of_cons in Hin as [->|Hin]; [left; right; now symmetry|].
        right. split; [exact Hs|]. exists hv'. split; assumption.
    + split.
      * intros [H|[Hs [hv' [Hin Ha]]]]; [now left|].
        right. split; [exact Hs|]. exists hv'. split; [now right|exact Ha].
      * intros [H|[Hs [hv' [Hin Ha]]]]; [now left|].
        apply elem_of_cons in Hin as [->|Hin].
        -- rewrite <- Ha, Hset in Hs. destruct Hs as [x Hx]. discriminate.
        -- right. split; [exact Hs|]. exists hv'. split; assumption.
Qed.

Lemma nodesInDB_NoDup (hostSet : gmap string unit)
    (order : list (string * VCoordinationNode)) (acc : list string) :
  NoDup (order.*1) ->
  (forall hv, hv ∈ order -> Address (snd hv) = fst hv) ->
  NoDup acc ->
  (forall a, a ∈ acc -> a ∉ order.*1) ->
  NoDup (foldl (fun acc hv =>
                  match hostSet !! Address (snd hv) with
                  | Some _ => acc ++ [Address (snd hv)]
                  | None => acc
                  end) acc order).
Proof.
  revert acc. induction order as [|hv order IH]; intros acc Hnd Hco Hacc Hdisj.
  - exact Hacc.
  - cbn [foldl]. cbn [fmap list_fmap] in Hnd, Hdisj.
    inversion Hnd as [|? ? Hhv Hnd']; subst.
    assert (Hco' : forall hv', hv' ∈ order -> Address hv'.2 = hv'.1).
    { intros hv' Hin. apply Hco. now right. }
    destruct (hostSet !! Address hv.2) as [u|].
    + apply IH; [exact Hnd' | exact Hco' | |].
      * apply NoDup_app. split; [exact Hacc|]. split; [|apply NoDup_singleton].
        intros x Hx Hx'. apply list_elem_of_singleton in Hx'. subst x.
        apply (Hdisj _ Hx). rewrite (Hco hv) by now left. now left.
      * intros a Ha. apply elem_of_app in Ha as [Ha|Ha].
        -- intros Hin. apply (Hdisj a Ha). now right.
        -- apply list_elem_of_singleton in Ha. subst a.
           rewrite (Hco hv) by now left. exact Hhv.
    + apply IH; [exact Hnd' | exact Hco' | exact Hacc |].
      intros a Ha Hin. apply (Hdisj a Ha). now right.
Qed.

Lemma containNodes_inDB (m : gmap string VCoordinationNode)
    (order : list (string * VCoordinationNode)) (nodes : list string) (a : string) :
  rangeOrder m order ->
  a ∈ fst (containNodes SliceDiff order nodes) <->
  a ∈ nodes /\ exists h vnode, m !! h = Some vnode /\ Address vnode = a.
Proof.
  intros [_ Hord].
  assert (Hfst : fst (containNodes SliceDiff order nodes) =
    foldl (fun acc hv =>
             match foldl (fun acc n => <[n := tt]> acc) (∅ : gmap string unit) nodes !! Address (snd hv) with
             | Some _ => acc ++ [Address (snd hv)]
             | None => acc
             end) [] order).
  { unfold containNodes.
    match goal with
    | |- context [if ?c then _ else _] => destruct c
    end; reflexivity. }
  rewrite Hfst, nodesInDB_elem, hostSet_lookup, elem_of_nil, lookup_empty. split.
  - intros [Hf | [Hs [hv [Hin Ha]]]]; [contradiction|].
    destruct Hs as [Hn | Hs]; [|destruct Hs as [x Hx]; discriminate].
    split; [exact Hn|]. destruct hv as [h v]. exists h, v.
    split; [now apply Hord | exact Ha].
  - intros [Hn [h [v [Hm Ha]]]]. right. split; [now left|].
    exists (h, v). split; [now apply Hord | exact Ha].
Qed.

Lemma containNodes_coherent (m : gmap string VCoordinationNode)
    (order : list (string * VCoordinationNode)) (nodes : list string) :
  rangeOrder m order ->
  (forall h vnode, m !! h = Some vnode -> Address vnode = h) ->
  NoDup (fst (containNodes SliceDiff order nodes)) /\
  forall a, a ∈ fst (containNodes SliceDiff order nodes) <->
            a ∈ nodes /\ is_Some (m !! a).
Proof.
  intros Hord Hco. split.
  - destruct Hord as [Hnd Hord].
    assert (Hfst : fst (containNodes SliceDiff order nodes) =
      foldl (fun acc hv =>
               match foldl (fun acc n => <[n := tt]> acc) (∅ : gmap string unit) nodes !! Address (snd hv) with
               | Some _ => acc ++ [Address (snd hv)]
               | None => acc
               end) [] order).
    { unfold containNodes.
      match goal with
      | |- context [if ?c then _ else _] => destruct c
      end; reflexivity. }
    rewrite Hfst. apply nodesInDB_NoDup.
    + exact Hnd.
    + intros [h v] Hin. cbn. apply Hco. now apply Hord.
    + constructor.
    + intros a Ha. apply elem_of_nil in Ha. contradiction.
  - intros a. rewrite (containNodes_inDB m order nodes a Hord). split.
    + intros [Hn [h [v [Hm Ha]]]]. split; [exact Hn|].
      rewrite <- Ha, (Hco h v Hm), Hm. eauto.
    + intros [Hn [v Hv]]. split; [exact Hn|]. exists a, v.
      split; [exact Hv | now apply Hco].
Qed.

(** X17: whatever the order of the loop, [containNodes] returns as
    [nodesInDB] exactly the addresses of nodes of the database that are
    among the given nodes.  When every node is filed under its own
    address and the given nodes are pairwise distinct, [nodesInDB] has no
    duplicates, [nodesNotInDB] is nil exactly when every given node is in
    the database, and otherwise it holds exactly the given nodes that are
    not. *)
Theorem containNodes_spec (vdb : VCoordinationDatabase)
    (order : list (string * VCoordinationNode)) (nodes : list string) :
  rangeOrder (entries (HostNodeMap vdb)) order ->
  (forall a, a ∈ fst (containNodes SliceDiff order nodes) <->
     a ∈ nodes /\
     exists h vnode, entries (HostNodeMap vdb) !! h = Some vnode /\ Address vnode = a) /\
  (addressCoherent vdb -> NoDup nodes ->
   NoDup (fst (containNodes SliceDiff order nodes)) /\
   (snd (containNodes SliceDiff order nodes) = None <->
    forall a, a ∈ nodes -> is_Some (entries (HostNodeMap vdb) !! a)) /\
   (forall l, snd (containNodes SliceDiff order nodes) = Some l ->
    forall x, x ∈ l <-> x ∈ nodes /\ entries (HostNodeMap vdb) !! x = None)).
Proof.
  intros Hord. split.
  - intros a. now apply containNodes_inDB.
  - intros Hco Hnodes.
    destruct (containNodes_coherent _ order nodes Hord Hco) as [Hnd Hin].
    split; [exact Hnd|].
    assert (Hsub : fst (containNodes SliceDiff order nodes) ⊆+ nodes).
    { apply NoDup_submseteq; [exact Hnd|]. intros x Hx. now apply Hin in Hx. }
    revert Hnd Hin Hsub. unfold containNodes.
    set (inDB := foldl _ [] order).
    destruct (length inDB =? length nodes)%nat eqn:Hlen; cbn [fst snd];
      intros Hnd Hin Hsub.
    + apply Nat.eqb_eq in Hlen. split.
      * split; [|reflexivity]. intros _ a Ha.
        assert (Hperm : inDB ≡ₚ nodes)
          by (apply submseteq_length_Permutation; [exact Hsub | lia]).
        rewrite <- Hperm in Ha. now apply Hin in Ha.
      * discriminate.
    + apply Nat.eqb_neq in Hlen. split.
      * split; [discriminate|]. intros Hall. exfalso. apply Hlen.
        apply Permutation_length, NoDup_Permutation; [exact Hnd | exact Hnodes|].
        intros x. rewrite Hin. split; [tauto|]. intros Hx. split; [exact Hx|].
        now apply Hall.
      * intros l [= <-] x. rewrite SliceDiff_spec, Hin. split.
        -- intros [Hx Hn]. split; [exact Hx|].
           destruct (entries (HostNodeMap vdb) !! x) eqn:E; [|reflexivity].
           exfalso. apply Hn. split; [exact Hx | eauto].
        -- intros [Hx Hn]. split; [exact Hx|]. intros [_ [v Hv]]. congruence.
Qed.
End VdbContains.

Lemma vdbOneNode_coherent : addressCoherent vdbOneNode.
Proof.
  intros h vnode Hlook. cbn in Hlook.
  apply lookup_singleton_Some in Hlook as [<- <-]. reflexivity.
Qed.

Lemma containNodes_spec_witness :
  NoDup (fst (containNodes utilSliceDiff
                (map_to_list (entries (HostNodeMap vdbOneNode)))
                ["10.0.0.1"%string; "10.0.0.9"%string])).
Proof.
  refine (proj1 (proj2 (containNodes_spec utilSliceDiff utilSliceDiff_spec
                          vdbOneNode _ ["10.0.0.1"%string; "10.0.0.9"%string]
                          (rangeOrder_map_to_list _))
                   vdbOneNode_coherent _)).
  apply NoDup_cons. split; [|apply NoDup_singleton].
  rewrite list_elem_of_singleton. discriminate.
Defined.

(** ** Add node: the requirements, then the hosts *)

Section AddNode.
Variable SliceDiff : list string -> list string -> list string.
Variable filepathJoin : list string -> string.
Variable IPv6ControlAddressFamily DefaultControlAddressFamily : string.
Variable GenVNodeName : gmap string string -> string -> Z -> option string.

Lemma checkAddNodeRequirements_None
    (order : list (string * VCoordinationNode)) (hostsToAdd : list string) :
  checkAddNodeRequirements SliceDiff order hostsToAdd = None <->
  fst (containNodes SliceDiff order hostsToAdd) = [].
Proof.
  unfold checkAddNodeRequirements.
  destruct (containNodes SliceDiff order hostsToAdd) as [nodes rest]. cbn [fst].
  destruct nodes as [|n nodes]; cbn; split; congruence.
Qed.

(** X18: the check made before adding nodes returns nil exactly when no
    given host is the address of a node of the database.  On a database
    whose nodes are filed under their own addresses and whose map is
    made, once the check has passed for pairwise distinct hosts,
    [addHosts] cannot fail on an existing host: if a node name can be
    generated for every host it returns nil, appends the hosts to
    [HostList] in order, and the nodes stay filed under their
    addresses. *)
Theorem checkAddNodeRequirements_then_addHosts
    (vdb : VCoordinationDatabase) (m : gmap string VCoordinationNode)
    (order : list (string * VCoordinationNode)) (hosts : list string)
    (scName : string) :
  HostNodeMap vdb = Some m ->
  rangeOrder m order ->
  (checkAddNodeRequirements SliceDiff order hosts = None <->
   forall a, a ∈ hosts ->
     ~ exists h vnode, m !! h = Some vnode /\ Address vnode = a) /\
  (addressCoherent vdb ->
   NoDup hosts ->
   (forall nodeNameToHost dbName hostCount,
      is_Some (GenVNodeName nodeNameToHost dbName hostCount)) ->
   checkAddNodeRequirements SliceDiff order hosts = None ->
   exists vdb',
     addHosts filepathJoin IPv6ControlAddressFamily DefaultControlAddressFamily
       GenVNodeName vdb hosts scName = Returns (vdb', None) /\
     HostList vdb' = HostList vdb ++ hosts /\
     addressCoherent vdb').
Proof.
  intros Hm Hord.
  assert (Hcheck : checkAddNodeRequirements SliceDiff order hosts = None <->
    forall a, a ∈ hosts ->
      ~ exists h vnode, m !! h = Some vnode /\ Address vnode = a).
  { rewrite checkAddNodeRequirements_None. split.
    - intros Hnil a Ha Hex.
      assert (Hin : a ∈ fst (containNodes SliceDiff order hosts))
        by (apply (containNodes_inDB SliceDiff m order hosts a Hord); auto).
      rewrite Hnil in Hin. apply elem_of_nil in Hin. contradiction.
    - intros Hnone.
      destruct (fst (containNodes SliceDiff order hosts)) as [|x l] eqn:Hfst;
        [reflexivity|]. exfalso.
      assert (Hin : x ∈ fst (containNodes SliceDiff order hosts))
        by (rewrite Hfst; now left).
      apply (containNodes_inDB SliceDiff m order hosts x Hord) in Hin as [Hx Hex].
      exact (Hnone x Hx Hex). }
  split; [exact Hcheck|].
  intros Hco Hnd Hgen Hpass.
  assert (Hfresh : forall a, a ∈ hosts -> m !! a = None).
  { intros a Ha. destruct (m !! a) as [v|] eqn:Hv; [|reflexivity]. exfalso.
    apply (proj1 Hcheck Hpass a Ha). exists a, v. split; [exact Hv|].
    apply Hco. now rewrite Hm. }
  destruct (addHosts_loop_succeeds filepathJoin IPv6ControlAddressFamily
              DefaultControlAddressFamily GenVNodeName hosts scName
              (Z.of_nat (length hosts) + Z.of_nat (length (HostList vdb)))
              (genNodeNameToHostMap vdb) vdb m Hgen Hm Hnd Hfresh) as [vdb' Hrun].
  exists vdb'. split; [exact Hrun|].
  apply addHosts_loop_spec in Hrun
    as [pre [post [Hsplit [Hlist [_ [Hnew [Hkeep ->]]]]]]].
  rewrite app_nil_r in Hsplit. subst pre. split; [exact Hlist|].
  intros h vnode Hlook. destruct (decide (h ∈ hosts)) as [Hin|Hnin].
  - destruct (Hnew h Hin) as [_ [node [Hnode [Haddr _]]]]. congruence.
  - rewrite (Hkeep h Hnin) in Hlook. now apply Hco.
Qed.
End AddNode.

Lemma addHosts_success_witness :
  HostList vdbThreeNodes =
    HostList vdbOneNode ++ ["10.0.0.2"%string; "10.0.0.3"%string].
Proof.
  refine (proj1 (addHosts_success joinSlash "ipv6" "ipv4" nextNodeName
                   vdbOneNode vdbThreeNodes
                   ["10.0.0.2"%string; "10.0.0.3"%string] "sc1" _)).
  vm_compute. reflexivity.
Defined.

Lemma addHosts_failure_keeps_prefix_witness :
  exists pre h post,
    ["10.0.0.2"%string; "10.0.0.1"%string; "10.0.0.3"%string] = pre ++ h :: post /\
    HostList vdbStopped = HostList vdbOneNode ++ pre /\
    (forall a, a ∈ pre -> is_Some (entries (HostNodeMap vdbStopped) !! a)) /\
    (ErrorString "host 10.0.0.1 has already been in the VDB's HostList" =
       ErrorString ("could not generate a vnode name for " +:+ h) \/
     ((is_Some (entries (HostNodeMap vdbOneNode) !! h) \/ h ∈ pre) /\
      ErrorString "host 10.0.0.1 has already been in the VDB's HostList" =
        ErrorString ("host " +:+ h +:+ " has already been in the VDB's HostList"))).
Proof.
  apply (addHosts_failure_keeps_prefix joinSlash "ipv6" "ipv4" nextNodeName
           vdbOneNode vdbStopped
           ["10.0.0.2"%string; "10.0.0.1"%string; "10.0.0.3"%string] "sc1").
  vm_compute. reflexivity.
Defined.

Lemma checkAddNodeRequirements_then_addHosts_witness :
  exists vdb',
    addHosts joinSlash "ipv6" "ipv4" nextNodeName vdbOneNode
      ["10.0.0.2"%string; "10.0.0.3"%string] "sc1" = Returns (vdb', None) /\
    HostList vdb' = HostList vdbOneNode ++ ["10.0.0.2"%string; "10.0.0.3"%string] /\
    addressCoherent vdb'.
Proof.
  refine (proj2 (checkAddNodeRequirements_then_addHosts utilSliceDiff joinSlash
                   "ipv6" "ipv4" nextNodeName vdbOneNode
                   (entries (HostNodeMap vdbOneNode))
                   (map_to_list (entries (HostNodeMap vdbOneNode)))
                   ["10.0.0.2"%string; "10.0.0.3"%string] "sc1"
                   eq_refl (rangeOrder_map_to_list _))
                vdbOneNode_coherent _ _ _).
  - apply NoDup_cons. split; [|apply NoDup_singleton].
    rewrite list_elem_of_singleton. discriminate.
  - intros names db n. unfold nextNodeName. eauto.
  - vm_compute. reflexivity.
Defined.

(** ** Coordination database: subclusters, node names, primary nodes *)

Lemma getSCNames_loop_spec (order : list (string * VCoordinationNode))
    (allKeys : gmap string bool) (scNames : list string) :
  NoDup scNames ->
  (forall sc, is_Some (allKeys !! sc) <-> sc ∈ scNames) ->
  let out := foldl getSCNames_step (allKeys, scNames) order in
  NoDup (snd out) /\
  (forall sc, sc ∈ snd out <->
              sc ∈ scNames \/ exists hv, hv ∈ order /\ Subcluster (snd hv) = sc) /\
  exists more, snd out = scNames ++ more.
Proof.
  revert allKeys scNames. induction order as [|hv order IH];
    intros allKeys scNames Hnd Hkeys.
  - cbn. split; [exact Hnd|]. split.
    + intros sc. split; [auto|]. intros [H|[hv [Hin _]]]; [exact H|].
      apply elem_of_nil in Hin. contradiction.
    + exists []. now rewrite app_nil_r.
  - cbn [foldl].
    change (getSCNames_step (allKeys, scNames) hv) with
      (match allKeys !! Subcluster hv.2 with
       | Some _ => (allKeys, scNames)
       | None => (<[Subcluster hv.2 := true]> allKeys, scNames ++ [Subcluster hv.2])
       end).
    destruct (allKeys !! Subcluster hv.2) as [b|] eqn:Hsc.
    + destruct (IH allKeys scNames Hnd Hkeys) as [Hnd' [Hin' Hmore]].
      cbv zeta. split; [exact Hnd'|]. split; [|exact Hmore].
      intros sc. rewrite Hin'. split.
      * intros [H|[hv' [Hin Hs]]]; [now left|]. right. exists hv'.
        split; [now right | exact Hs].
      * intros [H|[hv' [Hin Hs]]]; [now left|].
        apply elem_of_cons in Hin as [Heq|Hin].
        -- left. apply Hkeys. subst hv'. rewrite <- Hs, Hsc. eauto.
        -- right. exists hv'. split; assumption.
    + assert (Hfresh : Subcluster hv.2 ∉ scNames).
      { intros Hin. apply Hkeys in Hin as [x Hx]. congruence. }
      destruct (IH (<[Subcluster hv.2 := true]> allKeys)
                   (scNames ++ [Subcluster hv.2])) as [Hnd' [Hin' [more Hmore]]].
      * apply NoDup_app. split; [exact Hnd|]. split; [|apply NoDup_singleton].
        intros x Hx Hx'. apply list_elem_of_singleton in Hx'. now subst x.
      * intros sc. rewrite elem_of_app, list_elem_of_singleton.
        destruct (decide (sc = Subcluster hv.2)) as [->|Hne].
        -- rewrite lookup_insert_eq. split; [auto | eauto].
        -- rewrite lookup_insert_ne by congruence. rewrite Hkeys. tauto.
      * cbv zeta. split; [exact Hnd'|]. split.
        -- intros sc. rewrite Hin', elem_of_app, list_elem_of_singleton. split.
           ++ intros [[H|H]|[hv' [Hin Hs]]]; [now left | |].
              ** right. exists hv. split; [now left | now symmetry].
              ** right. exists hv'. split; [now right | exact Hs].
           ++ intros [H|[hv' [Hin Hs]]]; [now left; left|].
              apply elem_of_cons in Hin as [Heq|Hin].
              ** left. right. subst hv'. now symmetry.
              ** right. exists hv'. split; assumption.
        -- exists ([Subcluster hv.2] ++ more). rewrite Hmore.
           now rewrite <- app_assoc.
Qed.

(** X19: whatever the order of the loop, [getSCNames] returns every
    subcluster that a node of the database belongs to, each once, and
    nothing else. *)
Theorem getSCNames_spec (vdb : VCoordinationDatabase)
    (order : list (string * VCoordinationNode)) :
  rangeOrder (entries (HostNodeMap vdb)) order ->
  NoDup (getSCNames order) /\
  forall sc, sc ∈ getSCNames order <->
    exists h vnode, entries (HostNodeMap vdb) !! h = Some vnode /\
                    Subcluster vnode = sc.
Proof.
  intros [_ Hord]. unfold getSCNames.
  destruct (getSCNames_loop_spec order ∅ []) as [Hnd [Hin _]].
  - constructor.
  - intros sc. rewrite lookup_empty, elem_of_nil. split; [intros [x Hx]; discriminate|].
    contradiction.
  - split; [exact Hnd|]. intros sc. rewrite Hin, elem_of_nil. split.
    + intros [Hf|[[h v] [Hhv Hs]]]; [contradiction|].
      exists h, v. split; [now apply Hord | exact Hs].
    + intros [h [v [Hm Hs]]]. right. exists (h, v). split; [now apply Hord | exact Hs].
Qed.

(** X20: [genNodeNameToHostMap] maps every node name of the database to a
    host that holds a node of that name, and nothing else; when the node
    names are pairwise distinct it is the inverse of the database's map
    from hosts to node names. *)
Theorem genNodeNameToHostMap_spec (vdb : VCoordinationDatabase) :
  let names := genNodeNameToHostMap vdb in
  (forall n h, names !! n = Some h ->
     exists vnode, entries (HostNodeMap vdb) !! h = Some vnode /\ Name vnode = n) /\
  (forall h vnode, entries (HostNodeMap vdb) !! h = Some vnode ->
     is_Some (names !! Name vnode)) /\
  ((forall h1 h2 v1 v2,
      entries (HostNodeMap vdb) !! h1 = Some v1 ->
      entries (HostNodeMap vdb) !! h2 = Some v2 ->
      Name v1 = Name v2 -> h1 = h2) ->
   forall h vnode, entries (HostNodeMap vdb) !! h = Some vnode ->
     names !! Name vnode = Some h).
Proof.
  cbv zeta.
  assert (H : (forall n h,
                 genNodeNameToHostMap vdb !! n = Some h ->
                 exists vnode, entries (HostNodeMap vdb) !! h = Some vnode /\
                               Name vnode = n) /\
              (forall h vnode, entries (HostNodeMap vdb) !! h = Some vnode ->
                 is_Some (genNodeNameToHostMap vdb !! Name vnode))).
  { unfold genNodeNameToHostMap.
    apply (map_fold_weak_ind
             (fun (r : gmap string string) (m : gmap string VCoordinationNode) =>
                (forall n h, r !! n = Some h ->
                   exists vnode, m !! h = Some vnode /\ Name vnode = n) /\
                (forall h vnode, m !! h = Some vnode -> is_Some (r !! Name vnode)))).
    - split.
      + intros n h Hl. rewrite lookup_empty in Hl. discriminate.
      + intros h v Hl. rewrite lookup_empty in Hl. discriminate.
    - intros i x m r Hi [H1 H2]. split.
      + intros n h Hl. destruct (decide (n = Name x)) as [->|Hne].
        * rewrite lookup_insert_eq in Hl. injection Hl as <-.
          exists x. split; [apply lookup_insert_eq | reflexivity].
        * rewrite lookup_insert_ne in Hl by congruence.
          destruct (H1 n h Hl) as [v [Hv Hn]]. exists v. split; [|exact Hn].
          rewrite lookup_insert_ne; [exact Hv|]. intros <-. congruence.
      + intros h v Hl. destruct (decide (Name v = Name x)) as [->|Hne].
        * rewrite lookup_insert_eq. eauto.
        * rewrite lookup_insert_ne by congruence.
          destruct (decide (h = i)) as [->|Hhi].
          -- rewrite lookup_insert_eq in Hl. congruence.
          -- rewrite lookup_insert_ne in Hl by congruence. exact (H2 h v Hl). }
  destruct H as [H1 H2]. split; [exact H1|]. split; [exact H2|].
  intros Hinj h v Hl. destruct (H2 h v Hl) as [h' Hh'].
  destruct (H1 _ _ Hh') as [v' [Hv' Hn]].
  rewrite Hh'. f_equal. exact (Hinj h' h v' v Hv' Hl Hn).
Qed.

Section PrimaryNodes.
Variable mapsKeys : gmap string VCoordinationNode -> list string.
Hypothesis mapsKeys_spec : forall m, iterationOrder m (mapsKeys m).

Lemma filterPrimary_loop_lookup (order : list (string * VCoordinationNode))
    (acc : gmap string VCoordinationNode) (h : string) (v : VCoordinationNode) :
  NoDup (order.*1) ->
  foldl (fun acc hv => if IsPrimary (snd hv) then <[fst hv := snd hv]> acc else acc)
        acc order !! h = Some v <->
  ((h, v) ∈ order /\ IsPrimary v = true) \/
  (acc !! h = Some v /\
   ~ exists v', (h, v') ∈ order /\ IsPrimary v' = true).
Proof.
  revert acc. induction order as [|[h0 v0] order IH]; intros acc Hnd.
  - cbn. split.
    + intros Hl. right. split; [exact Hl|]. intros [v' [Hin _]].
      apply elem_of_nil in Hin. contradiction.
    + intros [[Hin _]|[Hl _]]; [|exact Hl]. apply elem_of_nil in Hin. contradiction.
  - cbn [fmap list_fmap fst] in Hnd. inversion Hnd as [|? ? Hh0 Hnd']; subst.
    cbn [foldl fst snd]. rewrite (IH _ Hnd').
    assert (Hnot : forall v', (h0, v') ∉ order).
    { intros v' Hin. apply Hh0. apply list_elem_of_fmap. exists (h0, v'). auto. }
    destruct (IsPrimary v0) eqn:Hp.
    + split.
      * intros [[Hin Hv]|[Hl Hno]].
        -- left. split; [now right | exact Hv].
        -- destruct (decide (h = h0)) as [->|Hne].
           ++ rewrite lookup_insert_eq in Hl. injection Hl as <-.
              left. split; [now left | exact Hp].
           ++ rewrite lookup_insert_ne in Hl by congruence. right.
              split; [exact Hl|]. intros [v' [Hin Hv']].
              apply elem_of_cons in Hin as [[= -> ->]|Hin]; [congruence|].
              apply Hno. eauto.
      * intros [[Hin Hv]|[Hl Hno]].
        -- apply elem_of_cons in Hin as [[= -> ->]|Hin]; [|now left].
           right. split; [apply lookup_insert_eq|]. intros [v' [Hin _]].
           exact (Hnot v' Hin).
        -- right. split.
           ++ rewrite lookup_insert_ne; [exact Hl|]. intros <-.
              apply Hno. exists v0. split; [now left | exact Hp].
           ++ intros [v' [Hin Hv']]. apply Hno. exists v'.
              split; [now right | exact Hv'].
    + split.
      * intros [[Hin Hv]|[Hl Hno]].
        -- left. split; [now right | exact Hv].
        -- right. split; [exact Hl|]. intros [v' [Hin Hv']].
           apply elem_of_cons in Hin as [[= -> ->]|Hin]; [congruence|].
           apply Hno. eauto.
      * intros [[Hin Hv]|[Hl Hno]].
        -- apply elem_of_cons in Hin as [[= -> ->]|Hin]; [congruence|now left].
        -- right. split; [exact Hl|]. intros [v' [Hin Hv']]. apply Hno.
           exists v'. split; [now right | exact Hv'].
Qed.

(** X21: whatever the state of [HostList] before, after
    [filterPrimaryNodes] the map holds exactly the primary nodes of the
    database, unchanged, and [HostList] holds exactly the keys of the
    map, each once. *)
Theorem filterPrimaryNodes_spec (vdb : VCoordinationDatabase)
    (order : list (string * VCoordinationNode)) :
  rangeOrder (entries (HostNodeMap vdb)) order ->
  let vdb' := filterPrimaryNodes mapsKeys vdb order in
  vdb_hosts_inv vdb' /\
  forall h vnode,
    entries (HostNodeMap vdb') !! h = Some vnode <->
    entries (HostNodeMap vdb) !! h = Some vnode /\ IsPrimary vnode = true.
Proof.
  intros [Hnd Hord]. cbv zeta. unfold filterPrimaryNodes.
  cbn [setHosts HostNodeMap HostList entries makeVHostNodeMap]. split.
  - exact (mapsKeys_spec _).
  - intros h v. rewrite (filterPrimary_loop_lookup order ∅ h v Hnd).
    rewrite lookup_empty, Hord. split.
    + intros [H|[Hf _]]; [exact H | discriminate].
    + intros H. now left.
Qed.
End PrimaryNodes.

Lemma keysOfEntries_spec (m : gmap string VCoordinationNode) :
  iterationOrder m (keysOfEntries m).
Proof.
  split; [apply NoDup_fst_map_to_list|]. intros h. unfold keysOfEntries.
  rewrite list_elem_of_fmap. split.
  - intros [[h' v] [-> Hin]]. apply elem_of_map_to_list in Hin. cbn. eauto.
  - intros [v Hv]. exists (h, v). split; [reflexivity|].
    now apply elem_of_map_to_list.
Qed.

Lemma getSCNames_spec_witness :
  NoDup (getSCNames (map_to_list (entries (HostNodeMap vdbThreeNodes)))).
Proof.
  exact (proj1 (getSCNames_spec vdbThreeNodes _ (rangeOrder_map_to_list _))).
Defined.

Lemma filterPrimaryNodes_spec_witness :
  vdb_hosts_inv
    (filterPrimaryNodes keysOfEntries vdbThreeNodes
       (map_to_list (entries (HostNodeMap vdbThreeNodes)))).
Proof.
  exact (proj1 (filterPrimaryNodes_spec keysOfEntries keysOfEntries_spec
                  vdbThreeNodes _ (rangeOrder_map_to_list _))).
Defined.

(** ** Start database: trimming the host list *)

Section TrimHosts.
Variable Node : Type.
Variable fmtHosts : list string -> string.
Variable fmtNodeMap : gmap string Node -> string.

Lemma removeHosts_loop_spec (hostNodeMap : gmap string Node)
    (hosts trimmed extra : list string) :
  foldl (removeHostsNotInCatalog_step Node hostNodeMap) (trimmed, extra) hosts =
    (trimmed ++ List.filter (fun h => bool_decide (is_Some (hostNodeMap !! h))) hosts,
     extra ++ List.filter (fun h => negb (bool_decide (is_Some (hostNodeMap !! h)))) hosts).
Proof.
  revert trimmed extra. induction hosts as [|h hosts IH]; intros trimmed extra.
  - cbn. now rewrite !app_nil_r.
  - cbn [foldl List.filter]. unfold removeHostsNotInCatalog_step at 2.
    destruct (hostNodeMap !! h) as [n|] eqn:Hh.
    + rewrite IH. rewrite (bool_decide_eq_true_2 _ (mk_is_Some _ _ eq_refl)).
      cbn [negb]. now rewrite <- app_assoc.
    + rewrite IH. rewrite bool_decide_eq_false_2 by (intros [x Hx]; discriminate).
      cbn [negb]. now rewrite <- app_assoc.
Qed.

(** X22: [removeHostsNotInCatalog] returns the given hosts that are keys
    of the catalog's node map, in the given order and as often as given;
    it returns the list as given exactly when every host is a key, and
    exactly then it prints no message about trimmed hosts; applied to its
    own result it changes nothing. *)
Theorem removeHostsNotInCatalog_spec (hostNodeMap : gmap string Node)
    (hosts : list string) :
  let out := removeHostsNotInCatalog Node fmtHosts fmtNodeMap hostNodeMap hosts in
  snd out = List.filter (fun h => bool_decide (is_Some (hostNodeMap !! h))) hosts /\
  (snd out = hosts <-> forall h, h ∈ hosts -> is_Some (hostNodeMap !! h)) /\
  (length (fst out) = 1%nat <-> forall h, h ∈ hosts -> is_Some (hostNodeMap !! h)) /\
  snd (removeHostsNotInCatalog Node fmtHosts fmtNodeMap hostNodeMap (snd out)) = snd out.
Proof.
  assert (Hall : forall l : list string,
    List.filter (fun h => bool_decide (is_Some (hostNodeMap !! h))) l = l <->
    forall h, h ∈ l -> is_Some (hostNodeMap !! h)).
  { intros l. induction l as [|a l IH]; cbn [List.filter].
    - split; [|reflexivity]. intros _ h Hh. apply elem_of_nil in Hh. contradiction.
    - destruct (bool_decide (is_Some (hostNodeMap !! a))) eqn:Ha.
      + apply bool_decide_eq_true in Ha. split.
        * intros [= Heq] h Hh. apply elem_of_cons in Hh as [->|Hh]; [exact Ha|].
          now apply IH.
        * intros H. f_equal. apply IH. intros h Hh. apply H. now right.
      + apply bool_decide_eq_false in Ha. split.
        * intros Heq. exfalso.
          assert (Hlen : (length (List.filter
                     (fun h => bool_decide (is_Some (hostNodeMap !! h))) l)
                   <= length l)%nat) by apply List.filter_length_le.
          rewrite Heq in Hlen. cbn in Hlen. lia.
        * intros H. exfalso. apply Ha, H. now left. }
  assert (Hextra : forall l : list string,
    List.filter (fun h => negb (bool_decide (is_Some (hostNodeMap !! h)))) l = [] <->
    forall h, h ∈ l -> is_Some (hostNodeMap !! h)).
  { intros l. induction l as [|a l IH]; cbn [List.filter].
    - split; [|reflexivity]. intros _ h Hh. apply elem_of_nil in Hh. contradiction.
    - destruct (bool_decide (is_Some (hostNodeMap !! a))) eqn:Ha; cbn [negb].
      + apply bool_decide_eq_true in Ha. rewrite IH. split.
        * intros H h Hh. apply elem_of_cons in Hh as [->|Hh]; [exact Ha | now apply H].
        * intros H h Hh. apply H. now right.
      + apply bool_decide_eq_false in Ha. split; [discriminate|].
        intros H. exfalso. apply Ha, H. now left. }
  assert (Hrun : forall l,
    removeHostsNotInCatalog Node fmtHosts fmtNodeMap hostNodeMap l =
      ((if (0 <? length (List.filter
                 (fun h => negb (bool_decide (is_Some (hostNodeMap !! h)))) l))%nat
        then
          [Info "checking if any input hosts can be removed"
             ["hosts"%string; fmtHosts l; "hostNodeMap"%string; fmtNodeMap hostNodeMap];
           LogInfo ("The following hosts will be trimmed as they are not found in catalog: "
                    +:+ fmtHosts (List.filter
                          (fun h => negb (bool_decide (is_Some (hostNodeMap !! h)))) l))]
        else
          [Info "checking if any input hosts can be removed"
             ["hosts"%string; fmtHosts l; "hostNodeMap"%string; fmtNodeMap hostNodeMap]]),
       List.filter (fun h => bool_decide (is_Some (hostNodeMap !! h))) l)).
  { intros l. unfold removeHostsNotInCatalog. rewrite removeHosts_loop_spec.
    cbn [app]. destruct (0 <? _)%nat; reflexivity. }
  cbv zeta. rewrite !Hrun. cbn [fst snd]. split; [reflexivity|].
  split; [apply Hall|]. split.
  - rewrite <- Hextra.
    destruct (List.filter (fun h => negb (bool_decide (is_Some (hostNodeMap !! h)))) hosts)
      as [|x l]; cbn; split; congruence.
  - apply Hall. intros h Hh. apply list_elem_of_In, List.filter_In in Hh as [_ Hh].
    now apply bool_decide_eq_true in Hh.
Qed.
End TrimHosts.

(** ** Create depots: results *)

Section DepotResults.
Variable parse : string -> string -> string -> result OpResponseMap.

Lemma depot_processResult_loop_spec
    (op : HTTPSCreateNodesDepotOp.HTTPSCreateNodesDepotOp)
    (rs : list (string * HostHTTPResult)) (success : bool) (log : list logCall) :
  let out := HTTPSCreateNodesDepotOp.processResult_loop parse op rs success log in
  loggedHosts (fst out) = loggedHosts log ++ List.map fst rs /\
  (snd out = true <-> success = true /\ Forall (depotAccepted parse op) rs).
Proof.
  revert success log. induction rs as [|[h r] rs IH]; intros success log.
  - cbn. rewrite app_nil_r. split; [reflexivity|]. split; [auto | tauto].
  - cbn [HTTPSCreateNodesDepotOp.processResult_loop].
    assert (Hlog : forall extra,
      loggedHosts extra = [] ->
      loggedHosts ((log ++ [CallLogResponse (HTTPSCreateNodesDepotOp.name op) h r])
                   ++ extra) ++ List.map fst rs =
      loggedHosts log ++ List.map fst ((h, r) :: rs)).
    { intros extra Hextra. unfold loggedHosts in *.
      rewrite !omap_app, Hextra. cbn. now rewrite app_nil_r, <- app_assoc. }
    assert (Hrej : forall b log',
      ~ depotAccepted parse op (h, r) ->
      loggedHosts log' ++ List.map fst rs = loggedHosts log ++ List.map fst ((h, r) :: rs) ->
      let out := HTTPSCreateNodesDepotOp.processResult_loop parse op rs false log' in
      loggedHosts (fst out) = loggedHosts log ++ List.map fst ((h, r) :: rs) /\
      (snd out = true <-> b = true /\ Forall (depotAccepted parse op) ((h, r) :: rs))).
    { intros b log' Hno Hl. destruct (IH false log') as [H1 H2]. cbv zeta.
      split; [now rewrite H1|]. rewrite H2. split; [intros [? _]; discriminate|].
      intros [_ Hall]. inversion Hall; subst. contradiction. }
    destruct (isPassing r) eqn:Hp; cbn [negb].
    + destruct (parse (HTTPSCreateNodesDepotOp.name op) h (content r)) as [resp|e] eqn:Hparse.
      * destruct (String.eqb_spec (default EmptyString (resp !! "node"%string))
                    (Name (HTTPSCreateNodesDepotOp.nodeOf op h))) as [Hn|Hn];
          cbn [negb orb].
        -- destruct (String.eqb_spec
                       (default EmptyString (resp !! "depot_location"%string))
                       (DepotPath (HTTPSCreateNodesDepotOp.nodeOf op h))) as [Hd|Hd];
             cbn [negb].
           ++ destruct (IH success
                          (log ++ [CallLogResponse (HTTPSCreateNodesDepotOp.name op) h r]))
                as [H1 H2].
              cbv zeta. split.
              ** rewrite H1. rewrite <- (Hlog [] eq_refl). now rewrite app_nil_r.
              ** rewrite H2. split.
                 --- intros [Hs Hall]. split; [exact Hs|]. constructor; [|exact Hall].
                     split; [exact Hp|]. exists resp. cbn [fst snd]. auto.
                 --- intros [Hs Hall]. inversion Hall; subst. auto.
           ++ apply Hrej; [|now apply Hlog].
              intros [_ [resp' [Hp' [_ Hd']]]]. cbn [fst snd] in *. congruence.
        -- apply Hrej; [|now apply Hlog].
           intros [_ [resp' [Hp' [Hn' _]]]]. cbn [fst snd] in *. congruence.
      * apply Hrej; [|now apply Hlog].
        intros [_ [resp' [Hp' _]]]. cbn [fst snd] in *. congruence.
    + apply Hrej.
      * intros [Hp' _]. cbn [snd] in Hp'. congruence.
      * rewrite <- (Hlog [] eq_refl). now rewrite app_nil_r.
Qed.

(** X23: [HTTPSCreateNodesDepotOp.processResult] passes exactly when
    every host's result is passing, parses and names the node and the
    depot path the operation holds for that host; it never stops early:
    the response of every host is logged, in iteration order, whatever
    the hosts before it returned. *)
Theorem HTTPSCreateNodesDepotOp_processResult_all_hosts
    (op : HTTPSCreateNodesDepotOp.HTTPSCreateNodesDepotOp) :
  let out := HTTPSCreateNodesDepotOp.processResult parse op in
  loggedHosts (fst out) =
    List.map fst (HTTPSCreateNodesDepotOp.ResultCollection op) /\
  (snd out = HTTPSCreateNodesDepotOp.ClusterOpResultPass <->
   Forall (depotAccepted parse op) (HTTPSCreateNodesDepotOp.ResultCollection op)) /\
  (snd out <> HTTPSCreateNodesDepotOp.ClusterOpResultPass ->
   snd out = HTTPSCreateNodesDepotOp.ClusterOpResultFail).
Proof.
  unfold HTTPSCreateNodesDepotOp.processResult.
  destruct (depot_processResult_loop_spec op
              (HTTPSCreateNodesDepotOp.ResultCollection op) true []) as [Hlog Hok].
  destruct (HTTPSCreateNodesDepotOp.processResult_loop parse op
              (HTTPSCreateNodesDepotOp.ResultCollection op) true []) as [log success].
  cbn [fst snd] in *. cbv zeta. cbn [fst snd]. split; [exact Hlog|]. split.
  - destruct success.
    + split; [intros _; now apply Hok | reflexivity].
    + split; [discriminate|]. intros Hall.
      discriminate (proj2 Hok (conj eq_refl Hall)).
  - destruct success; [contradiction | reflexivity].
Qed.
End DepotResults.

(** ** Poll the subscription state *)

Section PollSubscriptions.
Variable isPwdErr : HostHTTPResult -> bool.
Variable parse :
  string -> string -> string ->
  result (list HTTPSPollSubscriptionStateOp.subscriptionInfo).
Variable fmtHosts : list string -> string.

Lemma allActive_spec (l : list HTTPSPollSubscriptionStateOp.subscriptionInfo) :
  HTTPSPollSubscriptionStateOp.allActive l = true <->
  Forall (fun s => HTTPSPollSubscriptionStateOp.SubscriptionState s = "ACTIVE"%string) l.
Proof.
  induction l as [|s l IH]; cbn [HTTPSPollSubscriptionStateOp.allActive].
  - split; [constructor | reflexivity].
  - destruct (String.eqb_spec (HTTPSPollSubscriptionStateOp.SubscriptionState s)
                "ACTIVE") as [Hs|Hs]; cbn [negb].
    + rewrite IH. split; [now constructor | now inversion 1].
    + split; [discriminate | inversion 1; contradiction].
Qed.

Lemma poll_loop_skipped
    (op : HTTPSPollSubscriptionStateOp.httpsPollSubscriptionStateOp)
    (pre rest : list (string * HostHTTPResult)) (log : list logCall) :
  Forall (pollSkipped isPwdErr) pre ->
  HTTPSPollSubscriptionStateOp.shouldStopPolling_loop isPwdErr parse fmtHosts op
    (pre ++ rest) log =
  HTTPSPollSubscriptionStateOp.shouldStopPolling_loop isPwdErr parse fmtHosts op
    rest (log ++ List.map (fun hr => CallLogResponse
                             (HTTPSPollSubscriptionStateOp.name op) (fst hr) (snd hr))
                    pre).
Proof.
  revert log. induction pre as [|[h r] pre IH]; intros log Hpre.
  - cbn. now rewrite app_nil_r.
  - inversion Hpre as [|? ? [Hw Hp] Hpre']; subst. cbn [fst snd] in Hw, Hp.
    cbn [app HTTPSPollSubscriptionStateOp.shouldStopPolling_loop].
    rewrite Hw, Hp, IH by exact Hpre'. cbn [List.map fst snd].
    now rewrite <- app_assoc.
Qed.

(** X24: [shouldStopPolling] is decided by the first host, in iteration
    order, that has a credential error or a passing result; failing hosts
    before it are passed over.  A credential error or a response that
    does not parse stops the polling with an error; a passing host stops
    it without error exactly when all its subscriptions are ACTIVE, and
    otherwise the polling goes on, as it does when no host decides.  An
    error is never returned together with the request to go on. *)
Theorem shouldStopPolling_spec
    (op : HTTPSPollSubscriptionStateOp.httpsPollSubscriptionStateOp) :
  let out := HTTPSPollSubscriptionStateOp.shouldStopPolling isPwdErr parse fmtHosts op in
  (snd out <> None -> snd (fst out) = true) /\
  (Forall (pollSkipped isPwdErr) (HTTPSPollSubscriptionStateOp.ResultCollection op) ->
   snd (fst out) = false /\ snd out = None) /\
  (forall pre h r post,
     HTTPSPollSubscriptionStateOp.ResultCollection op = pre ++ (h, r) :: post ->
     Forall (pollSkipped isPwdErr) pre ->
     (isPwdErr r = true ->
      snd (fst out) = true /\
      snd out = Some (ErrorString
                        ("[" +:+ HTTPSPollSubscriptionStateOp.name op +:+
                         "] wrong password/certificate for https service on host "
                         +:+ h))) /\
     (isPwdErr r = false -> isPassing r = true ->
      match parse (HTTPSPollSubscriptionStateOp.name op) h (content r) with
      | Fail e => snd (fst out) = true /\ snd out = Some e
      | Ok l =>
          snd out = None /\
          (snd (fst out) = true <->
           Forall (fun s => HTTPSPollSubscriptionStateOp.SubscriptionState s =
                            "ACTIVE"%string) l)
      end)).
Proof.
  cbv zeta. unfold HTTPSPollSubscriptionStateOp.shouldStopPolling. split; [|split].
  - generalize (@nil logCall).
    induction (HTTPSPollSubscriptionStateOp.ResultCollection op) as [|[h r] rs IH];
      intros log.
    + cbn. congruence.
    + cbn [HTTPSPollSubscriptionStateOp.shouldStopPolling_loop].
      destruct (isPwdErr r); [reflexivity|].
      destruct (isPassing r); [|apply IH].
      destruct (parse _ h (content r)) as [l|e]; [|reflexivity].
      destruct (HTTPSPollSubscriptionStateOp.allActive l); cbn; congruence.
  - intros Hall.
    rewrite <- (app_nil_r (HTTPSPollSubscriptionStateOp.ResultCollection op)).
    rewrite poll_loop_skipped by exact Hall. cbn. auto.
  - intros pre h r post Hrs Hpre. rewrite Hrs.
    rewrite poll_loop_skipped by exact Hpre.
    cbn [HTTPSPollSubscriptionStateOp.shouldStopPolling_loop]. split.
    + intros Hw. rewrite Hw. cbn. auto.
    + intros Hw Hp. rewrite Hw, Hp.
      destruct (parse _ h (content r)) as [l|e]; [|cbn; auto].
      rewrite <- allActive_spec.
      destruct (HTTPSPollSubscriptionStateOp.allActive l); cbn.
      * split; [reflexivity | tauto].
      * split; [reflexivity|]. split; discriminate.
Qed.
End PollSubscriptions.

(** ** Restart nodes *)

Section RestartNodesRun.
Variable Config Instructions : Type.
Variable fmtHosts : list string -> string.
Variable produce : RestartNodes.VRestartNodesInfo -> result Instructions.
Variable Run : Instructions -> option error.

Lemma classify_unknown (names : gmap string string)
    (pre post : list (string * string)) (nodename newIP : string)
    (info : RestartNodes.VRestartNodesInfo) (noNeed : list string) :
  Forall (fun nodeIP => is_Some (names !! fst nodeIP)) pre ->
  names !! nodename = None ->
  RestartNodes.classify names (pre ++ (nodename, newIP) :: post) info noNeed =
    inl nodename.
Proof.
  revert info noNeed. induction pre as [|[n ip] pre IH]; intros info noNeed Hpre Hno.
  - cbn. now rewrite Hno.
  - inversion Hpre as [|? ? [old Hn] Hpre']; subst. cbn [fst] in Hn.
    cbn [app RestartNodes.classify]. rewrite Hn.
    destruct (negb (String.eqb old ip)); now apply IH.
Qed.

Lemma classify_known (names : gmap string string) (todo : list (string * string))
    (info : RestartNodes.VRestartNodesInfo) (noNeed : list string) :
  Forall (fun nodeIP => is_Some (names !! fst nodeIP)) todo ->
  RestartNodes.classify names todo info noNeed =
    inr ({| RestartNodes.ReIPList :=
              RestartNodes.ReIPList info ++
              List.map snd (List.filter (needsReIP names) todo);
            RestartNodes.NodeNamesToRestart :=
              RestartNodes.NodeNamesToRestart info ++
              List.map fst (List.filter (needsReIP names) todo);
            RestartNodes.HostsToRestart := RestartNodes.HostsToRestart info |},
         noNeed ++
         List.map snd (List.filter (fun nodeIP => negb (needsReIP names nodeIP)) todo)).
Proof.
  revert info noNeed. induction todo as [|[n ip] todo IH]; intros info noNeed Hall.
  - cbn. rewrite !app_nil_r. now destruct info.
  - inversion Hall as [|? ? [old Hn] Hall']; subst. cbn [fst] in Hn.
    assert (Hneed : needsReIP names (n, ip) = negb (String.eqb old ip))
      by (unfold needsReIP; cbn [fst snd]; now rewrite Hn).
    cbn [RestartNodes.classify List.filter]. rewrite Hn, Hneed.
    destruct (negb (String.eqb old ip)); cbn [negb List.map fst snd].
    + rewrite IH by exact Hall'. cbn [RestartNodes.ReIPList
        RestartNodes.NodeNamesToRestart RestartNodes.HostsToRestart].
      now rewrite <- !app_assoc.
    + rewrite IH by exact Hall'. now rewrite <- !app_assoc.
Qed.

(** X25: when the configuration, the options and the database
    information were obtained without error and a requested node name is
    not the name of a node of the database, [VRestartNodes] prints that
    the node name does not exist and returns nil, the value of [err] at
    that point: it reports success although no instructions were
    produced and nothing was run. *)
Theorem VRestartNodes_unknown_node_returns_nil
    (config : Config) (order : list (string * VCoordinationNode))
    (pre post : list (string * string)) (nodename newIP : string) :
  Forall (fun nodeIP => is_Some (RestartNodes.hostNodeNameMap order !! fst nodeIP)) pre ->
  RestartNodes.hostNodeNameMap order !! nodename = None ->
  RestartNodes.VRestartNodes Config Instructions fmtHosts (Ok config) None
    (order, None) produce Run (pre ++ (nodename, newIP) :: post) =
  ([RestartNodes.EvLog
      (CallPrintError ("node name " +:+ nodename +:+ " does not exist"))],
   None).
Proof.
  intros Hpre Hno. unfold RestartNodes.VRestartNodes.
  now rewrite (classify_unknown _ pre post nodename newIP _ _ Hpre Hno).
Qed.

(** X26: when every requested node name is known, the instructions are
    asked for once, with the re-IP list holding the requested addresses
    that differ from the catalog's, in order, with the names of their
    nodes; the hosts to restart are the re-IP list when it is not empty,
    and then the requested hosts whose address is unchanged are left
    out; they are restarted only when no node needs a re-IP.  The
    error returned is that of producing the instructions or of the run. *)
Theorem VRestartNodes_hosts_to_restart
    (config : Config) (order : list (string * VCoordinationNode))
    (Nodes : list (string * string)) :
  Forall (fun nodeIP => is_Some (RestartNodes.hostNodeNameMap order !! fst nodeIP))
    Nodes ->
  let names := RestartNodes.hostNodeNameMap order in
  let reIP := List.filter (needsReIP names) Nodes in
  let same := List.filter (fun nodeIP => negb (needsReIP names nodeIP)) Nodes in
  let info :=
    {| RestartNodes.ReIPList := List.map snd reIP;
       RestartNodes.NodeNamesToRestart := List.map fst reIP;
       RestartNodes.HostsToRestart :=
         match reIP with
         | [] => List.map snd same
         | _ => List.map snd reIP
         end |} in
  let out := RestartNodes.VRestartNodes Config Instructions fmtHosts (Ok config) None
               (order, None) produce Run Nodes in
  producedWith (fst out) info /\
  snd out = match produce info with
            | Fail e => Some e
            | Ok instructions => Run instructions
            end /\
  (In RestartNodes.EvRun (fst out) <-> exists instructions, produce info = Ok instructions).
Proof.
  intros Hall. cbv zeta. unfold RestartNodes.VRestartNodes.
  rewrite (classify_known _ Nodes _ _ Hall).
  cbn [RestartNodes.ReIPList RestartNodes.NodeNamesToRestart
       RestartNodes.HostsToRestart app].
  destruct (List.filter (needsReIP (RestartNodes.hostNodeNameMap order)) Nodes)
    as [|x reIP] eqn:HreIP.
  - cbn [List.map length Nat.eqb negb].
    destruct (produce _) as [instructions|e] eqn:Hprod.
    + destruct (Run instructions) as [e|]; cbn [fst snd app]; unfold producedWith;
        cbn; (split; [reflexivity|]); (split; [reflexivity|]);
        (split; [eauto | intros _; tauto]).
    + cbn [fst snd app]. unfold producedWith. cbn.
      split; [reflexivity|]. split; [reflexivity|]. split.
      * intros [H|[H|[]]]; discriminate.
      * intros [i Hi]. discriminate.
  - cbn [List.map length Nat.eqb negb].
    destruct (negb (length _ =? 0)%nat).
    + destruct (produce _) as [instructions|e] eqn:Hprod.
      * destruct (Run instructions) as [e|]; cbn [fst snd app]; unfold producedWith;
          cbn; (split; [reflexivity|]); (split; [reflexivity|]);
          (split; [eauto | intros _; tauto]).
      * cbn [fst snd app]. unfold producedWith. cbn.
        split; [reflexivity|]. split; [reflexivity|]. split.
        -- intros [H|[H|[H|[]]]]; discriminate.
        -- intros [i Hi]. discriminate.
    + destruct (produce _) as [instructions|e] eqn:Hprod.
      * destruct (Run instructions) as [e|]; cbn [fst snd app]; unfold producedWith;
          cbn; (split; [reflexivity|]); (split; [reflexivity|]);
          (split; [eauto | intros _; tauto]).
      * cbn [fst snd app]. unfold producedWith. cbn.
        split; [reflexivity|]. split; [reflexivity|]. split.
        -- intros [H|[H|[]]]; discriminate.
        -- intros [i Hi]. discriminate.
Qed.
End RestartNodesRun.

Lemma VRestartNodes_unknown_node_returns_nil_witness :
  restartOneNode [("v_db_node0009"%string, "10.0.0.9"%string)] =
  ([RestartNodes.EvLog (CallPrintError "node name v_db_node0009 does not exist")],
   None).
Proof.
  apply (VRestartNodes_unknown_node_returns_nil unit unit (String.concat " ")
           (fun _ => Ok tt) (fun _ => None) tt oneNodeEntries [] []
           "v_db_node0009" "10.0.0.9").
  - constructor.
  - vm_compute. reflexivity.
Defined.

Lemma VRestartNodes_hosts_to_restart_witness :
  producedWith (fst (restartOneNode [("v_db_node0001"%string, "10.0.0.7"%string)]))
    (RestartNodes.mkInfo ["10.0.0.7"%string] ["v_db_node0001"%string]
       ["10.0.0.7"%string]).
Proof.
  refine (proj1 (VRestartNodes_hosts_to_restart unit unit (String.concat " ")
                   (fun _ => Ok tt) (fun _ => None) tt oneNodeEntries
                   [("v_db_node0001"%string, "10.0.0.7"%string)] _)).
  constructor; [|constructor]. vm_compute. eauto.
Defined.
